(** * NPZ: the simulation engine of [src/components/GameCanvas.tsx]

    A shallow embedding of the fixed-step [update] function of the game canvas
    and of the helpers it calls ([createExplosion], [activateSpell], [checkHit]),
    followed by the properties of the engine that the specification states.

    Conventions of the embedding.
    - JavaScript numbers that carry fractions (positions, velocities, hit
      points, damage, shields, cooldowns) are exact rationals [Q]; frame
      counters that the code only increments, decrements or tests against
      integers are [nat]; counters that may go below zero ([chainCount]) and
      the score and currency totals are [Z].
    - [Math.sqrt(dx*dx + dy*dy) < r] is [dist_lt], the comparison of the squares,
      which is the same test over the reals.
    - [Math.cos], [Math.sin], [Math.atan2], [Math.PI] and the stream of values
      returned by [Math.random()] are parameters of the development;
      [CANVAS_WIDTH], [CANVAS_HEIGHT] and [SPELL_CARDS] (module [../constants],
      not part of the sources at hand) are parameters as well.
    - The world is the single mutable object [gameState.current]: [State].
      Entities live in the arrays [enemies] and [bullets] and are updated in
      place, so every loop body takes the index of the entity it works on and
      reads and writes the array through that index; [forEach] visits the
      indices that exist when the loop starts.
    - [onGameOver] is an external callback: each call is appended to the log
      [events] of the state.
    - Particles, audio cues, HUD publication, dialogue and banner timers and the
      mob pool do not feed back into the simulation state that is modelled and
      are left out.  The spawn director ([spawnEnemy], [generateBoss]), the
      ghost-drone state machine, the attack scripts of bosses and mini bosses
      and the special motions of projectiles are parameters whose types say
      which parts of the world they may change. *)

From Stdlib Require Import QArith Qround Qminmax Lqa.
From stdpp Require Import gmap strings list fin_maps.

Local Open Scope Q_scope.

(** ** Numbers *)

Definition Qltb (a b : Q) : bool :=
  match a ?= b with Lt => true | _ => false end.

Definition Qleb (a b : Q) : bool :=
  match a ?= b with Gt => false | _ => true end.

(** [Math.sqrt((x1-x2)^2 + (y1-y2)^2) < r]. *)
Definition dist_lt (x1 y1 x2 y2 r : Q) : bool :=
  Qltb 0 r &&
  Qltb ((x1 - x2) * (x1 - x2) + (y1 - y2) * (y1 - y2)) (r * r).

(** [Math.min] and [Math.max] on rationals. *)
Definition Math_min (a b : Q) : Q := if Qleb a b then a else b.
Definition Math_max (a b : Q) : Q := if Qleb a b then b else a.

(** Truthiness of an optional counter: [t && t > 0]. *)
Definition positive_timer (t : option nat) : bool :=
  match t with Some (S _) => true | _ => false end.

(** [(t || 0)]. *)
Definition or0 (t : option nat) : nat := default 0%nat t.
Definition orQ (d : Q) (t : option Q) : Q := default d t.

(** ** Enumerations ([types.ts]) *)

Inductive Difficulty :=
  EASY | NORMAL | HARD | EXTREME | INFINITY | BOSS_RUSH | BOSS_RUSH_EXTREME.

Inductive WeaponId :=
  | PLASMA_CUTTER | HOMING_NEEDLES | SPREAD_SHOTGUN | LASER_STREAM
  | WAVE_MOTION | ORBITING_ORBS | ROCKET_BARRAGE | CHAIN_LIGHTNING
  | BACK_TURRET | VORTEX_DRIVER | GAUSS_CANNON | PULSE_NOVA | PHASE_BLADES.

Inductive SpellCardId :=
  | TIME_DILATOR | EMP_BLAST | OVERCLOCK | PHANTOM_DASH
  | ORBITAL_STRIKE | NANO_REPAIR | AEGIS_SHIELD | STASIS_FIELD.

Inductive BoosterId :=
  | EXTRA_LIFE | ATTACK_UP | REGEN_UP | CDR_UP
  | LOOT_UP | EXTRA_WEAPON | EXTRA_SPELL | DMG_RED.

Inductive EnemyType :=
  | T_drone | T_tank | T_interceptor | T_seeker | T_stealth | T_boss
  | T_seraph_drone | T_oracle_minion | T_gorgon | T_kamikaze | T_aegis_bot
  | T_swarmer | T_lich | T_sniper | T_reflector | T_breacher
  | T_illusion_clone | T_boss_clone | T_alp_reflector | T_alp_mini_boss.

Inductive Variant :=
  | V_alpha | V_beta | V_gamma | V_delta | V_theta
  | V_somniomancer | V_revenant | V_alptraum.

Inductive BossState := S_entering | S_fighting.
Inductive Owner := by_player | by_enemy.
Inductive EntryType := mob_entry | boss_entry.

#[global] Instance Difficulty_eq_dec : EqDecision Difficulty.
Proof. solve_decision. Defined.
#[global] Instance WeaponId_eq_dec : EqDecision WeaponId.
Proof. solve_decision. Defined.
#[global] Instance SpellCardId_eq_dec : EqDecision SpellCardId.
Proof. solve_decision. Defined.
#[global] Instance BoosterId_eq_dec : EqDecision BoosterId.
Proof. solve_decision. Defined.
#[global] Instance EnemyType_eq_dec : EqDecision EnemyType.
Proof. solve_decision. Defined.
#[global] Instance Variant_eq_dec : EqDecision Variant.
Proof. solve_decision. Defined.
#[global] Instance BossState_eq_dec : EqDecision BossState.
Proof. solve_decision. Defined.
#[global] Instance Owner_eq_dec : EqDecision Owner.
Proof. solve_decision. Defined.
#[global] Instance EntryType_eq_dec : EqDecision EntryType.
Proof. solve_decision. Defined.

(** The string value of a spell id, used as key of [activeBuffs]. *)
Definition spell_key (s : SpellCardId) : string :=
  match s with
  | TIME_DILATOR => "time_dilator" | EMP_BLAST => "emp_blast"
  | OVERCLOCK => "overclock" | PHANTOM_DASH => "phantom_dash"
  | ORBITAL_STRIKE => "orbital_strike" | NANO_REPAIR => "nano_repair"
  | AEGIS_SHIELD => "aegis_shield" | STASIS_FIELD => "stasis_field"
  end.

(** ** Entities ([types.ts]) *)

(** Optional properties of an enemy that only the parameterised behaviours
    (ghost drones, boss attack scripts) read and write. *)
Record EnemyExt := {
  currentAttack : option nat;
  attackTimer : option nat;
  dashState : option string;
  dashTimer : option nat;
  mimicType : option Variant;
  mimicTimer : option nat;
  ghostType : option EnemyType;
  ghostState : option string;
  ghostTimer : option Q;
  targetPos : option (Q * Q);
  trinityTimer : option Z;
  summonBatchCount : option nat;
  trinityActive : bool;
  duoActive : bool;
  duoTimer : option Z
}.

(** [interface Enemy extends Entity]; the cosmetic [color] is left out. *)
Record Enemy := {
  e_id : string;
  e_x : Q;
  e_y : Q;
  e_width : Q;
  e_height : Q;
  e_vx : Q;
  e_vy : Q;
  e_dead : bool;
  e_hp : Q;
  e_maxHp : Q;
  e_type : EnemyType;
  e_variant : option Variant;
  e_scoreValue : Z;
  e_patternTimer : nat;
  e_shotTimer : Q;
  e_state : option BossState;
  e_frozenTimer : option nat;
  e_phase : option nat;
  e_phaseTransitionTimer : option nat;
  e_fightStartFrame : option nat;
  e_dmgReduction : option Q;
  e_dmgReductionTimer : option nat;
  e_parentId : option string;
  e_orbitAngle : option Q;
  e_orbitRadius : option Q;
  e_orbitSpeed : option Q;
  e_shieldHp : option Q;
  e_shieldMax : option Q;
  e_shieldActive : bool;  (* undefined is false *)
  e_shieldTimer : option nat;
  e_laserCharge : option nat;
  e_isReflecting : bool;
  e_burstCount : option nat;
  e_targetAngle : option Q;
  e_invulnTimer : option nat;
  e_gravityDir : option (Q * Q);
  e_gravityTimer : option nat;
  e_isGhost : bool;
  e_ext : EnemyExt
}.

Definition set_e_x (v : Q) (e : Enemy) : Enemy :=
  {| e_id := e_id e; e_x := v; e_y := e_y e; e_width := e_width e; e_height := e_height e;
     e_vx := e_vx e; e_vy := e_vy e; e_dead := e_dead e; e_hp := e_hp e; e_maxHp := e_maxHp e;
     e_type := e_type e; e_variant := e_variant e; e_scoreValue := e_scoreValue e;
     e_patternTimer := e_patternTimer e; e_shotTimer := e_shotTimer e; e_state := e_state e;
     e_frozenTimer := e_frozenTimer e; e_phase := e_phase e;
     e_phaseTransitionTimer := e_phaseTransitionTimer e;
     e_fightStartFrame := e_fightStartFrame e; e_dmgReduction := e_dmgReduction e;
     e_dmgReductionTimer := e_dmgReductionTimer e; e_parentId := e_parentId e;
     e_orbitAngle := e_orbitAngle e; e_orbitRadius := e_orbitRadius e;
     e_orbitSpeed := e_orbitSpeed e; e_shieldHp := e_shieldHp e; e_shieldMax := e_shieldMax e;
     e_shieldActive := e_shieldActive e; e_shieldTimer := e_shieldTimer e;
     e_laserCharge := e_laserCharge e; e_isReflecting := e_isReflecting e;
     e_burstCount := e_burstCount e; e_targetAngle := e_targetAngle e;
     e_invulnTimer := e_invulnTimer e; e_gravityDir := e_gravityDir e;
     e_gravityTimer := e_gravityTimer e; e_isGhost := e_isGhost e; e_ext := e_ext e |}.
Definition set_e_y (v : Q) (e : Enemy) : Enemy :=
  {| e_id := e_id e; e_x := e_x e; e_y := v; e_width := e_width e; e_height := e_height e;
     e_vx := e_vx e; e_vy := e_vy e; e_dead := e_dead e; e_hp := e_hp e; e_maxHp := e_maxHp e;
     e_type := e_type e; e_variant := e_variant e; e_scoreValue := e_scoreValue e;
     e_patternTimer := e_patternTimer e; e_shotTimer := e_shotTimer e; e_state := e_state e;
     e_frozenTimer := e_frozenTimer e; e_phase := e_phase e;
     e_phaseTransitionTimer := e_phaseTransitionTimer e;
     e_fightStartFrame := e_fightStartFrame e; e_dmgReduction := e_dmgReduction e;
     e_dmgReductionTimer := e_dmgReductionTimer e; e_parentId := e_parentId e;
     e_orbitAngle := e_orbitAngle e; e_orbitRadius := e_orbitRadius e;
     e_orbitSpeed := e_orbitSpeed e; e_shieldHp := e_shieldHp e; e_shieldMax := e_shieldMax e;
     e_shieldActive := e_shieldActive e; e_shieldTimer := e_shieldTimer e;
     e_laserCharge := e_laserCharge e; e_isReflecting := e_isReflecting e;
     e_burstCount := e_burstCount e; e_targetAngle := e_targetAngle e;
     e_invulnTimer := e_invulnTimer e; e_gravityDir := e_gravityDir e;
     e_gravityTimer := e_gravityTimer e; e_isGhost := e_isGhost e; e_ext := e_ext e |}.
Definition set_e_vx (v : Q) (e : Enemy) : Enemy :=
  {| e_id := e_id e; e_x := e_x e; e_y := e_y e; e_width := e_width e; e_height := e_height e;
     e_vx := v; e_vy := e_vy e; e_dead := e_dead e; e_hp := e_hp e; e_maxHp := e_maxHp e;
     e_type := e_type e; e_variant := e_variant e; e_scoreValue := e_scoreValue e;
     e_patternTimer := e_patternTimer e; e_shotTimer := e_shotTimer e; e_state := e_state e;
     e_frozenTimer := e_frozenTimer e; e_phase := e_phase e;
     e_phaseTransitionTimer := e_phaseTransitionTimer e;
     e_fightStartFrame := e_fightStartFrame e; e_dmgReduction := e_dmgReduction e;
     e_dmgReductionTimer := e_dmgReductionTimer e; e_parentId := e_parentId e;
     e_orbitAngle := e_orbitAngle e; e_orbitRadius := e_orbitRadius e;
     e_orbitSpeed := e_orbitSpeed e; e_shieldHp := e_shieldHp e; e_shieldMax := e_shieldMax e;
     e_shieldActive := e_shieldActive e; e_shieldTimer := e_shieldTimer e;
     e_laserCharge := e_laserCharge e; e_isReflecting := e_isReflecting e;
     e_burstCount := e_burstCount e; e_targetAngle := e_targetAngle e;
     e_invulnTimer := e_invulnTimer e; e_gravityDir := e_gravityDir e;
     e_gravityTimer := e_gravityTimer e; e_isGhost := e_isGhost e; e_ext := e_ext e |}.
Definition set_e_vy (v : Q) (e : Enemy) : Enemy :=
  {| e_id := e_id e; e_x := e_x e; e_y := e_y e; e_width := e_width e; e_height := e_height e;
     e_vx := e_vx e; e_vy := v; e_dead := e_dead e; e_hp := e_hp e; e_maxHp := e_maxHp e;
     e_type := e_type e; e_variant := e_variant e; e_scoreValue := e_scoreValue e;
     e_patternTimer := e_patternTimer e; e_shotTimer := e_shotTimer e; e_state := e_state e;
     e_frozenTimer := e_frozenTimer e; e_phase := e_phase e;
     e_phaseTransitionTimer := e_phaseTransitionTimer e;
     e_fightStartFrame := e_fightStartFrame e; e_dmgReduction := e_dmgReduction e;
     e_dmgReductionTimer := e_dmgReductionTimer e; e_parentId := e_parentId e;
     e_orbitAngle := e_orbitAngle e; e_orbitRadius := e_orbitRadius e;
     e_orbitSpeed := e_orbitSpeed e; e_shieldHp := e_shieldHp e; e_shieldMax := e_shieldMax e;
     e_shieldActive := e_shieldActive e; e_shieldTimer := e_shieldTimer e;
     e_laserCharge := e_laserCharge e; e_isReflecting := e_isReflecting e;
     e_burstCount := e_burstCount e; e_targetAngle := e_targetAngle e;
     e_invulnTimer := e_invulnTimer e; e_gravityDir := e_gravityDir e;
     e_gravityTimer := e_gravityTimer e; e_isGhost := e_isGhost e; e_ext := e_ext e |}.
Definition set_e_dead (v : bool) (e : Enemy) : Enemy :=
  {| e_id := e_id e; e_x := e_x e; e_y := e_y e; e_width := e_width e; e_height := e_height e;
     e_vx := e_vx e; e_vy := e_vy e; e_dead := v; e_hp := e_hp e; e_maxHp := e_maxHp e;
     e_type := e_type e; e_variant := e_variant e; e_scoreValue := e_scoreValue e;
     e_patternTimer := e_patternTimer e; e_shotTimer := e_shotTimer e; e_state := e_state e;
     e_frozenTimer := e_frozenTimer e; e_phase := e_phase e;
     e_phaseTransitionTimer := e_phaseTransitionTimer e;
     e_fightStartFrame := e_fightStartFrame e; e_dmgReduction := e_dmgReduction e;
     e_dmgReductionTimer := e_dmgReductionTimer e; e_parentId := e_parentId e;
     e_orbitAngle := e_orbitAngle e; e_orbitRadius := e_orbitRadius e;
     e_orbitSpeed := e_orbitSpeed e; e_shieldHp := e_shieldHp e; e_shieldMax := e_shieldMax e;
     e_shieldActive := e_shieldActive e; e_shieldTimer := e_shieldTimer e;
     e_laserCharge := e_laserCharge e; e_isReflecting := e_isReflecting e;
     e_burstCount := e_burstCount e; e_targetAngle := e_targetAngle e;
     e_invulnTimer := e_invulnTimer e; e_gravityDir := e_gravityDir e;
     e_gravityTimer := e_gravityTimer e; e_isGhost := e_isGhost e; e_ext := e_ext e |}.
Definition set_e_hp (v : Q) (e : Enemy) : Enemy :=
  {| e_id := e_id e; e_x := e_x e; e_y := e_y e; e_width := e_width e; e_height := e_height e;
     e_vx := e_vx e; e_vy := e_vy e; e_dead := e_dead e; e_hp := v; e_maxHp := e_maxHp e;
     e_type := e_type e; e_variant := e_variant e; e_scoreValue := e_scoreValue e;
     e_patternTimer := e_patternTimer e; e_shotTimer := e_shotTimer e; e_state := e_state e;
     e_frozenTimer := e_frozenTimer e; e_phase := e_phase e;
     e_phaseTransitionTimer := e_phaseTransitionTimer e;
     e_fightStartFrame := e_fightStartFrame e; e_dmgReduction := e_dmgReduction e;
     e_dmgReductionTimer := e_dmgReductionTimer e; e_parentId := e_parentId e;
     e_orbitAngle := e_orbitAngle e; e_orbitRadius := e_orbitRadius e;
     e_orbitSpeed := e_orbitSpeed e; e_shieldHp := e_shieldHp e; e_shieldMax := e_shieldMax e;
     e_shieldActive := e_shieldActive e; e_shieldTimer := e_shieldTimer e;
     e_laserCharge := e_laserCharge e; e_isReflecting := e_isReflecting e;
     e_burstCount := e_burstCount e; e_targetAngle := e_targetAngle e;
     e_invulnTimer := e_invulnTimer e; e_gravityDir := e_gravityDir e;
     e_gravityTimer := e_gravityTimer e; e_isGhost := e_isGhost e; e_ext := e_ext e |}.
Definition set_e_patternTimer (v : nat) (e : Enemy) : Enemy :=
  {| e_id := e_id e; e_x := e_x e; e_y := e_y e; e_width := e_width e; e_height := e_height e;
     e_vx := e_vx e; e_vy := e_vy e; e_dead := e_dead e; e_hp := e_hp e; e_maxHp := e_maxHp e;
     e_type := e_type e; e_variant := e_variant e; e_scoreValue := e_scoreValue e;
     e_patternTimer := v; e_shotTimer := e_shotTimer e; e_state := e_state e;
     e_frozenTimer := e_frozenTimer e; e_phase := e_phase e;
     e_phaseTransitionTimer := e_phaseTransitionTimer e;
     e_fightStartFrame := e_fightStartFrame e; e_dmgReduction := e_dmgReduction e;
     e_dmgReductionTimer := e_dmgReductionTimer e; e_parentId := e_parentId e;
     e_orbitAngle := e_orbitAngle e; e_orbitRadius := e_orbitRadius e;
     e_orbitSpeed := e_orbitSpeed e; e_shieldHp := e_shieldHp e; e_shieldMax := e_shieldMax e;
     e_shieldActive := e_shieldActive e; e_shieldTimer := e_shieldTimer e;
     e_laserCharge := e_laserCharge e; e_isReflecting := e_isReflecting e;
     e_burstCount := e_burstCount e; e_targetAngle := e_targetAngle e;
     e_invulnTimer := e_invulnTimer e; e_gravityDir := e_gravityDir e;
     e_gravityTimer := e_gravityTimer e; e_isGhost := e_isGhost e; e_ext := e_ext e |}.
Definition set_e_shotTimer (v : Q) (e : Enemy) : Enemy :=
  {| e_id := e_id e; e_x := e_x e; e_y := e_y e; e_width := e_width e; e_height := e_height e;
     e_vx := e_vx e; e_vy := e_vy e; e_dead := e_dead e; e_hp := e_hp e; e_maxHp := e_maxHp e;
     e_type := e_type e; e_variant := e_variant e; e_scoreValue := e_scoreValue e;
     e_patternTimer := e_patternTimer e; e_shotTimer := v; e_state := e_state e;
     e_frozenTimer := e_frozenTimer e; e_phase := e_phase e;
     e_phaseTransitionTimer := e_phaseTransitionTimer e;
     e_fightStartFrame := e_fightStartFrame e; e_dmgReduction := e_dmgReduction e;
     e_dmgReductionTimer := e_dmgReductionTimer e; e_parentId := e_parentId e;
     e_orbitAngle := e_orbitAngle e; e_orbitRadius := e_orbitRadius e;
     e_orbitSpeed := e_orbitSpeed e; e_shieldHp := e_shieldHp e; e_shieldMax := e_shieldMax e;
     e_shieldActive := e_shieldActive e; e_shieldTimer := e_shieldTimer e;
     e_laserCharge := e_laserCharge e; e_isReflecting := e_isReflecting e;
     e_burstCount := e_burstCount e; e_targetAngle := e_targetAngle e;
     e_invulnTimer := e_invulnTimer e; e_gravityDir := e_gravityDir e;
     e_gravityTimer := e_gravityTimer e; e_isGhost := e_isGhost e; e_ext := e_ext e |}.
Definition set_e_frozenTimer (v : option nat) (e : Enemy) : Enemy :=
  {| e_id := e_id e; e_x := e_x e; e_y := e_y e; e_width := e_width e; e_height := e_height e;
     e_vx := e_vx e; e_vy := e_vy e; e_dead := e_dead e; e_hp := e_hp e; e_maxHp := e_maxHp e;
     e_type := e_type e; e_variant := e_variant e; e_scoreValue := e_scoreValue e;
     e_patternTimer := e_patternTimer e; e_shotTimer := e_shotTimer e; e_state := e_state e;
     e_frozenTimer := v; e_phase := e_phase e;
     e_phaseTransitionTimer := e_phaseTransitionTimer e;
     e_fightStartFrame := e_fightStartFrame e; e_dmgReduction := e_dmgReduction e;
     e_dmgReductionTimer := e_dmgReductionTimer e; e_parentId := e_parentId e;
     e_orbitAngle := e_orbitAngle e; e_orbitRadius := e_orbitRadius e;
     e_orbitSpeed := e_orbitSpeed e; e_shieldHp := e_shieldHp e; e_shieldMax := e_shieldMax e;
     e_shieldActive := e_shieldActive e; e_shieldTimer := e_shieldTimer e;
     e_laserCharge := e_laserCharge e; e_isReflecting := e_isReflecting e;
     e_burstCount := e_burstCount e; e_targetAngle := e_targetAngle e;
     e_invulnTimer := e_invulnTimer e; e_gravityDir := e_gravityDir e;
     e_gravityTimer := e_gravityTimer e; e_isGhost := e_isGhost e; e_ext := e_ext e |}.
Definition set_e_phase (v : option nat) (e : Enemy) : Enemy :=
  {| e_id := e_id e; e_x := e_x e; e_y := e_y e; e_width := e_width e; e_height := e_height e;
     e_vx := e_vx e; e_vy := e_vy e; e_dead := e_dead e; e_hp := e_hp e; e_maxHp := e_maxHp e;
     e_type := e_type e; e_variant := e_variant e; e_scoreValue := e_scoreValue e;
     e_patternTimer := e_patternTimer e; e_shotTimer := e_shotTimer e; e_state := e_state e;
     e_frozenTimer := e_frozenTimer e; e_phase := v;
     e_phaseTransitionTimer := e_phaseTransitionTimer e;
     e_fightStartFrame := e_fightStartFrame e; e_dmgReduction := e_dmgReduction e;
     e_dmgReductionTimer := e_dmgReductionTimer e; e_parentId := e_parentId e;
     e_orbitAngle := e_orbitAngle e; e_orbitRadius := e_orbitRadius e;
     e_orbitSpeed := e_orbitSpeed e; e_shieldHp := e_shieldHp e; e_shieldMax := e_shieldMax e;
     e_shieldActive := e_shieldActive e; e_shieldTimer := e_shieldTimer e;
     e_laserCharge := e_laserCharge e; e_isReflecting := e_isReflecting e;
     e_burstCount := e_burstCount e; e_targetAngle := e_targetAngle e;
     e_invulnTimer := e_invulnTimer e; e_gravityDir := e_gravityDir e;
     e_gravityTimer := e_gravityTimer e; e_isGhost := e_isGhost e; e_ext := e_ext e |}.
Definition set_e_phaseTransitionTimer (v : option nat) (e : Enemy) : Enemy :=
  {| e_id := e_id e; e_x := e_x e; e_y := e_y e; e_width := e_width e; e_height := e_height e;
     e_vx := e_vx e; e_vy := e_vy e; e_dead := e_dead e; e_hp := e_hp e; e_maxHp := e_maxHp e;
     e_type := e_type e; e_variant := e_variant e; e_scoreValue := e_scoreValue e;
     e_patternTimer := e_patternTimer e; e_shotTimer := e_shotTimer e; e_state := e_state e;
     e_frozenTimer := e_frozenTimer e; e_phase := e_phase e; e_phaseTransitionTimer := v;
     e_fightStartFrame := e_fightStartFrame e; e_dmgReduction := e_dmgReduction e;
     e_dmgReductionTimer := e_dmgReductionTimer e; e_parentId := e_parentId e;
     e_orbitAngle := e_orbitAngle e; e_orbitRadius := e_orbitRadius e;
     e_orbitSpeed := e_orbitSpeed e; e_shieldHp := e_shieldHp e; e_shieldMax := e_shieldMax e;
     e_shieldActive := e_shieldActive e; e_shieldTimer := e_shieldTimer e;
     e_laserCharge := e_laserCharge e; e_isReflecting := e_isReflecting e;
     e_burstCount := e_burstCount e; e_targetAngle := e_targetAngle e;
     e_invulnTimer := e_invulnTimer e; e_gravityDir := e_gravityDir e;
     e_gravityTimer := e_gravityTimer e; e_isGhost := e_isGhost e; e_ext := e_ext e |}.
Definition set_e_fightStartFrame (v : option nat) (e : Enemy) : Enemy :=
  {| e_id := e_id e; e_x := e_x e; e_y := e_y e; e_width := e_width e; e_height := e_height e;
     e_vx := e_vx e; e_vy := e_vy e; e_dead := e_dead e; e_hp := e_hp e; e_maxHp := e_maxHp e;
     e_type := e_type e; e_variant := e_variant e; e_scoreValue := e_scoreValue e;
     e_patternTimer := e_patternTimer e; e_shotTimer := e_shotTimer e; e_state := e_state e;
     e_frozenTimer := e_frozenTimer e; e_phase := e_phase e;
     e_phaseTransitionTimer := e_phaseTransitionTimer e; e_fightStartFrame := v;
     e_dmgReduction := e_dmgReduction e; e_dmgReductionTimer := e_dmgReductionTimer e;
     e_parentId := e_parentId e; e_orbitAngle := e_orbitAngle e;
     e_orbitRadius := e_orbitRadius e; e_orbitSpeed := e_orbitSpeed e;
     e_shieldHp := e_shieldHp e; e_shieldMax := e_shieldMax e;
     e_shieldActive := e_shieldActive e; e_shieldTimer := e_shieldTimer e;
     e_laserCharge := e_laserCharge e; e_isReflecting := e_isReflecting e;
     e_burstCount := e_burstCount e; e_targetAngle := e_targetAngle e;
     e_invulnTimer := e_invulnTimer e; e_gravityDir := e_gravityDir e;
     e_gravityTimer := e_gravityTimer e; e_isGhost := e_isGhost e; e_ext := e_ext e |}.
Definition set_e_dmgReduction (v : option Q) (e : Enemy) : Enemy :=
  {| e_id := e_id e; e_x := e_x e; e_y := e_y e; e_width := e_width e; e_height := e_height e;
     e_vx := e_vx e; e_vy := e_vy e; e_dead := e_dead e; e_hp := e_hp e; e_maxHp := e_maxHp e;
     e_type := e_type e; e_variant := e_variant e; e_scoreValue := e_scoreValue e;
     e_patternTimer := e_patternTimer e; e_shotTimer := e_shotTimer e; e_state := e_state e;
     e_frozenTimer := e_frozenTimer e; e_phase := e_phase e;
     e_phaseTransitionTimer := e_phaseTransitionTimer e;
     e_fightStartFrame := e_fightStartFrame e; e_dmgReduction := v;
     e_dmgReductionTimer := e_dmgReductionTimer e; e_parentId := e_parentId e;
     e_orbitAngle := e_orbitAngle e; e_orbitRadius := e_orbitRadius e;
     e_orbitSpeed := e_orbitSpeed e; e_shieldHp := e_shieldHp e; e_shieldMax := e_shieldMax e;
     e_shieldActive := e_shieldActive e; e_shieldTimer := e_shieldTimer e;
     e_laserCharge := e_laserCharge e; e_isReflecting := e_isReflecting e;
     e_burstCount := e_burstCount e; e_targetAngle := e_targetAngle e;
     e_invulnTimer := e_invulnTimer e; e_gravityDir := e_gravityDir e;
     e_gravityTimer := e_gravityTimer e; e_isGhost := e_isGhost e; e_ext := e_ext e |}.
Definition set_e_dmgReductionTimer (v : option nat) (e : Enemy) : Enemy :=
  {| e_id := e_id e; e_x := e_x e; e_y := e_y e; e_width := e_width e; e_height := e_height e;
     e_vx := e_vx e; e_vy := e_vy e; e_dead := e_dead e; e_hp := e_hp e; e_maxHp := e_maxHp e;
     e_type := e_type e; e_variant := e_variant e; e_scoreValue := e_scoreValue e;
     e_patternTimer := e_patternTimer e; e_shotTimer := e_shotTimer e; e_state := e_state e;
     e_frozenTimer := e_frozenTimer e; e_phase := e_phase e;
     e_phaseTransitionTimer := e_phaseTransitionTimer e;
     e_fightStartFrame := e_fightStartFrame e; e_dmgReduction := e_dmgReduction e;
     e_dmgReductionTimer := v; e_parentId := e_parentId e; e_orbitAngle := e_orbitAngle e;
     e_orbitRadius := e_orbitRadius e; e_orbitSpeed := e_orbitSpeed e;
     e_shieldHp := e_shieldHp e; e_shieldMax := e_shieldMax e;
     e_shieldActive := e_shieldActive e; e_shieldTimer := e_shieldTimer e;
     e_laserCharge := e_laserCharge e; e_isReflecting := e_isReflecting e;
     e_burstCount := e_burstCount e; e_targetAngle := e_targetAngle e;
     e_invulnTimer := e_invulnTimer e; e_gravityDir := e_gravityDir e;
     e_gravityTimer := e_gravityTimer e; e_isGhost := e_isGhost e; e_ext := e_ext e |}.
Definition set_e_orbitAngle (v : option Q) (e : Enemy) : Enemy :=
  {| e_id := e_id e; e_x := e_x e; e_y := e_y e; e_width := e_width e; e_height := e_height e;
     e_vx := e_vx e; e_vy := e_vy e; e_dead := e_dead e; e_hp := e_hp e; e_maxHp := e_maxHp e;
     e_type := e_type e; e_variant := e_variant e; e_scoreValue := e_scoreValue e;
     e_patternTimer := e_patternTimer e; e_shotTimer := e_shotTimer e; e_state := e_state e;
     e_frozenTimer := e_frozenTimer e; e_phase := e_phase e;
     e_phaseTransitionTimer := e_phaseTransitionTimer e;
     e_fightStartFrame := e_fightStartFrame e; e_dmgReduction := e_dmgReduction e;
     e_dmgReductionTimer := e_dmgReductionTimer e; e_parentId := e_parentId e;
     e_orbitAngle := v; e_orbitRadius := e_orbitRadius e; e_orbitSpeed := e_orbitSpeed e;
     e_shieldHp := e_shieldHp e; e_shieldMax := e_shieldMax e;
     e_shieldActive := e_shieldActive e; e_shieldTimer := e_shieldTimer e;
     e_laserCharge := e_laserCharge e; e_isReflecting := e_isReflecting e;
     e_burstCount := e_burstCount e; e_targetAngle := e_targetAngle e;
     e_invulnTimer := e_invulnTimer e; e_gravityDir := e_gravityDir e;
     e_gravityTimer := e_gravityTimer e; e_isGhost := e_isGhost e; e_ext := e_ext e |}.
Definition set_e_shieldHp (v : option Q) (e : Enemy) : Enemy :=
  {| e_id := e_id e; e_x := e_x e; e_y := e_y e; e_width := e_width e; e_height := e_height e;
     e_vx := e_vx e; e_vy := e_vy e; e_dead := e_dead e; e_hp := e_hp e; e_maxHp := e_maxHp e;
     e_type := e_type e; e_variant := e_variant e; e_scoreValue := e_scoreValue e;
     e_patternTimer := e_patternTimer e; e_shotTimer := e_shotTimer e; e_state := e_state e;
     e_frozenTimer := e_frozenTimer e; e_phase := e_phase e;
     e_phaseTransitionTimer := e_phaseTransitionTimer e;
     e_fightStartFrame := e_fightStartFrame e; e_dmgReduction := e_dmgReduction e;
     e_dmgReductionTimer := e_dmgReductionTimer e; e_parentId := e_parentId e;
     e_orbitAngle := e_orbitAngle e; e_orbitRadius := e_orbitRadius e;
     e_orbitSpeed := e_orbitSpeed e; e_shieldHp := v; e_shieldMax := e_shieldMax e;
     e_shieldActive := e_shieldActive e; e_shieldTimer := e_shieldTimer e;
     e_laserCharge := e_laserCharge e; e_isReflecting := e_isReflecting e;
     e_burstCount := e_burstCount e; e_targetAngle := e_targetAngle e;
     e_invulnTimer := e_invulnTimer e; e_gravityDir := e_gravityDir e;
     e_gravityTimer := e_gravityTimer e; e_isGhost := e_isGhost e; e_ext := e_ext e |}.
Definition set_e_shieldActive (v : bool) (e : Enemy) : Enemy :=
  {| e_id := e_id e; e_x := e_x e; e_y := e_y e; e_width := e_width e; e_height := e_height e;
     e_vx := e_vx e; e_vy := e_vy e; e_dead := e_dead e; e_hp := e_hp e; e_maxHp := e_maxHp e;
     e_type := e_type e; e_variant := e_variant e; e_scoreValue := e_scoreValue e;
     e_patternTimer := e_patternTimer e; e_shotTimer := e_shotTimer e; e_state := e_state e;
     e_frozenTimer := e_frozenTimer e; e_phase := e_phase e;
     e_phaseTransitionTimer := e_phaseTransitionTimer e;
     e_fightStartFrame := e_fightStartFrame e; e_dmgReduction := e_dmgReduction e;
     e_dmgReductionTimer := e_dmgReductionTimer e; e_parentId := e_parentId e;
     e_orbitAngle := e_orbitAngle e; e_orbitRadius := e_orbitRadius e;
     e_orbitSpeed := e_orbitSpeed e; e_shieldHp := e_shieldHp e; e_shieldMax := e_shieldMax e;
     e_shieldActive := v; e_shieldTimer := e_shieldTimer e; e_laserCharge := e_laserCharge e;
     e_isReflecting := e_isReflecting e; e_burstCount := e_burstCount e;
     e_targetAngle := e_targetAngle e; e_invulnTimer := e_invulnTimer e;
     e_gravityDir := e_gravityDir e; e_gravityTimer := e_gravityTimer e;
     e_isGhost := e_isGhost e; e_ext := e_ext e |}.
Definition set_e_shieldTimer (v : option nat) (e : Enemy) : Enemy :=
  {| e_id := e_id e; e_x := e_x e; e_y := e_y e; e_width := e_width e; e_height := e_height e;
     e_vx := e_vx e; e_vy := e_vy e; e_dead := e_dead e; e_hp := e_hp e; e_maxHp := e_maxHp e;
     e_type := e_type e; e_variant := e_variant e; e_scoreValue := e_scoreValue e;
     e_patternTimer := e_patternTimer e; e_shotTimer := e_shotTimer e; e_state := e_state e;
     e_frozenTimer := e_frozenTimer e; e_phase := e_phase e;
     e_phaseTransitionTimer := e_phaseTransitionTimer e;
     e_fightStartFrame := e_fightStartFrame e; e_dmgReduction := e_dmgReduction e;
     e_dmgReductionTimer := e_dmgReductionTimer e; e_parentId := e_parentId e;
     e_orbitAngle := e_orbitAngle e; e_orbitRadius := e_orbitRadius e;
     e_orbitSpeed := e_orbitSpeed e; e_shieldHp := e_shieldHp e; e_shieldMax := e_shieldMax e;
     e_shieldActive := e_shieldActive e; e_shieldTimer := v; e_laserCharge := e_laserCharge e;
     e_isReflecting := e_isReflecting e; e_burstCount := e_burstCount e;
     e_targetAngle := e_targetAngle e; e_invulnTimer := e_invulnTimer e;
     e_gravityDir := e_gravityDir e; e_gravityTimer := e_gravityTimer e;
     e_isGhost := e_isGhost e; e_ext := e_ext e |}.
Definition set_e_laserCharge (v : option nat) (e : Enemy) : Enemy :=
  {| e_id := e_id e; e_x := e_x e; e_y := e_y e; e_width := e_width e; e_height := e_height e;
     e_vx := e_vx e; e_vy := e_vy e; e_dead := e_dead e; e_hp := e_hp e; e_maxHp := e_maxHp e;
     e_type := e_type e; e_variant := e_variant e; e_scoreValue := e_scoreValue e;
     e_patternTimer := e_patternTimer e; e_shotTimer := e_shotTimer e; e_state := e_state e;
     e_frozenTimer := e_frozenTimer e; e_phase := e_phase e;
     e_phaseTransitionTimer := e_phaseTransitionTimer e;
     e_fightStartFrame := e_fightStartFrame e; e_dmgReduction := e_dmgReduction e;
     e_dmgReductionTimer := e_dmgReductionTimer e; e_parentId := e_parentId e;
     e_orbitAngle := e_orbitAngle e; e_orbitRadius := e_orbitRadius e;
     e_orbitSpeed := e_orbitSpeed e; e_shieldHp := e_shieldHp e; e_shieldMax := e_shieldMax e;
     e_shieldActive := e_shieldActive e; e_shieldTimer := e_shieldTimer e; e_laserCharge := v;
     e_isReflecting := e_isReflecting e; e_burstCount := e_burstCount e;
     e_targetAngle := e_targetAngle e; e_invulnTimer := e_invulnTimer e;
     e_gravityDir := e_gravityDir e; e_gravityTimer := e_gravityTimer e;
     e_isGhost := e_isGhost e; e_ext := e_ext e |}.
Definition set_e_isReflecting (v : bool) (e : Enemy) : Enemy :=
  {| e_id := e_id e; e_x := e_x e; e_y := e_y e; e_width := e_width e; e_height := e_height e;
     e_vx := e_vx e; e_vy := e_vy e; e_dead := e_dead e; e_hp := e_hp e; e_maxHp := e_maxHp e;
     e_type := e_type e; e_variant := e_variant e; e_scoreValue := e_scoreValue e;
     e_patternTimer := e_patternTimer e; e_shotTimer := e_shotTimer e; e_state := e_state e;
     e_frozenTimer := e_frozenTimer e; e_phase := e_phase e;
     e_phaseTransitionTimer := e_phaseTransitionTimer e;
     e_fightStartFrame := e_fightStartFrame e; e_dmgReduction := e_dmgReduction e;
     e_dmgReductionTimer := e_dmgReductionTimer e; e_parentId := e_parentId e;
     e_orbitAngle := e_orbitAngle e; e_orbitRadius := e_orbitRadius e;
     e_orbitSpeed := e_orbitSpeed e; e_shieldHp := e_shieldHp e; e_shieldMax := e_shieldMax e;
     e_shieldActive := e_shieldActive e; e_shieldTimer := e_shieldTimer e;
     e_laserCharge := e_laserCharge e; e_isReflecting := v; e_burstCount := e_burstCount e;
     e_targetAngle := e_targetAngle e; e_invulnTimer := e_invulnTimer e;
     e_gravityDir := e_gravityDir e; e_gravityTimer := e_gravityTimer e;
     e_isGhost := e_isGhost e; e_ext := e_ext e |}.
Definition set_e_burstCount (v : option nat) (e : Enemy) : Enemy :=
  {| e_id := e_id e; e_x := e_x e; e_y := e_y e; e_width := e_width e; e_height := e_height e;
     e_vx := e_vx e; e_vy := e_vy e; e_dead := e_dead e; e_hp := e_hp e; e_maxHp := e_maxHp e;
     e_type := e_type e; e_variant := e_variant e; e_scoreValue := e_scoreValue e;
     e_patternTimer := e_patternTimer e; e_shotTimer := e_shotTimer e; e_state := e_state e;
     e_frozenTimer := e_frozenTimer e; e_phase := e_phase e;
     e_phaseTransitionTimer := e_phaseTransitionTimer e;
     e_fightStartFrame := e_fightStartFrame e; e_dmgReduction := e_dmgReduction e;
     e_dmgReductionTimer := e_dmgReductionTimer e; e_parentId := e_parentId e;
     e_orbitAngle := e_orbitAngle e; e_orbitRadius := e_orbitRadius e;
     e_orbitSpeed := e_orbitSpeed e; e_shieldHp := e_shieldHp e; e_shieldMax := e_shieldMax e;
     e_shieldActive := e_shieldActive e; e_shieldTimer := e_shieldTimer e;
     e_laserCharge := e_laserCharge e; e_isReflecting := e_isReflecting e; e_burstCount := v;
     e_targetAngle := e_targetAngle e; e_invulnTimer := e_invulnTimer e;
     e_gravityDir := e_gravityDir e; e_gravityTimer := e_gravityTimer e;
     e_isGhost := e_isGhost e; e_ext := e_ext e |}.
Definition set_e_targetAngle (v : option Q) (e : Enemy) : Enemy :=
  {| e_id := e_id e; e_x := e_x e; e_y := e_y e; e_width := e_width e; e_height := e_height e;
     e_vx := e_vx e; e_vy := e_vy e; e_dead := e_dead e; e_hp := e_hp e; e_maxHp := e_maxHp e;
     e_type := e_type e; e_variant := e_variant e; e_scoreValue := e_scoreValue e;
     e_patternTimer := e_patternTimer e; e_shotTimer := e_shotTimer e; e_state := e_state e;
     e_frozenTimer := e_frozenTimer e; e_phase := e_phase e;
     e_phaseTransitionTimer := e_phaseTransitionTimer e;
     e_fightStartFrame := e_fightStartFrame e; e_dmgReduction := e_dmgReduction e;
     e_dmgReductionTimer := e_dmgReductionTimer e; e_parentId := e_parentId e;
     e_orbitAngle := e_orbitAngle e; e_orbitRadius := e_orbitRadius e;
     e_orbitSpeed := e_orbitSpeed e; e_shieldHp := e_shieldHp e; e_shieldMax := e_shieldMax e;
     e_shieldActive := e_shieldActive e; e_shieldTimer := e_shieldTimer e;
     e_laserCharge := e_laserCharge e; e_isReflecting := e_isReflecting e;
     e_burstCount := e_burstCount e; e_targetAngle := v; e_invulnTimer := e_invulnTimer e;
     e_gravityDir := e_gravityDir e; e_gravityTimer := e_gravityTimer e;
     e_isGhost := e_isGhost e; e_ext := e_ext e |}.
Definition set_e_invulnTimer (v : option nat) (e : Enemy) : Enemy :=
  {| e_id := e_id e; e_x := e_x e; e_y := e_y e; e_width := e_width e; e_height := e_height e;
     e_vx := e_vx e; e_vy := e_vy e; e_dead := e_dead e; e_hp := e_hp e; e_maxHp := e_maxHp e;
     e_type := e_type e; e_variant := e_variant e; e_scoreValue := e_scoreValue e;
     e_patternTimer := e_patternTimer e; e_shotTimer := e_shotTimer e; e_state := e_state e;
     e_frozenTimer := e_frozenTimer e; e_phase := e_phase e;
     e_phaseTransitionTimer := e_phaseTransitionTimer e;
     e_fightStartFrame := e_fightStartFrame e; e_dmgReduction := e_dmgReduction e;
     e_dmgReductionTimer := e_dmgReductionTimer e; e_parentId := e_parentId e;
     e_orbitAngle := e_orbitAngle e; e_orbitRadius := e_orbitRadius e;
     e_orbitSpeed := e_orbitSpeed e; e_shieldHp := e_shieldHp e; e_shieldMax := e_shieldMax e;
     e_shieldActive := e_shieldActive e; e_shieldTimer := e_shieldTimer e;
     e_laserCharge := e_laserCharge e; e_isReflecting := e_isReflecting e;
     e_burstCount := e_burstCount e; e_targetAngle := e_targetAngle e; e_invulnTimer := v;
     e_gravityDir := e_gravityDir e; e_gravityTimer := e_gravityTimer e;
     e_isGhost := e_isGhost e; e_ext := e_ext e |}.
Definition set_e_gravityDir (v : option (Q * Q)) (e : Enemy) : Enemy :=
  {| e_id := e_id e; e_x := e_x e; e_y := e_y e; e_width := e_width e; e_height := e_height e;
     e_vx := e_vx e; e_vy := e_vy e; e_dead := e_dead e; e_hp := e_hp e; e_maxHp := e_maxHp e;
     e_type := e_type e; e_variant := e_variant e; e_scoreValue := e_scoreValue e;
     e_patternTimer := e_patternTimer e; e_shotTimer := e_shotTimer e; e_state := e_state e;
     e_frozenTimer := e_frozenTimer e; e_phase := e_phase e;
     e_phaseTransitionTimer := e_phaseTransitionTimer e;
     e_fightStartFrame := e_fightStartFrame e; e_dmgReduction := e_dmgReduction e;
     e_dmgReductionTimer := e_dmgReductionTimer e; e_parentId := e_parentId e;
     e_orbitAngle := e_orbitAngle e; e_orbitRadius := e_orbitRadius e;
     e_orbitSpeed := e_orbitSpeed e; e_shieldHp := e_shieldHp e; e_shieldMax := e_shieldMax e;
     e_shieldActive := e_shieldActive e; e_shieldTimer := e_shieldTimer e;
     e_laserCharge := e_laserCharge e; e_isReflecting := e_isReflecting e;
     e_burstCount := e_burstCount e; e_targetAngle := e_targetAngle e;
     e_invulnTimer := e_invulnTimer e; e_gravityDir := v; e_gravityTimer := e_gravityTimer e;
     e_isGhost := e_isGhost e; e_ext := e_ext e |}.
Definition set_e_gravityTimer (v : option nat) (e : Enemy) : Enemy :=
  {| e_id := e_id e; e_x := e_x e; e_y := e_y e; e_width := e_width e; e_height := e_height e;
     e_vx := e_vx e; e_vy := e_vy e; e_dead := e_dead e; e_hp := e_hp e; e_maxHp := e_maxHp e;
     e_type := e_type e; e_variant := e_variant e; e_scoreValue := e_scoreValue e;
     e_patternTimer := e_patternTimer e; e_shotTimer := e_shotTimer e; e_state := e_state e;
     e_frozenTimer := e_frozenTimer e; e_phase := e_phase e;
     e_phaseTransitionTimer := e_phaseTransitionTimer e;
     e_fightStartFrame := e_fightStartFrame e; e_dmgReduction := e_dmgReduction e;
     e_dmgReductionTimer := e_dmgReductionTimer e; e_parentId := e_parentId e;
     e_orbitAngle := e_orbitAngle e; e_orbitRadius := e_orbitRadius e;
     e_orbitSpeed := e_orbitSpeed e; e_shieldHp := e_shieldHp e; e_shieldMax := e_shieldMax e;
     e_shieldActive := e_shieldActive e; e_shieldTimer := e_shieldTimer e;
     e_laserCharge := e_laserCharge e; e_isReflecting := e_isReflecting e;
     e_burstCount := e_burstCount e; e_targetAngle := e_targetAngle e;
     e_invulnTimer := e_invulnTimer e; e_gravityDir := e_gravityDir e; e_gravityTimer := v;
     e_isGhost := e_isGhost e; e_ext := e_ext e |}.
(** Optional properties of a projectile that only the parameterised special
    motions read and write, or that are set once when it is fired. *)
Record BulletExt := {
  angle : option Q;
  homingTargetId : option string;
  deceleration : option Q;
  explodeOnWall : bool;
  isFirework : bool;
  hasTrace : bool;
  isBouncing : bool;
  bouncesLeft : option nat;
  isReturning : bool;
  spawnerAngle : option Q;
  minSpeedReached : bool;
  minSpeedTimer : option nat;
  b_maxHp : option Q
}.

Definition set_homingTargetId (v : option string) (x : BulletExt) : BulletExt :=
  {| angle := angle x; homingTargetId := v; deceleration := deceleration x;
     explodeOnWall := explodeOnWall x; isFirework := isFirework x; hasTrace := hasTrace x;
     isBouncing := isBouncing x; bouncesLeft := bouncesLeft x; isReturning := isReturning x;
     spawnerAngle := spawnerAngle x; minSpeedReached := minSpeedReached x;
     minSpeedTimer := minSpeedTimer x; b_maxHp := b_maxHp x |}.
Definition set_deceleration (v : option Q) (x : BulletExt) : BulletExt :=
  {| angle := angle x; homingTargetId := homingTargetId x; deceleration := v;
     explodeOnWall := explodeOnWall x; isFirework := isFirework x; hasTrace := hasTrace x;
     isBouncing := isBouncing x; bouncesLeft := bouncesLeft x; isReturning := isReturning x;
     spawnerAngle := spawnerAngle x; minSpeedReached := minSpeedReached x;
     minSpeedTimer := minSpeedTimer x; b_maxHp := b_maxHp x |}.
Definition set_isFirework (v : bool) (x : BulletExt) : BulletExt :=
  {| angle := angle x; homingTargetId := homingTargetId x; deceleration := deceleration x;
     explodeOnWall := explodeOnWall x; isFirework := v; hasTrace := hasTrace x;
     isBouncing := isBouncing x; bouncesLeft := bouncesLeft x; isReturning := isReturning x;
     spawnerAngle := spawnerAngle x; minSpeedReached := minSpeedReached x;
     minSpeedTimer := minSpeedTimer x; b_maxHp := b_maxHp x |}.
Definition set_hasTrace (v : bool) (x : BulletExt) : BulletExt :=
  {| angle := angle x; homingTargetId := homingTargetId x; deceleration := deceleration x;
     explodeOnWall := explodeOnWall x; isFirework := isFirework x; hasTrace := v;
     isBouncing := isBouncing x; bouncesLeft := bouncesLeft x; isReturning := isReturning x;
     spawnerAngle := spawnerAngle x; minSpeedReached := minSpeedReached x;
     minSpeedTimer := minSpeedTimer x; b_maxHp := b_maxHp x |}.
(** [interface Bullet extends Entity]; the id keeps the literal prefix of the
    template string (the random suffix is never compared), [color] is left out. *)
Record Bullet := {
  b_id : string;
  b_x : Q;
  b_y : Q;
  b_width : Q;
  b_height : Q;
  b_vx : Q;
  b_vy : Q;
  b_dead : bool;
  b_owner : Owner;
  b_damage : Q;
  b_timer : nat;
  b_weaponId : option WeaponId;
  b_piercing : bool;
  b_hitList : option (list string);
  b_initialX : option Q;
  b_splashRadius : option Q;
  b_chainCount : option Z;
  b_orbitRadius : option Q;
  b_orbitAngle : option Q;
  b_orbCooldown : option nat;
  b_isVortex : bool;
  b_isMine : bool;
  b_hp : option Q;
  b_isLaser : bool;
  b_isSpawner : bool;
  b_ext : BulletExt
}.

Definition set_b_x (v : Q) (b : Bullet) : Bullet :=
  {| b_id := b_id b; b_x := v; b_y := b_y b; b_width := b_width b; b_height := b_height b;
     b_vx := b_vx b; b_vy := b_vy b; b_dead := b_dead b; b_owner := b_owner b;
     b_damage := b_damage b; b_timer := b_timer b; b_weaponId := b_weaponId b;
     b_piercing := b_piercing b; b_hitList := b_hitList b; b_initialX := b_initialX b;
     b_splashRadius := b_splashRadius b; b_chainCount := b_chainCount b;
     b_orbitRadius := b_orbitRadius b; b_orbitAngle := b_orbitAngle b;
     b_orbCooldown := b_orbCooldown b; b_isVortex := b_isVortex b; b_isMine := b_isMine b;
     b_hp := b_hp b; b_isLaser := b_isLaser b; b_isSpawner := b_isSpawner b; b_ext := b_ext b |}.
Definition set_b_y (v : Q) (b : Bullet) : Bullet :=
  {| b_id := b_id b; b_x := b_x b; b_y := v; b_width := b_width b; b_height := b_height b;
     b_vx := b_vx b; b_vy := b_vy b; b_dead := b_dead b; b_owner := b_owner b;
     b_damage := b_damage b; b_timer := b_timer b; b_weaponId := b_weaponId b;
     b_piercing := b_piercing b; b_hitList := b_hitList b; b_initialX := b_initialX b;
     b_splashRadius := b_splashRadius b; b_chainCount := b_chainCount b;
     b_orbitRadius := b_orbitRadius b; b_orbitAngle := b_orbitAngle b;
     b_orbCooldown := b_orbCooldown b; b_isVortex := b_isVortex b; b_isMine := b_isMine b;
     b_hp := b_hp b; b_isLaser := b_isLaser b; b_isSpawner := b_isSpawner b; b_ext := b_ext b |}.
Definition set_b_vx (v : Q) (b : Bullet) : Bullet :=
  {| b_id := b_id b; b_x := b_x b; b_y := b_y b; b_width := b_width b; b_height := b_height b;
     b_vx := v; b_vy := b_vy b; b_dead := b_dead b; b_owner := b_owner b;
     b_damage := b_damage b; b_timer := b_timer b; b_weaponId := b_weaponId b;
     b_piercing := b_piercing b; b_hitList := b_hitList b; b_initialX := b_initialX b;
     b_splashRadius := b_splashRadius b; b_chainCount := b_chainCount b;
     b_orbitRadius := b_orbitRadius b; b_orbitAngle := b_orbitAngle b;
     b_orbCooldown := b_orbCooldown b; b_isVortex := b_isVortex b; b_isMine := b_isMine b;
     b_hp := b_hp b; b_isLaser := b_isLaser b; b_isSpawner := b_isSpawner b; b_ext := b_ext b |}.
Definition set_b_vy (v : Q) (b : Bullet) : Bullet :=
  {| b_id := b_id b; b_x := b_x b; b_y := b_y b; b_width := b_width b; b_height := b_height b;
     b_vx := b_vx b; b_vy := v; b_dead := b_dead b; b_owner := b_owner b;
     b_damage := b_damage b; b_timer := b_timer b; b_weaponId := b_weaponId b;
     b_piercing := b_piercing b; b_hitList := b_hitList b; b_initialX := b_initialX b;
     b_splashRadius := b_splashRadius b; b_chainCount := b_chainCount b;
     b_orbitRadius := b_orbitRadius b; b_orbitAngle := b_orbitAngle b;
     b_orbCooldown := b_orbCooldown b; b_isVortex := b_isVortex b; b_isMine := b_isMine b;
     b_hp := b_hp b; b_isLaser := b_isLaser b; b_isSpawner := b_isSpawner b; b_ext := b_ext b |}.
Definition set_b_dead (v : bool) (b : Bullet) : Bullet :=
  {| b_id := b_id b; b_x := b_x b; b_y := b_y b; b_width := b_width b; b_height := b_height b;
     b_vx := b_vx b; b_vy := b_vy b; b_dead := v; b_owner := b_owner b; b_damage := b_damage b;
     b_timer := b_timer b; b_weaponId := b_weaponId b; b_piercing := b_piercing b;
     b_hitList := b_hitList b; b_initialX := b_initialX b; b_splashRadius := b_splashRadius b;
     b_chainCount := b_chainCount b; b_orbitRadius := b_orbitRadius b;
     b_orbitAngle := b_orbitAngle b; b_orbCooldown := b_orbCooldown b;
     b_isVortex := b_isVortex b; b_isMine := b_isMine b; b_hp := b_hp b;
     b_isLaser := b_isLaser b; b_isSpawner := b_isSpawner b; b_ext := b_ext b |}.
Definition set_b_timer (v : nat) (b : Bullet) : Bullet :=
  {| b_id := b_id b; b_x := b_x b; b_y := b_y b; b_width := b_width b; b_height := b_height b;
     b_vx := b_vx b; b_vy := b_vy b; b_dead := b_dead b; b_owner := b_owner b;
     b_damage := b_damage b; b_timer := v; b_weaponId := b_weaponId b;
     b_piercing := b_piercing b; b_hitList := b_hitList b; b_initialX := b_initialX b;
     b_splashRadius := b_splashRadius b; b_chainCount := b_chainCount b;
     b_orbitRadius := b_orbitRadius b; b_orbitAngle := b_orbitAngle b;
     b_orbCooldown := b_orbCooldown b; b_isVortex := b_isVortex b; b_isMine := b_isMine b;
     b_hp := b_hp b; b_isLaser := b_isLaser b; b_isSpawner := b_isSpawner b; b_ext := b_ext b |}.
Definition set_b_weaponId (v : option WeaponId) (b : Bullet) : Bullet :=
  {| b_id := b_id b; b_x := b_x b; b_y := b_y b; b_width := b_width b; b_height := b_height b;
     b_vx := b_vx b; b_vy := b_vy b; b_dead := b_dead b; b_owner := b_owner b;
     b_damage := b_damage b; b_timer := b_timer b; b_weaponId := v; b_piercing := b_piercing b;
     b_hitList := b_hitList b; b_initialX := b_initialX b; b_splashRadius := b_splashRadius b;
     b_chainCount := b_chainCount b; b_orbitRadius := b_orbitRadius b;
     b_orbitAngle := b_orbitAngle b; b_orbCooldown := b_orbCooldown b;
     b_isVortex := b_isVortex b; b_isMine := b_isMine b; b_hp := b_hp b;
     b_isLaser := b_isLaser b; b_isSpawner := b_isSpawner b; b_ext := b_ext b |}.
Definition set_b_piercing (v : bool) (b : Bullet) : Bullet :=
  {| b_id := b_id b; b_x := b_x b; b_y := b_y b; b_width := b_width b; b_height := b_height b;
     b_vx := b_vx b; b_vy := b_vy b; b_dead := b_dead b; b_owner := b_owner b;
     b_damage := b_damage b; b_timer := b_timer b; b_weaponId := b_weaponId b; b_piercing := v;
     b_hitList := b_hitList b; b_initialX := b_initialX b; b_splashRadius := b_splashRadius b;
     b_chainCount := b_chainCount b; b_orbitRadius := b_orbitRadius b;
     b_orbitAngle := b_orbitAngle b; b_orbCooldown := b_orbCooldown b;
     b_isVortex := b_isVortex b; b_isMine := b_isMine b; b_hp := b_hp b;
     b_isLaser := b_isLaser b; b_isSpawner := b_isSpawner b; b_ext := b_ext b |}.
Definition set_b_hitList (v : option (list string)) (b : Bullet) : Bullet :=
  {| b_id := b_id b; b_x := b_x b; b_y := b_y b; b_width := b_width b; b_height := b_height b;
     b_vx := b_vx b; b_vy := b_vy b; b_dead := b_dead b; b_owner := b_owner b;
     b_damage := b_damage b; b_timer := b_timer b; b_weaponId := b_weaponId b;
     b_piercing := b_piercing b; b_hitList := v; b_initialX := b_initialX b;
     b_splashRadius := b_splashRadius b; b_chainCount := b_chainCount b;
     b_orbitRadius := b_orbitRadius b; b_orbitAngle := b_orbitAngle b;
     b_orbCooldown := b_orbCooldown b; b_isVortex := b_isVortex b; b_isMine := b_isMine b;
     b_hp := b_hp b; b_isLaser := b_isLaser b; b_isSpawner := b_isSpawner b; b_ext := b_ext b |}.
Definition set_b_initialX (v : option Q) (b : Bullet) : Bullet :=
  {| b_id := b_id b; b_x := b_x b; b_y := b_y b; b_width := b_width b; b_height := b_height b;
     b_vx := b_vx b; b_vy := b_vy b; b_dead := b_dead b; b_owner := b_owner b;
     b_damage := b_damage b; b_timer := b_timer b; b_weaponId := b_weaponId b;
     b_piercing := b_piercing b; b_hitList := b_hitList b; b_initialX := v;
     b_splashRadius := b_splashRadius b; b_chainCount := b_chainCount b;
     b_orbitRadius := b_orbitRadius b; b_orbitAngle := b_orbitAngle b;
     b_orbCooldown := b_orbCooldown b; b_isVortex := b_isVortex b; b_isMine := b_isMine b;
     b_hp := b_hp b; b_isLaser := b_isLaser b; b_isSpawner := b_isSpawner b; b_ext := b_ext b |}.
Definition set_b_splashRadius (v : option Q) (b : Bullet) : Bullet :=
  {| b_id := b_id b; b_x := b_x b; b_y := b_y b; b_width := b_width b; b_height := b_height b;
     b_vx := b_vx b; b_vy := b_vy b; b_dead := b_dead b; b_owner := b_owner b;
     b_damage := b_damage b; b_timer := b_timer b; b_weaponId := b_weaponId b;
     b_piercing := b_piercing b; b_hitList := b_hitList b; b_initialX := b_initialX b;
     b_splashRadius := v; b_chainCount := b_chainCount b; b_orbitRadius := b_orbitRadius b;
     b_orbitAngle := b_orbitAngle b; b_orbCooldown := b_orbCooldown b;
     b_isVortex := b_isVortex b; b_isMine := b_isMine b; b_hp := b_hp b;
     b_isLaser := b_isLaser b; b_isSpawner := b_isSpawner b; b_ext := b_ext b |}.
Definition set_b_chainCount (v : option Z) (b : Bullet) : Bullet :=
  {| b_id := b_id b; b_x := b_x b; b_y := b_y b; b_width := b_width b; b_height := b_height b;
     b_vx := b_vx b; b_vy := b_vy b; b_dead := b_dead b; b_owner := b_owner b;
     b_damage := b_damage b; b_timer := b_timer b; b_weaponId := b_weaponId b;
     b_piercing := b_piercing b; b_hitList := b_hitList b; b_initialX := b_initialX b;
     b_splashRadius := b_splashRadius b; b_chainCount := v; b_orbitRadius := b_orbitRadius b;
     b_orbitAngle := b_orbitAngle b; b_orbCooldown := b_orbCooldown b;
     b_isVortex := b_isVortex b; b_isMine := b_isMine b; b_hp := b_hp b;
     b_isLaser := b_isLaser b; b_isSpawner := b_isSpawner b; b_ext := b_ext b |}.
Definition set_b_orbitRadius (v : option Q) (b : Bullet) : Bullet :=
  {| b_id := b_id b; b_x := b_x b; b_y := b_y b; b_width := b_width b; b_height := b_height b;
     b_vx := b_vx b; b_vy := b_vy b; b_dead := b_dead b; b_owner := b_owner b;
     b_damage := b_damage b; b_timer := b_timer b; b_weaponId := b_weaponId b;
     b_piercing := b_piercing b; b_hitList := b_hitList b; b_initialX := b_initialX b;
     b_splashRadius := b_splashRadius b; b_chainCount := b_chainCount b; b_orbitRadius := v;
     b_orbitAngle := b_orbitAngle b; b_orbCooldown := b_orbCooldown b;
     b_isVortex := b_isVortex b; b_isMine := b_isMine b; b_hp := b_hp b;
     b_isLaser := b_isLaser b; b_isSpawner := b_isSpawner b; b_ext := b_ext b |}.
Definition set_b_orbitAngle (v : option Q) (b : Bullet) : Bullet :=
  {| b_id := b_id b; b_x := b_x b; b_y := b_y b; b_width := b_width b; b_height := b_height b;
     b_vx := b_vx b; b_vy := b_vy b; b_dead := b_dead b; b_owner := b_owner b;
     b_damage := b_damage b; b_timer := b_timer b; b_weaponId := b_weaponId b;
     b_piercing := b_piercing b; b_hitList := b_hitList b; b_initialX := b_initialX b;
     b_splashRadius := b_splashRadius b; b_chainCount := b_chainCount b;
     b_orbitRadius := b_orbitRadius b; b_orbitAngle := v; b_orbCooldown := b_orbCooldown b;
     b_isVortex := b_isVortex b; b_isMine := b_isMine b; b_hp := b_hp b;
     b_isLaser := b_isLaser b; b_isSpawner := b_isSpawner b; b_ext := b_ext b |}.
Definition set_b_orbCooldown (v : option nat) (b : Bullet) : Bullet :=
  {| b_id := b_id b; b_x := b_x b; b_y := b_y b; b_width := b_width b; b_height := b_height b;
     b_vx := b_vx b; b_vy := b_vy b; b_dead := b_dead b; b_owner := b_owner b;
     b_damage := b_damage b; b_timer := b_timer b; b_weaponId := b_weaponId b;
     b_piercing := b_piercing b; b_hitList := b_hitList b; b_initialX := b_initialX b;
     b_splashRadius := b_splashRadius b; b_chainCount := b_chainCount b;
     b_orbitRadius := b_orbitRadius b; b_orbitAngle := b_orbitAngle b; b_orbCooldown := v;
     b_isVortex := b_isVortex b; b_isMine := b_isMine b; b_hp := b_hp b;
     b_isLaser := b_isLaser b; b_isSpawner := b_isSpawner b; b_ext := b_ext b |}.
Definition set_b_isVortex (v : bool) (b : Bullet) : Bullet :=
  {| b_id := b_id b; b_x := b_x b; b_y := b_y b; b_width := b_width b; b_height := b_height b;
     b_vx := b_vx b; b_vy := b_vy b; b_dead := b_dead b; b_owner := b_owner b;
     b_damage := b_damage b; b_timer := b_timer b; b_weaponId := b_weaponId b;
     b_piercing := b_piercing b; b_hitList := b_hitList b; b_initialX := b_initialX b;
     b_splashRadius := b_splashRadius b; b_chainCount := b_chainCount b;
     b_orbitRadius := b_orbitRadius b; b_orbitAngle := b_orbitAngle b;
     b_orbCooldown := b_orbCooldown b; b_isVortex := v; b_isMine := b_isMine b; b_hp := b_hp b;
     b_isLaser := b_isLaser b; b_isSpawner := b_isSpawner b; b_ext := b_ext b |}.
Definition set_b_hp (v : option Q) (b : Bullet) : Bullet :=
  {| b_id := b_id b; b_x := b_x b; b_y := b_y b; b_width := b_width b; b_height := b_height b;
     b_vx := b_vx b; b_vy := b_vy b; b_dead := b_dead b; b_owner := b_owner b;
     b_damage := b_damage b; b_timer := b_timer b; b_weaponId := b_weaponId b;
     b_piercing := b_piercing b; b_hitList := b_hitList b; b_initialX := b_initialX b;
     b_splashRadius := b_splashRadius b; b_chainCount := b_chainCount b;
     b_orbitRadius := b_orbitRadius b; b_orbitAngle := b_orbitAngle b;
     b_orbCooldown := b_orbCooldown b; b_isVortex := b_isVortex b; b_isMine := b_isMine b;
     b_hp := v; b_isLaser := b_isLaser b; b_isSpawner := b_isSpawner b; b_ext := b_ext b |}.
Definition set_b_ext (v : BulletExt) (b : Bullet) : Bullet :=
  {| b_id := b_id b; b_x := b_x b; b_y := b_y b; b_width := b_width b; b_height := b_height b;
     b_vx := b_vx b; b_vy := b_vy b; b_dead := b_dead b; b_owner := b_owner b;
     b_damage := b_damage b; b_timer := b_timer b; b_weaponId := b_weaponId b;
     b_piercing := b_piercing b; b_hitList := b_hitList b; b_initialX := b_initialX b;
     b_splashRadius := b_splashRadius b; b_chainCount := b_chainCount b;
     b_orbitRadius := b_orbitRadius b; b_orbitAngle := b_orbitAngle b;
     b_orbCooldown := b_orbCooldown b; b_isVortex := b_isVortex b; b_isMine := b_isMine b;
     b_hp := b_hp b; b_isLaser := b_isLaser b; b_isSpawner := b_isSpawner b; b_ext := v |}.
(** [interface Player extends Entity]; [id], [color] and [dead] of the player are
    never read by [update] and are left out. *)
Record Player := {
  p_x : Q;
  p_y : Q;
  p_width : Q;
  p_height : Q;
  p_vx : Q;
  p_vy : Q;
  p_hp : Q;
  p_maxHp : Q;
  p_invulnerableTime : nat;
  p_framesSinceLastHit : nat;
  p_grazing : nat;
  p_focused : bool;
  p_equippedWeapons : list WeaponId;
  p_equippedSpells : list SpellCardId;
  p_spellCooldowns : list Q;
  p_weaponLevels : WeaponId -> nat;  (* 0 stands for undefined *)
  p_spellLevels : SpellCardId -> nat;  (* 0 stands for undefined *)
  p_shield : Q;
  p_revives : nat;
  p_activeBuffs : gmap string nat  (* buff id to frames remaining *)
}.

Definition set_p_x (v : Q) (p : Player) : Player :=
  {| p_x := v; p_y := p_y p; p_width := p_width p; p_height := p_height p; p_vx := p_vx p;
     p_vy := p_vy p; p_hp := p_hp p; p_maxHp := p_maxHp p;
     p_invulnerableTime := p_invulnerableTime p;
     p_framesSinceLastHit := p_framesSinceLastHit p; p_grazing := p_grazing p;
     p_focused := p_focused p; p_equippedWeapons := p_equippedWeapons p;
     p_equippedSpells := p_equippedSpells p; p_spellCooldowns := p_spellCooldowns p;
     p_weaponLevels := p_weaponLevels p; p_spellLevels := p_spellLevels p;
     p_shield := p_shield p; p_revives := p_revives p; p_activeBuffs := p_activeBuffs p |}.
Definition set_p_y (v : Q) (p : Player) : Player :=
  {| p_x := p_x p; p_y := v; p_width := p_width p; p_height := p_height p; p_vx := p_vx p;
     p_vy := p_vy p; p_hp := p_hp p; p_maxHp := p_maxHp p;
     p_invulnerableTime := p_invulnerableTime p;
     p_framesSinceLastHit := p_framesSinceLastHit p; p_grazing := p_grazing p;
     p_focused := p_focused p; p_equippedWeapons := p_equippedWeapons p;
     p_equippedSpells := p_equippedSpells p; p_spellCooldowns := p_spellCooldowns p;
     p_weaponLevels := p_weaponLevels p; p_spellLevels := p_spellLevels p;
     p_shield := p_shield p; p_revives := p_revives p; p_activeBuffs := p_activeBuffs p |}.
Definition set_p_vx (v : Q) (p : Player) : Player :=
  {| p_x := p_x p; p_y := p_y p; p_width := p_width p; p_height := p_height p; p_vx := v;
     p_vy := p_vy p; p_hp := p_hp p; p_maxHp := p_maxHp p;
     p_invulnerableTime := p_invulnerableTime p;
     p_framesSinceLastHit := p_framesSinceLastHit p; p_grazing := p_grazing p;
     p_focused := p_focused p; p_equippedWeapons := p_equippedWeapons p;
     p_equippedSpells := p_equippedSpells p; p_spellCooldowns := p_spellCooldowns p;
     p_weaponLevels := p_weaponLevels p; p_spellLevels := p_spellLevels p;
     p_shield := p_shield p; p_revives := p_revives p; p_activeBuffs := p_activeBuffs p |}.
Definition set_p_vy (v : Q) (p : Player) : Player :=
  {| p_x := p_x p; p_y := p_y p; p_width := p_width p; p_height := p_height p; p_vx := p_vx p;
     p_vy := v; p_hp := p_hp p; p_maxHp := p_maxHp p;
     p_invulnerableTime := p_invulnerableTime p;
     p_framesSinceLastHit := p_framesSinceLastHit p; p_grazing := p_grazing p;
     p_focused := p_focused p; p_equippedWeapons := p_equippedWeapons p;
     p_equippedSpells := p_equippedSpells p; p_spellCooldowns := p_spellCooldowns p;
     p_weaponLevels := p_weaponLevels p; p_spellLevels := p_spellLevels p;
     p_shield := p_shield p; p_revives := p_revives p; p_activeBuffs := p_activeBuffs p |}.
Definition set_p_hp (v : Q) (p : Player) : Player :=
  {| p_x := p_x p; p_y := p_y p; p_width := p_width p; p_height := p_height p; p_vx := p_vx p;
     p_vy := p_vy p; p_hp := v; p_maxHp := p_maxHp p;
     p_invulnerableTime := p_invulnerableTime p;
     p_framesSinceLastHit := p_framesSinceLastHit p; p_grazing := p_grazing p;
     p_focused := p_focused p; p_equippedWeapons := p_equippedWeapons p;
     p_equippedSpells := p_equippedSpells p; p_spellCooldowns := p_spellCooldowns p;
     p_weaponLevels := p_weaponLevels p; p_spellLevels := p_spellLevels p;
     p_shield := p_shield p; p_revives := p_revives p; p_activeBuffs := p_activeBuffs p |}.
Definition set_p_invulnerableTime (v : nat) (p : Player) : Player :=
  {| p_x := p_x p; p_y := p_y p; p_width := p_width p; p_height := p_height p; p_vx := p_vx p;
     p_vy := p_vy p; p_hp := p_hp p; p_maxHp := p_maxHp p; p_invulnerableTime := v;
     p_framesSinceLastHit := p_framesSinceLastHit p; p_grazing := p_grazing p;
     p_focused := p_focused p; p_equippedWeapons := p_equippedWeapons p;
     p_equippedSpells := p_equippedSpells p; p_spellCooldowns := p_spellCooldowns p;
     p_weaponLevels := p_weaponLevels p; p_spellLevels := p_spellLevels p;
     p_shield := p_shield p; p_revives := p_revives p; p_activeBuffs := p_activeBuffs p |}.
Definition set_p_framesSinceLastHit (v : nat) (p : Player) : Player :=
  {| p_x := p_x p; p_y := p_y p; p_width := p_width p; p_height := p_height p; p_vx := p_vx p;
     p_vy := p_vy p; p_hp := p_hp p; p_maxHp := p_maxHp p;
     p_invulnerableTime := p_invulnerableTime p; p_framesSinceLastHit := v;
     p_grazing := p_grazing p; p_focused := p_focused p;
     p_equippedWeapons := p_equippedWeapons p; p_equippedSpells := p_equippedSpells p;
     p_spellCooldowns := p_spellCooldowns p; p_weaponLevels := p_weaponLevels p;
     p_spellLevels := p_spellLevels p; p_shield := p_shield p; p_revives := p_revives p;
     p_activeBuffs := p_activeBuffs p |}.
Definition set_p_grazing (v : nat) (p : Player) : Player :=
  {| p_x := p_x p; p_y := p_y p; p_width := p_width p; p_height := p_height p; p_vx := p_vx p;
     p_vy := p_vy p; p_hp := p_hp p; p_maxHp := p_maxHp p;
     p_invulnerableTime := p_invulnerableTime p;
     p_framesSinceLastHit := p_framesSinceLastHit p; p_grazing := v; p_focused := p_focused p;
     p_equippedWeapons := p_equippedWeapons p; p_equippedSpells := p_equippedSpells p;
     p_spellCooldowns := p_spellCooldowns p; p_weaponLevels := p_weaponLevels p;
     p_spellLevels := p_spellLevels p; p_shield := p_shield p; p_revives := p_revives p;
     p_activeBuffs := p_activeBuffs p |}.
Definition set_p_focused (v : bool) (p : Player) : Player :=
  {| p_x := p_x p; p_y := p_y p; p_width := p_width p; p_height := p_height p; p_vx := p_vx p;
     p_vy := p_vy p; p_hp := p_hp p; p_maxHp := p_maxHp p;
     p_invulnerableTime := p_invulnerableTime p;
     p_framesSinceLastHit := p_framesSinceLastHit p; p_grazing := p_grazing p; p_focused := v;
     p_equippedWeapons := p_equippedWeapons p; p_equippedSpells := p_equippedSpells p;
     p_spellCooldowns := p_spellCooldowns p; p_weaponLevels := p_weaponLevels p;
     p_spellLevels := p_spellLevels p; p_shield := p_shield p; p_revives := p_revives p;
     p_activeBuffs := p_activeBuffs p |}.
Definition set_p_spellCooldowns (v : list Q) (p : Player) : Player :=
  {| p_x := p_x p; p_y := p_y p; p_width := p_width p; p_height := p_height p; p_vx := p_vx p;
     p_vy := p_vy p; p_hp := p_hp p; p_maxHp := p_maxHp p;
     p_invulnerableTime := p_invulnerableTime p;
     p_framesSinceLastHit := p_framesSinceLastHit p; p_grazing := p_grazing p;
     p_focused := p_focused p; p_equippedWeapons := p_equippedWeapons p;
     p_equippedSpells := p_equippedSpells p; p_spellCooldowns := v;
     p_weaponLevels := p_weaponLevels p; p_spellLevels := p_spellLevels p;
     p_shield := p_shield p; p_revives := p_revives p; p_activeBuffs := p_activeBuffs p |}.
Definition set_p_shield (v : Q) (p : Player) : Player :=
  {| p_x := p_x p; p_y := p_y p; p_width := p_width p; p_height := p_height p; p_vx := p_vx p;
     p_vy := p_vy p; p_hp := p_hp p; p_maxHp := p_maxHp p;
     p_invulnerableTime := p_invulnerableTime p;
     p_framesSinceLastHit := p_framesSinceLastHit p; p_grazing := p_grazing p;
     p_focused := p_focused p; p_equippedWeapons := p_equippedWeapons p;
     p_equippedSpells := p_equippedSpells p; p_spellCooldowns := p_spellCooldowns p;
     p_weaponLevels := p_weaponLevels p; p_spellLevels := p_spellLevels p; p_shield := v;
     p_revives := p_revives p; p_activeBuffs := p_activeBuffs p |}.
Definition set_p_revives (v : nat) (p : Player) : Player :=
  {| p_x := p_x p; p_y := p_y p; p_width := p_width p; p_height := p_height p; p_vx := p_vx p;
     p_vy := p_vy p; p_hp := p_hp p; p_maxHp := p_maxHp p;
     p_invulnerableTime := p_invulnerableTime p;
     p_framesSinceLastHit := p_framesSinceLastHit p; p_grazing := p_grazing p;
     p_focused := p_focused p; p_equippedWeapons := p_equippedWeapons p;
     p_equippedSpells := p_equippedSpells p; p_spellCooldowns := p_spellCooldowns p;
     p_weaponLevels := p_weaponLevels p; p_spellLevels := p_spellLevels p;
     p_shield := p_shield p; p_revives := v; p_activeBuffs := p_activeBuffs p |}.
Definition set_p_activeBuffs (v : gmap string nat) (p : Player) : Player :=
  {| p_x := p_x p; p_y := p_y p; p_width := p_width p; p_height := p_height p; p_vx := p_vx p;
     p_vy := p_vy p; p_hp := p_hp p; p_maxHp := p_maxHp p;
     p_invulnerableTime := p_invulnerableTime p;
     p_framesSinceLastHit := p_framesSinceLastHit p; p_grazing := p_grazing p;
     p_focused := p_focused p; p_equippedWeapons := p_equippedWeapons p;
     p_equippedSpells := p_equippedSpells p; p_spellCooldowns := p_spellCooldowns p;
     p_weaponLevels := p_weaponLevels p; p_spellLevels := p_spellLevels p;
     p_shield := p_shield p; p_revives := p_revives p; p_activeBuffs := v |}.
(** The [sessionStats] argument of [onGameOver]. *)
Record SessionStats := {
  totalKills : nat;
  bossesKilled : nat;
  totalShotsFired : nat;
  maxStageReached : nat
}.

(** One call [onGameOver(score, win, fragments, sessionStats)]; [None] is the
    empty object [{}] that the practice mode passes. *)
Record GameOverCall := {
  ev_score : Z;
  ev_win : bool;
  ev_fragments : Z;
  ev_stats : option SessionStats
}.

(** [gameState.current]. *)
Record State := {
  player : Player;
  bullets : list Bullet;
  enemies : list Enemy;
  keys : gmap string bool;
  frame : nat;
  score : Z;
  stage : nat;
  stageTimer : nat;
  bossActive : bool;
  bossRef : option string;  (* [boss]: the id of the enemy object it aliases *)
  dataFragments : Z;
  difficulty : Difficulty;
  timeScale : Q;
  waveDelay : nat;
  isGameOver : bool;
  kills : nat;  (* [stats.kills] *)
  bossKills : nat;  (* [stats.bossKills] *)
  shotsFired : nat;  (* [stats.shotsFired] *)
  practiceTimer : nat;
  events : list GameOverCall;  (* calls of [onGameOver], oldest first *)
  rng : nat  (* number of [Math.random()] values consumed *)
}.

Definition set_player (v : Player) (s : State) : State :=
  {| player := v; bullets := bullets s; enemies := enemies s; keys := keys s; frame := frame s;
     score := score s; stage := stage s; stageTimer := stageTimer s;
     bossActive := bossActive s; bossRef := bossRef s; dataFragments := dataFragments s;
     difficulty := difficulty s; timeScale := timeScale s; waveDelay := waveDelay s;
     isGameOver := isGameOver s; kills := kills s; bossKills := bossKills s;
     shotsFired := shotsFired s; practiceTimer := practiceTimer s; events := events s;
     rng := rng s |}.
Definition set_bullets (v : list Bullet) (s : State) : State :=
  {| player := player s; bullets := v; enemies := enemies s; keys := keys s; frame := frame s;
     score := score s; stage := stage s; stageTimer := stageTimer s;
     bossActive := bossActive s; bossRef := bossRef s; dataFragments := dataFragments s;
     difficulty := difficulty s; timeScale := timeScale s; waveDelay := waveDelay s;
     isGameOver := isGameOver s; kills := kills s; bossKills := bossKills s;
     shotsFired := shotsFired s; practiceTimer := practiceTimer s; events := events s;
     rng := rng s |}.
Definition set_enemies (v : list Enemy) (s : State) : State :=
  {| player := player s; bullets := bullets s; enemies := v; keys := keys s; frame := frame s;
     score := score s; stage := stage s; stageTimer := stageTimer s;
     bossActive := bossActive s; bossRef := bossRef s; dataFragments := dataFragments s;
     difficulty := difficulty s; timeScale := timeScale s; waveDelay := waveDelay s;
     isGameOver := isGameOver s; kills := kills s; bossKills := bossKills s;
     shotsFired := shotsFired s; practiceTimer := practiceTimer s; events := events s;
     rng := rng s |}.
Definition set_frame (v : nat) (s : State) : State :=
  {| player := player s; bullets := bullets s; enemies := enemies s; keys := keys s;
     frame := v; score := score s; stage := stage s; stageTimer := stageTimer s;
     bossActive := bossActive s; bossRef := bossRef s; dataFragments := dataFragments s;
     difficulty := difficulty s; timeScale := timeScale s; waveDelay := waveDelay s;
     isGameOver := isGameOver s; kills := kills s; bossKills := bossKills s;
     shotsFired := shotsFired s; practiceTimer := practiceTimer s; events := events s;
     rng := rng s |}.
Definition set_score (v : Z) (s : State) : State :=
  {| player := player s; bullets := bullets s; enemies := enemies s; keys := keys s;
     frame := frame s; score := v; stage := stage s; stageTimer := stageTimer s;
     bossActive := bossActive s; bossRef := bossRef s; dataFragments := dataFragments s;
     difficulty := difficulty s; timeScale := timeScale s; waveDelay := waveDelay s;
     isGameOver := isGameOver s; kills := kills s; bossKills := bossKills s;
     shotsFired := shotsFired s; practiceTimer := practiceTimer s; events := events s;
     rng := rng s |}.
Definition set_stage (v : nat) (s : State) : State :=
  {| player := player s; bullets := bullets s; enemies := enemies s; keys := keys s;
     frame := frame s; score := score s; stage := v; stageTimer := stageTimer s;
     bossActive := bossActive s; bossRef := bossRef s; dataFragments := dataFragments s;
     difficulty := difficulty s; timeScale := timeScale s; waveDelay := waveDelay s;
     isGameOver := isGameOver s; kills := kills s; bossKills := bossKills s;
     shotsFired := shotsFired s; practiceTimer := practiceTimer s; events := events s;
     rng := rng s |}.
Definition set_stageTimer (v : nat) (s : State) : State :=
  {| player := player s; bullets := bullets s; enemies := enemies s; keys := keys s;
     frame := frame s; score := score s; stage := stage s; stageTimer := v;
     bossActive := bossActive s; bossRef := bossRef s; dataFragments := dataFragments s;
     difficulty := difficulty s; timeScale := timeScale s; waveDelay := waveDelay s;
     isGameOver := isGameOver s; kills := kills s; bossKills := bossKills s;
     shotsFired := shotsFired s; practiceTimer := practiceTimer s; events := events s;
     rng := rng s |}.
Definition set_bossActive (v : bool) (s : State) : State :=
  {| player := player s; bullets := bullets s; enemies := enemies s; keys := keys s;
     frame := frame s; score := score s; stage := stage s; stageTimer := stageTimer s;
     bossActive := v; bossRef := bossRef s; dataFragments := dataFragments s;
     difficulty := difficulty s; timeScale := timeScale s; waveDelay := waveDelay s;
     isGameOver := isGameOver s; kills := kills s; bossKills := bossKills s;
     shotsFired := shotsFired s; practiceTimer := practiceTimer s; events := events s;
     rng := rng s |}.
Definition set_bossRef (v : option string) (s : State) : State :=
  {| player := player s; bullets := bullets s; enemies := enemies s; keys := keys s;
     frame := frame s; score := score s; stage := stage s; stageTimer := stageTimer s;
     bossActive := bossActive s; bossRef := v; dataFragments := dataFragments s;
     difficulty := difficulty s; timeScale := timeScale s; waveDelay := waveDelay s;
     isGameOver := isGameOver s; kills := kills s; bossKills := bossKills s;
     shotsFired := shotsFired s; practiceTimer := practiceTimer s; events := events s;
     rng := rng s |}.
Definition set_dataFragments (v : Z) (s : State) : State :=
  {| player := player s; bullets := bullets s; enemies := enemies s; keys := keys s;
     frame := frame s; score := score s; stage := stage s; stageTimer := stageTimer s;
     bossActive := bossActive s; bossRef := bossRef s; dataFragments := v;
     difficulty := difficulty s; timeScale := timeScale s; waveDelay := waveDelay s;
     isGameOver := isGameOver s; kills := kills s; bossKills := bossKills s;
     shotsFired := shotsFired s; practiceTimer := practiceTimer s; events := events s;
     rng := rng s |}.
Definition set_timeScale (v : Q) (s : State) : State :=
  {| player := player s; bullets := bullets s; enemies := enemies s; keys := keys s;
     frame := frame s; score := score s; stage := stage s; stageTimer := stageTimer s;
     bossActive := bossActive s; bossRef := bossRef s; dataFragments := dataFragments s;
     difficulty := difficulty s; timeScale := v; waveDelay := waveDelay s;
     isGameOver := isGameOver s; kills := kills s; bossKills := bossKills s;
     shotsFired := shotsFired s; practiceTimer := practiceTimer s; events := events s;
     rng := rng s |}.
Definition set_waveDelay (v : nat) (s : State) : State :=
  {| player := player s; bullets := bullets s; enemies := enemies s; keys := keys s;
     frame := frame s; score := score s; stage := stage s; stageTimer := stageTimer s;
     bossActive := bossActive s; bossRef := bossRef s; dataFragments := dataFragments s;
     difficulty := difficulty s; timeScale := timeScale s; waveDelay := v;
     isGameOver := isGameOver s; kills := kills s; bossKills := bossKills s;
     shotsFired := shotsFired s; practiceTimer := practiceTimer s; events := events s;
     rng := rng s |}.
Definition set_isGameOver (v : bool) (s : State) : State :=
  {| player := player s; bullets := bullets s; enemies := enemies s; keys := keys s;
     frame := frame s; score := score s; stage := stage s; stageTimer := stageTimer s;
     bossActive := bossActive s; bossRef := bossRef s; dataFragments := dataFragments s;
     difficulty := difficulty s; timeScale := timeScale s; waveDelay := waveDelay s;
     isGameOver := v; kills := kills s; bossKills := bossKills s; shotsFired := shotsFired s;
     practiceTimer := practiceTimer s; events := events s; rng := rng s |}.
Definition set_kills (v : nat) (s : State) : State :=
  {| player := player s; bullets := bullets s; enemies := enemies s; keys := keys s;
     frame := frame s; score := score s; stage := stage s; stageTimer := stageTimer s;
     bossActive := bossActive s; bossRef := bossRef s; dataFragments := dataFragments s;
     difficulty := difficulty s; timeScale := timeScale s; waveDelay := waveDelay s;
     isGameOver := isGameOver s; kills := v; bossKills := bossKills s;
     shotsFired := shotsFired s; practiceTimer := practiceTimer s; events := events s;
     rng := rng s |}.
Definition set_bossKills (v : nat) (s : State) : State :=
  {| player := player s; bullets := bullets s; enemies := enemies s; keys := keys s;
     frame := frame s; score := score s; stage := stage s; stageTimer := stageTimer s;
     bossActive := bossActive s; bossRef := bossRef s; dataFragments := dataFragments s;
     difficulty := difficulty s; timeScale := timeScale s; waveDelay := waveDelay s;
     isGameOver := isGameOver s; kills := kills s; bossKills := v; shotsFired := shotsFired s;
     practiceTimer := practiceTimer s; events := events s; rng := rng s |}.
Definition set_shotsFired (v : nat) (s : State) : State :=
  {| player := player s; bullets := bullets s; enemies := enemies s; keys := keys s;
     frame := frame s; score := score s; stage := stage s; stageTimer := stageTimer s;
     bossActive := bossActive s; bossRef := bossRef s; dataFragments := dataFragments s;
     difficulty := difficulty s; timeScale := timeScale s; waveDelay := waveDelay s;
     isGameOver := isGameOver s; kills := kills s; bossKills := bossKills s; shotsFired := v;
     practiceTimer := practiceTimer s; events := events s; rng := rng s |}.
Definition set_practiceTimer (v : nat) (s : State) : State :=
  {| player := player s; bullets := bullets s; enemies := enemies s; keys := keys s;
     frame := frame s; score := score s; stage := stage s; stageTimer := stageTimer s;
     bossActive := bossActive s; bossRef := bossRef s; dataFragments := dataFragments s;
     difficulty := difficulty s; timeScale := timeScale s; waveDelay := waveDelay s;
     isGameOver := isGameOver s; kills := kills s; bossKills := bossKills s;
     shotsFired := shotsFired s; practiceTimer := v; events := events s; rng := rng s |}.
Definition set_events (v : list GameOverCall) (s : State) : State :=
  {| player := player s; bullets := bullets s; enemies := enemies s; keys := keys s;
     frame := frame s; score := score s; stage := stage s; stageTimer := stageTimer s;
     bossActive := bossActive s; bossRef := bossRef s; dataFragments := dataFragments s;
     difficulty := difficulty s; timeScale := timeScale s; waveDelay := waveDelay s;
     isGameOver := isGameOver s; kills := kills s; bossKills := bossKills s;
     shotsFired := shotsFired s; practiceTimer := practiceTimer s; events := v; rng := rng s |}.
Definition set_rng (v : nat) (s : State) : State :=
  {| player := player s; bullets := bullets s; enemies := enemies s; keys := keys s;
     frame := frame s; score := score s; stage := stage s; stageTimer := stageTimer s;
     bossActive := bossActive s; bossRef := bossRef s; dataFragments := dataFragments s;
     difficulty := difficulty s; timeScale := timeScale s; waveDelay := waveDelay s;
     isGameOver := isGameOver s; kills := kills s; bossKills := bossKills s;
     shotsFired := shotsFired s; practiceTimer := practiceTimer s; events := events s; rng := v |}.
(** ** The engine *)

Record PracticeMode := {
  entryType : EntryType;           (* [practiceMode.entry.type] *)
  entryVariant : option Variant;   (* [practiceMode.entry.bossVariant] *)
}.

(** What a behaviour that is not modelled line by line hands back: the arrays
    of enemies and projectiles and the position in the stream of random
    numbers.  Such a behaviour cannot touch the player, the score, the
    statistics, the game-over flag or the log of outcome events; that is true
    of the code they stand for. *)
Definition Field : Type := list Enemy * list Bullet * nat.

(** Everything the step reads from outside the world state. *)
Record Env := {
  (* [../constants] *)
  env_CANVAS_WIDTH : Q;
  env_CANVAS_HEIGHT : Q;
  env_SPELL_CARDS_cooldown : SpellCardId -> Q;   (* [SPELL_CARDS[id].cooldown] *)
  (* [Math]; [Math.random k] is the value of the [k]-th call that the model
     consumes *)
  env_Math_cos : Q -> Q;
  env_Math_sin : Q -> Q;
  env_Math_atan2 : Q -> Q -> Q;
  env_Math_sqrt : Q -> Q;
  env_Math_PI : Q;
  env_Math_random : nat -> Q;
  (* props and React state of the component *)
  env_activeBoosters : BoosterId -> bool;        (* [activeBoosters.has] *)
  env_pityStacks : nat;
  env_practiceMode : option PracticeMode;
  env_isPaused : bool;
  (* behaviours taken as parameters, with the lines they stand for *)
  env_spawnEnemy : State -> Field * bool * option string;
    (* 349-465 with [generateBoss]: the arrays, [bossActive] and [boss] *)
  env_ghostLogic : State -> nat -> Field;        (* 833-888 *)
  env_bossLogic : State -> nat -> Field * bool;
    (* 973-1480; the flag says that the callback returned inside these lines *)
  env_miniBossLogic : State -> nat -> Field;     (* 1483-1557 *)
  env_bulletSpecial : State -> nat -> Field;     (* 1624-1789 *)
  env_bulletEdges : State -> nat -> Field;       (* 1796-1827 *)
}.

Section Engine.

Variable env : Env.

Local Abbreviation CANVAS_WIDTH := (env_CANVAS_WIDTH env).
Local Abbreviation CANVAS_HEIGHT := (env_CANVAS_HEIGHT env).
Local Abbreviation SPELL_CARDS_cooldown := (env_SPELL_CARDS_cooldown env).
Local Abbreviation Math_cos := (env_Math_cos env).
Local Abbreviation Math_sin := (env_Math_sin env).
Local Abbreviation Math_atan2 := (env_Math_atan2 env).
Local Abbreviation Math_sqrt := (env_Math_sqrt env).
Local Abbreviation Math_PI := (env_Math_PI env).
Local Abbreviation Math_random := (env_Math_random env).
Local Abbreviation activeBoosters := (env_activeBoosters env).
Local Abbreviation pityStacks := (env_pityStacks env).
Local Abbreviation practiceMode := (env_practiceMode env).
Local Abbreviation isPaused := (env_isPaused env).
Local Abbreviation spawnEnemy := (env_spawnEnemy env).
Local Abbreviation ghostLogic := (env_ghostLogic env).
Local Abbreviation bossLogic := (env_bossLogic env).
Local Abbreviation miniBossLogic := (env_miniBossLogic env).
Local Abbreviation bulletSpecial := (env_bulletSpecial env).
Local Abbreviation bulletEdges := (env_bulletEdges env).

Definition damageMultiplier : Q := 1 + 0.02 * inject_Z (Z.of_nat pityStacks).
Definition cdrMultiplier : Q := 1 + 0.02 * inject_Z (Z.of_nat pityStacks).
Definition incomingDamageMultiplier : Q :=
  if activeBoosters DMG_RED then 0.66 else 1.0.

Definition put_field (f : Field) (s : State) : State :=
  let '(es, bs, r) := f in set_rng r (set_bullets bs (set_enemies es s)).

(** In-place update of [state.enemies[i]], [state.bullets[i]], [state.player]. *)
Definition upd_enemy (i : nat) (f : Enemy -> Enemy) (s : State) : State :=
  set_enemies (alter f i (enemies s)) s.
Definition upd_bullet (i : nat) (f : Bullet -> Bullet) (s : State) : State :=
  set_bullets (alter f i (bullets s)) s.
Definition upd_player (f : Player -> Player) (s : State) : State :=
  set_player (f (player s)) s.
Definition push_bullets (l : list Bullet) (s : State) : State :=
  set_bullets (bullets s ++ l) s.
Definition push_enemies (l : list Enemy) (s : State) : State :=
  set_enemies (enemies s ++ l) s.

(** One [Math.random()]. *)
Definition random (s : State) : Q * State :=
  (Math_random (rng s), set_rng (S (rng s)) s).

(** [arr.forEach] over the indices present when the loop starts. *)
Definition for_indices (n : nat) (body : State -> nat -> State) (s : State) : State :=
  foldl body s (seq 0 n).

(** [onGameOver(score, win, fragments, stats)]. *)
Definition onGameOver (sc : Z) (win : bool) (fr : Z) (st : option SessionStats)
    (s : State) : State :=
  set_events (events s ++ [ {| ev_score := sc; ev_win := win;
                               ev_fragments := fr; ev_stats := st |} ]) s.

Definition sessionStats (s : State) : SessionStats :=
  {| totalKills := kills s; bossesKilled := bossKills s;
     totalShotsFired := shotsFired s; maxStageReached := stage s |}.

(** *** [createExplosion] (467-487) *)

Definition explode_enemy (x y radius finalDamage : Q) (e : Enemy) : Enemy :=
  if dist_lt (e_x e) (e_y e) x y (radius + e_width e) then
    if bool_decide (e_type e <> T_boss_clone)
    then set_e_hp (e_hp e - finalDamage) e
    else e
  else e.

Definition createExplosion (x y radius damage : Q) (s : State) : State :=
  let finalDamage :=
    (if activeBoosters ATTACK_UP then damage * 1.25 else damage)
    * damageMultiplier in
  set_enemies (map (explode_enemy x y radius finalDamage) (enemies s)) s.

(** *** [activateSpell] (489-565) *)

(** [state.enemies.forEach(e => { e.hp -= dmg; createExplosion(e.x, e.y, rad, 0) })] *)
Definition strike_each (dmg rad : Q) (s : State) : State :=
  for_indices (length (enemies s)) (fun s i =>
    let s := upd_enemy i (fun e => set_e_hp (e_hp e - dmg) e) s in
    match enemies s !! i with
    | Some e => createExplosion (e_x e) (e_y e) rad 0 s
    | None => s
    end) s.

Definition spell_effect (spellId : SpellCardId) (lvl : nat) (s : State) : State :=
  match spellId with
  | EMP_BLAST =>
      let s := set_bullets
                 (filter (fun b => b_owner b = by_player) (bullets s)) s in
      if (3 <=? lvl)%nat then strike_each (200 * damageMultiplier) 50 s else s
  | TIME_DILATOR =>
      let duration := (300 + (if (2 <=? lvl)%nat then 120 else 0)
                           + (if (3 <=? lvl)%nat then 180 else 0))%nat in
      upd_player (fun p =>
        set_p_activeBuffs (<[spell_key TIME_DILATOR := duration]> (p_activeBuffs p)) p) s
  | OVERCLOCK =>
      let duration := (300 + (if (2 <=? lvl)%nat then 120 else 0))%nat in
      upd_player (fun p =>
        set_p_activeBuffs (<[spell_key OVERCLOCK := duration]> (p_activeBuffs p)) p) s
  | PHANTOM_DASH =>
      let invuln := (240 + (if (2 <=? lvl)%nat then 60 else 0))%nat in
      upd_player (set_p_invulnerableTime invuln) s
  | ORBITAL_STRIKE =>
      let strikeDmg := if (3 <=? lvl)%nat then 6000 else 3000 in
      let strikeRad := if (2 <=? lvl)%nat then 150 else 100 in
      strike_each (strikeDmg * damageMultiplier) strikeRad s
  | NANO_REPAIR =>
      let healPercent := if (2 <=? lvl)%nat then 0.5 else 0.3 in
      let s := upd_player (fun p =>
                 set_p_hp (Math_min (p_maxHp p) (p_hp p + p_maxHp p * healPercent)) p) s in
      if (3 <=? lvl)%nat
      then upd_player (fun p => set_p_hp (Math_min (p_maxHp p) (p_hp p + 20)) p) s
      else s
  | AEGIS_SHIELD =>
      let shieldAmt := if (2 <=? lvl)%nat then 80 else 50 in
      upd_player (fun p => set_p_shield (p_shield p + shieldAmt) p) s
  | STASIS_FIELD =>
      let freezeDur := if (2 <=? lvl)%nat then 300%nat else 180%nat in
      set_enemies (map (set_e_frozenTimer (Some freezeDur)) (enemies s)) s
  end.

Definition activateSpell (index : nat) (s : State) : State :=
  match p_equippedSpells (player s) !! index, p_spellCooldowns (player s) !! index with
  | Some spellId, Some cd =>
      if Qleb cd 0 then
        let lvl := p_spellLevels (player s) spellId in
        let cooldown := SPELL_CARDS_cooldown spellId * 60 in
        let cooldown := if activeBoosters CDR_UP then cooldown * 0.8 else cooldown in
        let cooldown := cooldown / cdrMultiplier in
        let cooldown :=
          if bool_decide (spellId = EMP_BLAST) && (2 <=? lvl)%nat
          then cooldown - 300 else cooldown in
        let cooldown :=
          if bool_decide (spellId = PHANTOM_DASH) && (3 <=? lvl)%nat
          then cooldown - 600 else cooldown in
        let s := upd_player (fun p =>
                   set_p_spellCooldowns
                     (<[index := Math_max 60 cooldown]> (p_spellCooldowns p)) p) s in
        spell_effect spellId lvl s
      else s
  | _, _ => s
  end.

(** *** Construction of projectiles *)

Definition noBulletExt : BulletExt :=
  {| angle := None; homingTargetId := None; deceleration := None;
     explodeOnWall := false; isFirework := false; hasTrace := false;
     isBouncing := false; bouncesLeft := None; isReturning := false;
     spawnerAngle := None; minSpeedReached := false; minSpeedTimer := None;
     b_maxHp := None |}.

(** An object literal with the required properties of a projectile,
    [dead: false] and [timer: 0]; the optional ones are added by setters. *)
Definition shot (o : Owner) (id : string) (x y w h vx vy dmg : Q) : Bullet :=
  {| b_id := id; b_x := x; b_y := y; b_width := w; b_height := h;
     b_vx := vx; b_vy := vy; b_dead := false; b_owner := o; b_damage := dmg;
     b_timer := 0; b_weaponId := None; b_piercing := false; b_hitList := None;
     b_initialX := None; b_splashRadius := None; b_chainCount := None;
     b_orbitRadius := None; b_orbitAngle := None; b_orbCooldown := None;
     b_isVortex := false; b_isMine := false; b_hp := None; b_isLaser := false;
     b_isSpawner := false; b_ext := noBulletExt |}.

Definition player_shot (wId : WeaponId) (x y w h vx vy dmg : Q) : Bullet :=
  set_b_weaponId (Some wId) (shot by_player "b_" x y w h vx vy dmg).

Definition enemy_shot (id : string) (x y w h vx vy dmg : Q) : Bullet :=
  shot by_enemy id x y w h vx vy dmg.

(** The integers [lo], [lo+1], ..., [hi] of a counting [for] loop. *)
Definition zrange (lo hi : Z) : list Z :=
  map (fun k => (lo + Z.of_nat k)%Z) (seq 0 (Z.to_nat (hi - lo + 1))).

Definition Qnat (n : nat) : Q := inject_Z (Z.of_nat n).

(** *** Start of the step: timers, buffs, spells, regeneration (567-632) *)

Definition pressed (k : string) (s : State) : bool := default false (keys s !! k).

(** [Object.keys(activeBuffs).forEach(key => { if (buffs[key] > 0) buffs[key]--;
    else delete buffs[key]; })] *)
Definition tick_buffs (m : gmap string nat) : gmap string nat :=
  omap (fun v => match v with S v' => Some v' | O => None end) m.

(** [if (activeBuffs[TIME_DILATOR]) timeScale = 0.2 else 1.0]. *)
Definition timeScale_of (m : gmap string nat) : Q :=
  match m !! spell_key TIME_DILATOR with
  | Some (S _) => 0.2
  | _ => 1.0
  end.

Definition isOverclocked (s : State) : bool :=
  match p_activeBuffs (player s) !! spell_key OVERCLOCK with
  | Some (S _) => true
  | _ => false
  end.

(** The practice timer (576-586); [true] when the step returns here. *)
Definition practice_clock (s : State) : State * bool :=
  match practiceMode with
  | Some pm =>
      if (frame s mod 60 =? 0)%nat then
        let s := set_practiceTimer (S (practiceTimer s)) s in
        if bool_decide (entryType pm = mob_entry) && (60 <=? practiceTimer s)%nat
        then (onGameOver (score s) true 0 None (set_isGameOver true s), true)
        else (s, false)
      else (s, false)
  | None => (s, false)
  end.

Definition regenThreshold : nat := if activeBoosters REGEN_UP then 300 else 600.

(** 626-632. *)
Definition regenerate (s : State) : State :=
  let s := upd_player (fun p =>
             set_p_framesSinceLastHit (S (p_framesSinceLastHit p)) p) s in
  let p := player s in
  if (regenThreshold <? p_framesSinceLastHit p)%nat
     && (frame s mod 60 =? 0)%nat && Qltb (p_hp p) (p_maxHp p)
  then upd_player (set_p_hp (Math_min (p_maxHp p) (p_hp p + 1))) s
  else s.

(** *** Gravity of the Somniomancer and movement of the player (634-672) *)

Definition boss_index (s : State) : option (nat * Enemy) :=
  match bossRef s with
  | Some bid => list_find (fun e => e_id e = bid) (enemies s)
  | None => None
  end.

Definition gravity (s : State) : State :=
  let calm := upd_player (fun p => set_p_vy 0 (set_p_vx 0 p)) in
  match (if bossActive s then boss_index s else None) with
  | Some (i, b0) =>
      if bool_decide (e_variant b0 = Some V_somniomancer) then
        let s :=
          if (frame s mod 1800 =? 0)%nat then
            let '(r, s) := random s in
            let angle := r * Math_PI * 2 in
            let strength := 1.2 in
            upd_enemy i (fun b =>
              set_e_gravityTimer (Some 1800%nat)
                (set_e_gravityDir
                   (Some (Math_cos angle * strength, Math_sin angle * strength)) b)) s
          else s in
        match enemies s !! i with
        | Some b =>
            match e_gravityTimer b with
            | Some (S t) =>
                let s := upd_enemy i (set_e_gravityTimer (Some t)) s in
                match e_gravityDir b with
                | Some (gx, gy) => upd_player (fun p => set_p_vy gy (set_p_vx gx p)) s
                | None => s
                end
            | _ => calm s
            end
        | None => calm s
        end
      else calm s
  | None => calm s
  end.

Definition move_player (speed : Q) (s : State) : State :=
  let key2 a b := pressed a s || pressed b s in
  upd_player (fun p =>
    let p := if key2 "ArrowUp" "KeyW"
             then set_p_y (Math_max (p_height p) (p_y p - speed)) p else p in
    let p := if key2 "ArrowDown" "KeyS"
             then set_p_y (Math_min (CANVAS_HEIGHT - p_height p) (p_y p + speed)) p else p in
    let p := if key2 "ArrowLeft" "KeyA"
             then set_p_x (Math_max (p_width p) (p_x p - speed)) p else p in
    let p := if key2 "ArrowRight" "KeyD"
             then set_p_x (Math_min (CANVAS_WIDTH - p_width p) (p_x p + speed)) p else p in
    let p := set_p_x (p_x p + p_vx p) p in
    let p := set_p_y (p_y p + p_vy p) p in
    let p := set_p_x (Math_max (p_width p) (Math_min (CANVAS_WIDTH - p_width p) (p_x p))) p in
    set_p_y (Math_max (p_height p) (Math_min (CANVAS_HEIGHT - p_height p) (p_y p))) p) s.

(** *** Weapon emission (675-810) *)

(** The body of the [switch (wId)] for one equipped weapon. *)
Definition emit (wId : WeaponId) (lvl : nat) (dmgMult : Q) (s : State) : State :=
  let p := player s in
  let ge n := (n <=? lvl)%nat in
  match wId with
  | PLASMA_CUTTER =>
      let dmg := (if ge 2%nat then 13 else 10) * dmgMult in
      let s := push_bullets [player_shot wId (p_x p) (p_y p - 10) 4 12 0 (-15) dmg] s in
      if ge 3%nat then
        push_bullets [player_shot wId (p_x p - 8) (p_y p - 5) 3 10 (-1) (-15) dmg;
                      player_shot wId (p_x p + 8) (p_y p - 5) 3 10 1 (-15) dmg] s
      else s
  | SPREAD_SHOTGUN =>
      let spreadCount := if ge 3%nat then 3%Z else 2%Z in
      let damage := (if ge 2%nat then 7 else 5) * dmgMult in
      let piercing := ge 3%nat in
      push_bullets
        (map (fun i => set_b_piercing piercing
                (player_shot wId (p_x p) (p_y p) 3 3 (inject_Z i * 2) (-12) damage))
             (zrange (- spreadCount) spreadCount)) s
  | HOMING_NEEDLES =>
      let speedMult := if ge 2%nat then 1.5 else 1 in
      let count := if ge 3%nat then 4%nat else 2%nat in
      let damage := 4 * dmgMult in
      foldl (fun s i =>
        let '(r, s) := random s in
        push_bullets
          [player_shot wId (p_x p + (Qnat i * 10 - Qnat count * 5)) (p_y p) 3 6
             ((r - 0.5) * 4) (-10 * speedMult) damage] s) s (seq 0 count)
  | LASER_STREAM =>
      let w := if ge 2%nat then 10 else 6 in
      let d := (if ge 3%nat then 34 else 22.5) * dmgMult in
      push_bullets
        [set_b_hitList (Some []) (set_b_piercing true
           (player_shot wId (p_x p) (p_y p - 10) w 40 0 (-25) d))] s
  | WAVE_MOTION =>
      let dmg := 13.5 * dmgMult in
      let wave := set_b_initialX (Some (p_x p))
                    (player_shot wId (p_x p) (p_y p) 8 8 0 (-8) dmg) in
      let s := push_bullets [wave] s in
      if ge 3%nat then push_bullets [set_b_splashRadius (Some 1) wave] s else s
  | ROCKET_BARRAGE =>
      let radius := if ge 2%nat then 90 else 60 in
      let isCluster := ge 3%nat in
      let damage := 10 * dmgMult in
      let '(r, s) := random s in
      push_bullets
        [set_b_chainCount (Some (if isCluster then (-1)%Z else 0%Z))
           (set_b_splashRadius (Some radius)
              (player_shot wId (p_x p) (p_y p) 8 12 ((r - 0.5) * 2) (-4) damage))] s
  | CHAIN_LIGHTNING =>
      let jumps := if ge 3%nat then 8%Z else 4%Z in
      let rangeMult := if ge 2%nat then 2.0 else 1.2 in
      let dmg := (if ge 2%nat then 39 else 27) * dmgMult in
      push_bullets
        [set_b_orbitRadius (Some rangeMult) (set_b_chainCount (Some jumps)
           (player_shot wId (p_x p) (p_y p) 4 10 0 (-18) dmg))] s
  | BACK_TURRET =>
      let damage := (if ge 2%nat then 26 else 19) * dmgMult in
      let s := push_bullets [player_shot wId (p_x p) (p_y p + 10) 6 10 0 12 damage] s in
      if ge 3%nat
      then push_bullets [player_shot wId (p_x p) (p_y p - 10) 6 10 0 (-12) damage] s
      else s
  | VORTEX_DRIVER =>
      if (frame s mod 53 =? 0)%nat then
        let strength := if ge 2%nat then 1.5 else 1 in
        let '(r, s) := random s in
        let targetY := 100 + r * 120 in
        let dist := p_y p - targetY in
        let initialVy := - (dist * 0.042) in
        push_bullets
          [set_b_chainCount (Some (if ge 3%nat then 1%Z else 0%Z))
             (set_b_orbitRadius (Some strength) (set_b_isVortex true
                (player_shot wId (p_x p) (p_y p) 12 12 0 initialVy (5 * dmgMult))))] s
      else s
  | ORBITING_ORBS =>
      let existingOrbs :=
        length (filter (fun b => b_owner b = by_player
                                 /\ b_weaponId b = Some ORBITING_ORBS
                                 /\ b_dead b = false) (bullets s)) in
      let maxOrbs := if (lvl =? 1)%nat then 2%nat
                     else if (lvl =? 2)%nat then 3%nat else 4%nat in
      let rad := if ge 3%nat then 80 else 60 in
      let speed := if ge 2%nat then 0.3 else 0.15 in
      let dmg := (if ge 2%nat then 20 else 15) * dmgMult in
      if (existingOrbs <? maxOrbs)%nat && (frame s mod 10 =? 0)%nat then
        push_bullets
          [set_b_splashRadius (Some speed) (set_b_orbitRadius (Some rad)
             (set_b_orbitAngle
                (Some ((Qnat existingOrbs * (360 / Qnat maxOrbs)) * (Math_PI / 180)))
                (player_shot wId (p_x p) (p_y p) 10 10 0 0 dmg)))] s
      else s
  | GAUSS_CANNON =>
      if (frame s mod 40 =? 0)%nat then
        let isRail := ge 3%nat in
        let piercingCount := if ge 2%nat then 3%Z else 1%Z in
        let dmg := 800 * dmgMult in
        push_bullets
          [set_b_chainCount (Some (if isRail then 99%Z else piercingCount))
             (set_b_piercing true
                (player_shot wId (p_x p) (p_y p - 10) 5 30 0 (-40) dmg))] s
      else s
  | PULSE_NOVA =>
      if (frame s mod 50 =? 0)%nat then
        let size := if ge 3%nat then 60 else 30 in
        let pulseRate := if ge 2%nat then 10 else 20 in
        let damage := 100 * dmgMult in
        push_bullets
          [set_b_splashRadius (Some pulseRate) (set_b_piercing true
             (player_shot wId (p_x p) (p_y p) size size 0 (-2) damage))] s
      else s
  | PHASE_BLADES =>
      if (frame s mod 30 =? 0)%nat then
        let count := if ge 2%nat then 3%nat else 2%nat in
        let damage := 18 * dmgMult in
        foldl (fun s _ =>
          let '(r1, s) := random s in
          let '(r2, s) := random s in
          push_bullets
            [player_shot wId (p_x p + (r1 - 0.5) * 40) (p_y p) 8 8
               ((r2 - 0.5) * 5) (-10) damage] s) s (seq 0 count)
      else s
  end.

(** The callback of [equippedWeapons.forEach] (685-807). *)
Definition fire_weapon (dmgMult : Q) (s : State) (wId : WeaponId) : State :=
  let lvl := p_weaponLevels (player s) wId in
  let s := set_shotsFired (S (shotsFired s)) s in
  emit wId lvl dmgMult s.

Definition baseFireRate (overclocked : bool) (s : State) : nat :=
  let ocLevel := p_spellLevels (player s) OVERCLOCK in
  if overclocked then (if (3 <=? ocLevel)%nat then 2%nat else 3%nat) else 6%nat.

(** 675-810; [overclocked] is the constant [isOverclocked] computed at the
    start of the step. *)
Definition fire (overclocked : bool) (s : State) : State :=
  if pressed "KeyZ" s || pressed "Space" s then
    if (frame s mod baseFireRate overclocked s =? 0)%nat then
      let dmgMult := (if activeBoosters ATTACK_UP then 1.25 else 1.0) * damageMultiplier in
      foldl (fire_weapon dmgMult) s (p_equippedWeapons (player s))
    else s
  else s.

(** *** Behaviour of enemies (815-1619) *)

(** [a || d] on an optional number: [undefined] and [0] give [d]. *)
Definition js_or (a : option Q) (d : Q) : Q :=
  match a with
  | Some v => if Qeq_bool v 0 then d else v
  | None => d
  end.

Definition noEnemyExt : EnemyExt :=
  {| currentAttack := None; attackTimer := None; dashState := None;
     dashTimer := None; mimicType := None; mimicTimer := None;
     ghostType := None; ghostState := None; ghostTimer := None;
     targetPos := None; trinityTimer := None; summonBatchCount := None;
     trinityActive := false; duoActive := false; duoTimer := None |}.

(** An enemy literal with the required properties, [vx: 0], [vy: 0],
    [dead: false], [patternTimer: 0], [shotTimer: 0] and [height = width]. *)
Definition spawned (id : string) (ty : EnemyType) (x y w hp : Q) (sv : Z) : Enemy :=
  {| e_id := id; e_x := x; e_y := y; e_width := w; e_height := w;
     e_vx := 0; e_vy := 0; e_dead := false; e_hp := hp; e_maxHp := hp;
     e_type := ty; e_variant := None; e_scoreValue := sv;
     e_patternTimer := 0; e_shotTimer := 0; e_state := None;
     e_frozenTimer := None; e_phase := None; e_phaseTransitionTimer := None;
     e_fightStartFrame := None; e_dmgReduction := None;
     e_dmgReductionTimer := None; e_parentId := None; e_orbitAngle := None;
     e_orbitRadius := None; e_orbitSpeed := None; e_shieldHp := None;
     e_shieldMax := None; e_shieldActive := false; e_shieldTimer := None;
     e_laserCharge := None; e_isReflecting := false; e_burstCount := None;
     e_targetAngle := None; e_invulnTimer := None; e_gravityDir := None;
     e_gravityTimer := None; e_isGhost := false; e_ext := noEnemyExt |}.

(** [state.enemies[i]] takes the value [e]. *)
Definition write_enemy (i : nat) (e : Enemy) (s : State) : State :=
  set_enemies (<[i := e]> (enemies s)) s.

(** [Math.atan2(player.y - e.y, player.x - e.x)]. *)
Definition angle_to_player (s : State) (e : Enemy) : Q :=
  Math_atan2 (p_y (player s) - e_y e) (p_x (player s) - e_x e).

(** A shot of the given speed along [angle], fired from the enemy. *)
Definition aimed (id : string) (e : Enemy) (size angle speed dmg : Q) : Bullet :=
  enemy_shot id (e_x e) (e_y e) size size
    (Math_cos angle * speed) (Math_sin angle * speed) dmg.

(** The damage a contact or a projectile does to the player: the shield
    pool takes it if it is not empty, else the hit points; at zero hit
    points a revive is spent or the run is lost.  [checkHit] (1936-1945)
    sets [invulnerableTime = 60] only when the player survives, the
    kamikaze (1604) sets it before it looks at the hit points. *)
Definition lose (s : State) : State :=
  onGameOver (score s) false (dataFragments s) (Some (sessionStats s))
    (set_isGameOver true s).

Definition revive (s : State) : State :=
  let s := upd_player (fun p =>
             set_p_invulnerableTime 120
               (set_p_hp (p_maxHp p) (set_p_revives (pred (p_revives p)) p))) s in
  createExplosion (p_x (player s)) (p_y (player s)) 200 500 s.

Definition kamikaze_hit (s : State) : State :=
  if (p_invulnerableTime (player s) =? 0)%nat then
    if Qltb 0 (p_shield (player s)) then
      upd_player (fun p =>
        set_p_invulnerableTime 30
          (set_p_shield (p_shield p - 30 * incomingDamageMultiplier) p)) s
    else
      let s := upd_player (fun p =>
                 set_p_invulnerableTime 60
                   (set_p_framesSinceLastHit 0
                      (set_p_hp (p_hp p - 30 * incomingDamageMultiplier) p))) s in
      if Qleb (p_hp (player s)) 0 then
        if (0 <? p_revives (player s))%nat then revive s else lose s
      else s
  else s.

(** The kamikaze (1604): it homes in on the player and blows up within 40
    units of him. *)
Definition kamikaze_logic (s : State) (i : nat) (e : Enemy) : State :=
  let ts := timeScale s in
  let angle := angle_to_player s e in
  let e := set_e_vx (e_vx e + Math_cos angle * 0.2) e in
  let e := set_e_vy (e_vy e + Math_sin angle * 0.2) e in
  let e := if Qltb (5 * 5) (e_vx e * e_vx e + e_vy e * e_vy e)
           then set_e_vy (e_vy e * 0.9) (set_e_vx (e_vx e * 0.9) e) else e in
  let e := set_e_x (e_x e + e_vx e * ts) e in
  let e := set_e_y (e_y e + e_vy e * ts) e in
  let s := write_enemy i e s in
  if dist_lt (p_x (player s)) (p_y (player s)) (e_x e) (e_y e) 40 then
    let s := createExplosion (e_x e) (e_y e) 100 30 s in
    let s := kamikaze_hit s in
    upd_enemy i (set_e_dead true) s
  else s.

(** The standard mobs (1597-1610); [e] is [state.enemies[i]] after its
    timers were advanced. *)
Definition mob_logic (s : State) (i : nat) (e : Enemy) : State :=
  let ts := timeScale s in
  match e_type e with
  | T_drone =>
      let e := set_e_y (e_y e + 2 * ts) e in
      let e := set_e_x (e_x e + Math_sin (Qnat (e_patternTimer e) * 0.05) * 3 * ts) e in
      if Qltb 120 (e_shotTimer e) then
        let e := set_e_shotTimer 0 e in
        push_bullets [aimed "eb_" e 5 (angle_to_player s e) 2 10] (write_enemy i e s)
      else write_enemy i e s
  | T_tank =>
      let e := set_e_y (e_y e + 0.8 * ts) e in
      if Qltb 90 (e_shotTimer e) then
        let e := set_e_shotTimer 0 e in
        push_bullets
          (map (fun k => enemy_shot "eb_" (e_x e) (e_y e) 8 8 (inject_Z k * 1.5) 3 15)
               (zrange (-1) 1))
          (write_enemy i e s)
      else write_enemy i e s
  | T_interceptor =>
      if (e_patternTimer e <? 60)%nat then
        write_enemy i (set_e_y (e_y e + 3 * ts) e) s
      else
        let e := if Qeq_bool (e_vx e) 0
                 then set_e_vx ((if Qltb (e_x e) (p_x (player s)) then 1 else -1) * 4) e
                 else e in
        let e := set_e_x (e_x e + e_vx e * ts) e in
        write_enemy i (set_e_y (e_y e + 4 * ts) e) s
  | T_seeker =>
      let angle := angle_to_player s e in
      let e := set_e_x (e_x e + Math_cos angle * 3 * ts) e in
      write_enemy i (set_e_y (e_y e + Math_sin angle * 3 * ts) e) s
  | T_stealth =>
      let e := set_e_y (e_y e + 1.5 * ts) e in
      if Qltb 150 (e_shotTimer e) then
        let e := set_e_shotTimer 0 e in
        push_bullets [enemy_shot "eb_" (e_x e) (e_y e) 6 6 0 5 20] (write_enemy i e s)
      else write_enemy i e s
  | T_illusion_clone =>
      let e := set_e_y (e_y e + 2 * ts) e in
      write_enemy i (if Qltb CANVAS_HEIGHT (e_y e) then set_e_dead true e else e) s
  | T_gorgon =>
      let e := set_e_y (e_y e + 0.5 * ts) e in
      let '(e, s) :=
        if Qltb 180 (e_shotTimer e) then
          let e := set_e_laserCharge (Some (S (or0 (e_laserCharge e)))) e in
          let '(e, s) :=
            if bool_decide (e_laserCharge e = Some 1%nat) then
              let baseAngle := angle_to_player s e in
              let '(r, s) := random s in
              (set_e_targetAngle (Some (baseAngle + (r - 0.5) * (Math_PI / 2))) e, s)
            else (e, s) in
          if (60 <? or0 (e_laserCharge e))%nat
          then (set_e_laserCharge (Some 0%nat)
                  (set_e_shotTimer 0 (set_e_burstCount (Some 7%nat) e)), s)
          else (e, s)
        else (e, s) in
      if (0 <? or0 (e_burstCount e))%nat && (frame s mod 5 =? 0)%nat then
        let e := set_e_burstCount (Some (pred (or0 (e_burstCount e)))) e in
        let fireAngle := js_or (e_targetAngle e) (angle_to_player s e) in
        push_bullets [aimed "gorgon_laser_" e 4 fireAngle 15 30] (write_enemy i e s)
      else write_enemy i e s
  | T_kamikaze => kamikaze_logic s i e
  | T_aegis_bot =>
      let e := set_e_y (e_y e + 1 * ts) e in
      let e := set_e_shieldTimer (Some (S (or0 (e_shieldTimer e)))) e in
      let e :=
        if e_shieldActive e && (120 <? or0 (e_shieldTimer e))%nat
        then set_e_shieldTimer (Some 0%nat) (set_e_shieldActive false e)
        else if negb (e_shieldActive e) && (240 <? or0 (e_shieldTimer e))%nat
        then set_e_shieldTimer (Some 0%nat) (set_e_shieldActive true e)
        else e in
      let e := set_e_dmgReduction (Some (if e_shieldActive e then 1.0 else 0)) e in
      if Qltb 90 (e_shotTimer e) then
        let e := set_e_shotTimer 0 e in
        let angle := angle_to_player s e in
        push_bullets
          (map (fun offset => aimed "ab_" e 6 (angle + offset) 4 10) [-0.35; 0.35])
          (write_enemy i e s)
      else write_enemy i e s
  | T_swarmer =>
      let e := set_e_x (e_x e + Math_sin (Qnat (e_patternTimer e) * 0.2) * 5 * ts) e in
      let e := set_e_y (e_y e + 4 * ts) e in
      if Qltb 60 (e_shotTimer e) then
        let e := set_e_shotTimer 0 e in
        push_bullets [enemy_shot "sb_l_" (e_x e) (e_y e) 4 4 (-3) 0 5;
                      enemy_shot "sb_r_" (e_x e) (e_y e) 4 4 3 0 5]
          (write_enemy i e s)
      else write_enemy i e s
  | T_lich =>
      if (e_patternTimer e mod 240 =? 0)%nat then
        let '(r1, s) := random s in
        let '(r2, s) := random s in
        let e := set_e_x (r1 * (CANVAS_WIDTH - 40) + 20) e in
        let e := set_e_y (r2 * 200 + 20) e in
        push_enemies [spawned "lich_spawn_" T_swarmer (e_x e) (e_y e + 20) 8 10 50]
          (write_enemy i e s)
      else s
  | T_sniper =>
      let e := set_e_x (e_x e + (Math_sin (Qnat (frame s) * 0.01) * 1) * ts) e in
      let e := if Qltb (e_y e) 50 then set_e_y (e_y e + 1) e else e in
      let e := set_e_invulnTimer (Some (S (or0 (e_invulnTimer e)))) e in
      let e := if (600 <? or0 (e_invulnTimer e))%nat
               then set_e_invulnTimer (Some 0%nat) e else e in
      let e := set_e_dmgReduction
                 (Some (if (300 <? or0 (e_invulnTimer e))%nat then 1.0 else 0)) e in
      if Qltb 200 (e_shotTimer e) then
        let e := set_e_laserCharge (Some (S (or0 (e_laserCharge e)))) e in
        if (90 <? or0 (e_laserCharge e))%nat then
          let b := aimed "sniper_shot_" e 4 (angle_to_player s e) 25 40 in
          let b := set_b_ext (set_hasTrace true (b_ext b)) (set_b_piercing true b) in
          let e := set_e_laserCharge (Some 0%nat) (set_e_shotTimer 0 e) in
          push_bullets [b] (write_enemy i e s)
        else write_enemy i e s
      else write_enemy i e s
  | T_reflector =>
      let e := set_e_y (e_y e + 0.5 * ts) e in
      let e := set_e_patternTimer (S (e_patternTimer e)) e in
      write_enemy i
        (if (300 <? e_patternTimer e)%nat
         then set_e_patternTimer 0 (set_e_isReflecting (negb (e_isReflecting e)) e)
         else e) s
  | T_breacher =>
      let e := set_e_y (e_y e + 0.8 * ts) e in
      if Qltb 120 (e_shotTimer e) then
        let e := set_e_shotTimer 0 e in
        let s := write_enemy i e s in
        let angle := angle_to_player s e in
        let dx := p_x (player s) - e_x e in
        let dy := p_y (player s) - e_y e in
        let distToPlayer := Math_sqrt (dx * dx + dy * dy) in
        foldl (fun s k =>
          let '(r1, s) := random s in
          let baseSpeed := 10 + r1 * 6 in
          let baseSpeed :=
            if dist_lt (p_x (player s)) (p_y (player s)) (e_x e) (e_y e) 250
            then 4 + (distToPlayer / 250) * 6 else baseSpeed in
          let '(r2, s) := random s in
          let size := 6 + r2 * 4 in
          let b := aimed "breach_" e size (angle + inject_Z k * 0.15) baseSpeed 15 in
          push_bullets [set_b_ext (set_deceleration (Some 0.98) (b_ext b)) b] s)
          s (zrange (-2) 2)
      else write_enemy i e s
  | _ => s
  end.

(** The callback of [state.enemies.forEach] (815-1619), by its stages. *)

Definition with_enemy {A} (i : nat) (s : State) (d : A) (k : Enemy -> A) : A :=
  match enemies s !! i with Some e => k e | None => d end.

(** 817-822. *)
Definition manage_shield_timer (e : Enemy) : Enemy :=
  match e_dmgReductionTimer e with
  | Some (S t) =>
      let e := set_e_dmgReductionTimer (Some t) e in
      if (t =? 0)%nat then set_e_dmgReduction (Some 0) e else e
  | _ => e
  end.

(** 825-890. *)
Definition ghost_drone (s : State) (i : nat) (e : Enemy) : State :=
  if negb (bossActive s) then
    let e := set_e_y (e_y e - 5) e in
    write_enemy i (if Qltb (e_y e) (-100) then set_e_dead true e else e) s
  else put_field (ghostLogic s i) s.

(** [spawnGhostDrone] (161-180). *)
Definition spawnGhostDrone (ty : EnemyType) (x y : Q) (s : State) : State :=
  let '(r, s) := random s in
  let g := spawned "ghost_" T_drone x y
             (if bool_decide (ty = T_gorgon) then 25 else 22) 999999 0 in
  let ext := {| currentAttack := None; attackTimer := None; dashState := None;
                dashTimer := None; mimicType := None; mimicTimer := None;
                ghostType := Some ty; ghostState := Some "idle";
                ghostTimer := Some (r * 180 + 240);
                targetPos := None; trinityTimer := None; summonBatchCount := None;
                trinityActive := false; duoActive := false; duoTimer := None |} in
  push_enemies
    [ {| e_id := e_id g; e_x := e_x g; e_y := e_y g; e_width := e_width g;
         e_height := e_height g; e_vx := 0; e_vy := 0; e_dead := false;
         e_hp := e_hp g; e_maxHp := e_maxHp g; e_type := T_drone;
         e_variant := None; e_scoreValue := 0; e_patternTimer := 0;
         e_shotTimer := 0; e_state := None; e_frozenTimer := None;
         e_phase := None; e_phaseTransitionTimer := None;
         e_fightStartFrame := None; e_dmgReduction := None;
         e_dmgReductionTimer := None; e_parentId := None; e_orbitAngle := None;
         e_orbitRadius := None; e_orbitSpeed := None; e_shieldHp := None;
         e_shieldMax := None; e_shieldActive := false; e_shieldTimer := None;
         e_laserCharge := None; e_isReflecting := false; e_burstCount := None;
         e_targetAngle := None; e_invulnTimer := None; e_gravityDir := None;
         e_gravityTimer := None; e_isGhost := true; e_ext := ext |} ] s.

(** 907-910: every projectile of the player explodes (without damage) and is
    marked dead. *)
Definition clear_player_bullets (s : State) : State :=
  for_indices (length (bullets s)) (fun s j =>
    match bullets s !! j with
    | Some b =>
        if bool_decide (b_owner b = by_player) then
          upd_bullet j (set_b_dead true) (createExplosion (b_x b) (b_y b) 20 0 s)
        else s
    | None => s
    end) s.

(** The replica of the Somniomancer (914-920). *)
Definition replica (e : Enemy) : Enemy :=
  let r := spawned "somnio_replica_" T_boss_clone (e_x e + 100) (e_y e)
             (e_width e) 999999 0 in
  {| e_id := e_id r; e_x := e_x r; e_y := e_y r; e_width := e_width e;
     e_height := e_height e; e_vx := 0; e_vy := 0; e_dead := false;
     e_hp := 999999; e_maxHp := 999999; e_type := T_boss_clone;
     e_variant := Some V_somniomancer; e_scoreValue := 0; e_patternTimer := 0;
     e_shotTimer := 0; e_state := None; e_frozenTimer := None;
     e_phase := Some 2%nat; e_phaseTransitionTimer := None;
     e_fightStartFrame := None; e_dmgReduction := None;
     e_dmgReductionTimer := None; e_parentId := None; e_orbitAngle := None;
     e_orbitRadius := None; e_orbitSpeed := None; e_shieldHp := None;
     e_shieldMax := None; e_shieldActive := false; e_shieldTimer := None;
     e_laserCharge := None; e_isReflecting := false; e_burstCount := None;
     e_targetAngle := None; e_invulnTimer := None; e_gravityDir := None;
     e_gravityTimer := None; e_isGhost := false; e_ext := noEnemyExt |}.

(** The test of line 895. *)
Definition phase2_due (e : Enemy) : bool :=
  bool_decide (e_phase e = Some 1%nat) && Qltb (e_hp e) (e_maxHp e * 0.4).

(** 896-927: the body of the trigger. *)
Definition phase_transition (s : State) (i : nat) (e : Enemy) : State :=
  let e := set_e_dmgReductionTimer (Some 300%nat)
             (set_e_dmgReduction (Some 0.5)
                (set_e_phaseTransitionTimer (Some 120%nat)
                   (set_e_phase (Some 2%nat) e))) in
  let s := write_enemy i e s in
  let s := createExplosion (e_x e) (e_y e) 200 0 s in
  let s := clear_player_bullets s in
  let s := if bool_decide (e_variant e = Some V_somniomancer)
           then push_enemies [replica e] s else s in
  if bool_decide (e_variant e = Some V_alptraum)
  then spawnGhostDrone T_tank (CANVAS_WIDTH + 50) (CANVAS_HEIGHT / 2) s
  else s.

(** 931-937: while the transition timer runs the callback returns here. *)
Definition transition_pause (s : State) (i : nat) : option State :=
  with_enemy i s None (fun e =>
    if bool_decide (e_type e = T_boss) && positive_timer (e_phaseTransitionTimer e)
    then Some (write_enemy i
                 (set_e_fightStartFrame (Some (S (or0 (e_fightStartFrame e))))
                    (set_e_phaseTransitionTimer
                       (Some (pred (or0 (e_phaseTransitionTimer e)))) e)) s)
    else None).

(** 941-946. *)
Definition clone_motion (s : State) (i : nat) : State :=
  with_enemy i s s (fun e =>
    if bool_decide (e_type e = T_boss_clone)
       && bool_decide (e_variant e = Some V_somniomancer) then
      let t := Qnat (frame s) in
      write_enemy i
        (set_e_y (100 + Math_sin (t * 0.03) * 50)
           (set_e_x (CANVAS_WIDTH / 2 + Math_cos (t * 0.02) * 150) e)) s
    else s).

(** [state.enemies.find(p => p.id === e.parentId)] *)
Definition find_parent (s : State) (e : Enemy) : option Enemy :=
  match e_parentId e with
  | Some pid => snd <$> list_find (fun p => e_id p = pid) (enemies s)
  | None => None
  end.

(** [if (e.parentId)]: a non-empty string. *)
Definition has_parentId (e : Enemy) : bool :=
  match e_parentId e with
  | Some pid => negb (bool_decide (pid = ""))
  | None => false
  end.

(** [parent && !parent.dead] *)
Definition live_parent (s : State) (e : Enemy) : option Enemy :=
  match find_parent s e with
  | Some p => if e_dead p then None else Some p
  | None => None
  end.

(** 949-962. *)
Definition mini_boss_orbit (s : State) (i : nat) : State :=
  with_enemy i s s (fun e =>
    if bool_decide (e_type e = T_alp_mini_boss) && has_parentId e then
      match live_parent s e with
      | Some parent =>
          let a := js_or (e_orbitAngle e) 0 + 0.02 in
          write_enemy i
            (set_e_y (e_y parent + Math_sin a * 120)
               (set_e_x (e_x parent + Math_cos a * 120)
                  (set_e_orbitAngle (Some a) e))) s
      | None => write_enemy i (set_e_dead true e) s
      end
    else s).

(** 964-967. *)
Definition frozen_pause (s : State) (i : nat) : option State :=
  with_enemy i s None (fun e =>
    match e_frozenTimer e with
    | Some (S t) => Some (write_enemy i (set_e_frozenTimer (Some t) e) s)
    | _ => None
    end).

(** 969-970. *)
Definition advance_timers (e : Enemy) : Enemy :=
  set_e_shotTimer (e_shotTimer e + 1) (set_e_patternTimer (S (e_patternTimer e)) e).

(** 1559-1567. *)
Definition alp_reflector_logic (s : State) (i : nat) (e : Enemy) : State :=
  let e := set_e_y (e_y e + 0.5 * timeScale s) e in
  let e := set_e_patternTimer (S (e_patternTimer e)) e in
  write_enemy i
    (if (300 <? e_patternTimer e)%nat
     then set_e_patternTimer 0 (set_e_isReflecting (negb (e_isReflecting e)) e)
     else e) s.

(** 1569-1582. *)
Definition seraph_drone_logic (s : State) (i : nat) (e : Enemy) : State :=
  if has_parentId e then
    match live_parent s e with
    | Some parent =>
        let a := js_or (e_orbitAngle e) 0 + js_or (e_orbitSpeed e) 0.05 in
        let e := set_e_orbitAngle (Some a) e in
        let e := set_e_x (e_x parent + Math_cos a * js_or (e_orbitRadius e) 100) e in
        let e := set_e_y (e_y parent + Math_sin a * js_or (e_orbitRadius e) 100) e in
        let isPhase2 := bool_decide (e_phase parent = Some 2%nat) in
        let fireThreshold := if isPhase2 then 60 else 120 in
        if Qltb fireThreshold (e_shotTimer e) then
          let e := set_e_shotTimer 0 e in
          push_bullets [aimed "db_" e 4 (angle_to_player s e) 2 8] (write_enemy i e s)
        else write_enemy i e s
    | None => write_enemy i (set_e_dead true e) s
    end
  else s.

(** 1583-1593. *)
Definition oracle_minion_logic (s : State) (i : nat) (e : Enemy) : State :=
  if bool_decide (e_variant e = Some V_alpha) then
    let e :=
      match live_parent s e with
      | Some parent =>
          let a := js_or (e_orbitAngle e) 0 + js_or (e_orbitSpeed e) 0.03 in
          let e := set_e_orbitAngle (Some a) e in
          let e := set_e_x (e_x parent + Math_cos a * js_or (e_orbitRadius e) 80) e in
          set_e_y (e_y parent + Math_sin a * js_or (e_orbitRadius e) 80) e
      | None =>
          let e := set_e_x (e_x e + Math_cos (js_or (e_orbitAngle e) 0) * 1) e in
          set_e_y (e_y e + Math_sin (js_or (e_orbitAngle e) 0) * 1) e
      end in
    if Qltb 120 (e_shotTimer e) then
      let e := set_e_shotTimer 0 e in
      let s := write_enemy i e s in
      let '(r, s) := random s in
      let '(angle, s) :=
        if Qltb 0.5 r then (angle_to_player s e, s)
        else let '(r2, s) := random s in (r2 * Math_PI * 2, s) in
      push_bullets [aimed "omb_" e 4 angle 3 8] s
    else write_enemy i e s
  else
    let e := set_e_x (e_x e + e_vx e) e in
    let e := set_e_y (e_y e + e_vy e) e in
    let e := if Qltb (e_x e) 10 || Qltb (CANVAS_WIDTH - 10) (e_x e)
             then set_e_vx (e_vx e * -1) e else e in
    if Qltb 60 (e_shotTimer e) then
      let e := set_e_shotTimer 0 e in
      push_bullets [enemy_shot "omb_bomb_" (e_x e) (e_y e) 6 6 0 4 10] (write_enemy i e s)
    else write_enemy i e s.

(** 1613-1618. *)
Definition check_bounds (e : Enemy) : Enemy :=
  if bool_decide (e_type e <> T_boss) && bool_decide (e_type e <> T_boss_clone)
     && bool_decide (e_type e <> T_drone) then
    if Qltb (CANVAS_HEIGHT + 50) (e_y e) || Qltb (e_x e) (-50)
       || Qltb (CANVAS_WIDTH + 50) (e_x e)
    then set_e_dead true e else e
  else if bool_decide (e_type e = T_boss) then
    if Qltb (CANVAS_HEIGHT + 300) (e_y e) then set_e_dead true e else e
  else e.

(** 972-1611: the behaviour by type; the flag says that the callback
    returned before the bounds check. *)
Definition behave (s : State) (i : nat) (e : Enemy) : State * bool :=
  match e_type e with
  | T_boss | T_boss_clone =>
      let '(f, ret) := bossLogic s i in (put_field f s, ret)
  | T_alp_mini_boss => (put_field (miniBossLogic s i) s, false)
  | T_alp_reflector => (alp_reflector_logic s i e, false)
  | T_seraph_drone => (seraph_drone_logic s i e, false)
  | T_oracle_minion => (oracle_minion_logic s i e, false)
  | _ => (mob_logic s i e, false)
  end.

Definition enemy_step (s : State) (i : nat) : State :=
  with_enemy i s s (fun e0 =>
    let e := manage_shield_timer e0 in
    let s := write_enemy i e s in
    if e_isGhost e && bool_decide (e_type e = T_drone) then ghost_drone s i e
    else
      let s := if bool_decide (e_type e = T_boss) && phase2_due e
               then phase_transition s i e else s in
      match transition_pause s i with
      | Some s' => s'
      | None =>
          let s := mini_boss_orbit (clone_motion s i) i in
          match frozen_pause s i with
          | Some s' => s'
          | None =>
              let s := upd_enemy i advance_timers s in
              let '(s, ret) := with_enemy i s (s, true) (behave s i) in
              if ret then s else upd_enemy i check_bounds s
          end
      end).

(** *** Movement of projectiles (1621-1828) *)

(** 1791-1794. *)
Definition translate (ts : Q) (b : Bullet) : Bullet :=
  if bool_decide (b_weaponId b <> Some ORBITING_ORBS) && negb (b_isSpawner b) then
    let k := if bool_decide (b_owner b = by_enemy) then ts else 1 in
    set_b_y (b_y b + b_vy b * k) (set_b_x (b_x b + b_vx b * k) b)
  else b.

(** The callback of [state.bullets.forEach]. *)
Definition bullet_step (s : State) (j : nat) : State :=
  let s := upd_bullet j (fun b => set_b_timer (S (b_timer b)) b) s in
  let s := put_field (bulletSpecial s j) s in
  let s := upd_bullet j (translate (timeScale s)) s in
  put_field (bulletEdges s j) s.

(** *** Projectiles of the player against enemies (1830-1927) *)

(** [n % q === 0] for a frame count [n] and a number [q]. *)
Definition js_mod_is0 (n : nat) (q : Q) : bool :=
  if Qeq_bool q 0 then false
  else let r := Qnat n / q in Qeq_bool (inject_Z (Qfloor r)) r.

Definition in_hitList (b : Bullet) (id : string) : bool :=
  match b_hitList b with
  | Some l => bool_decide (id ∈ l)
  | None => false
  end.

Definition lootMult (d : Difficulty) : Z :=
  match d with
  | NORMAL => 2 | HARD => 4 | EXTREME => 8 | INFINITY => 10 | _ => 1
  end%Z.

Definition isBossRush (d : Difficulty) : bool :=
  bool_decide (d = BOSS_RUSH) || bool_decide (d = BOSS_RUSH_EXTREME).

(** 1902-1905: the clean-up of the followers of a defeated boss. *)
Definition is_dependent (en : Enemy) : bool :=
  bool_decide (e_type en = T_boss_clone) || e_isGhost en
  || bool_decide (e_type en = T_alp_mini_boss)
  || bool_decide (e_type en = T_alp_reflector)
  || bool_decide (e_type en = T_seraph_drone).

Definition cascade (s : State) : State :=
  set_enemies
    (map (fun en => if is_dependent en then set_e_dead true en else en) (enemies s)) s.

(** 1899-1911: what the defeat of a boss adds to the payout. *)
Definition boss_defeated (s : State) : State :=
  let s := set_bossRef None (set_bossActive false (set_bossKills (S (bossKills s)) s)) in
  let s := cascade s in
  match practiceMode with
  | Some _ => onGameOver (score s) true 0 None (set_isGameOver true s)
  | None =>
      let s := set_score (score s + 10000)%Z
                 (set_stageTimer 0 (set_stage (S (stage s)) (set_waveDelay 120 s))) in
      let maxStages := if isBossRush (difficulty s) then 16%nat else 6%nat in
      if (maxStages <=? stage s)%nat && bool_decide (difficulty s <> INFINITY)
      then onGameOver (score s) true (dataFragments s) (Some (sessionStats s)) s
      else s
  end.

(** 1893-1912: the death payout of [state.enemies[i]], killed by [b]. *)
Definition payout (b : Bullet) (i : nat) (e : Enemy) (s : State) : State :=
  let s := upd_enemy i (set_e_dead true) s in
  let s := set_score (score s + e_scoreValue e)%Z s in
  let s := set_kills (S (kills s)) s in
  let '(r, s) := random s in
  let baseFragments := (Qfloor (r * 3) + 2)%Z in
  let bossRushMult := if isBossRush (difficulty s) then 3%Z else 1%Z in
  let boosterMult := if activeBoosters LOOT_UP then 2%Z else 1%Z in
  let s := set_dataFragments
             (dataFragments s
              + baseFragments * lootMult (difficulty s) * bossRushMult * boosterMult)%Z s in
  let s := if bool_decide (b_weaponId b = Some PULSE_NOVA)
              && (3 <=? p_weaponLevels (player s) PULSE_NOVA)%nat
           then createExplosion (e_x e) (e_y e) 100 50 s else s in
  let s := if bool_decide (e_type e = T_kamikaze)
           then createExplosion (e_x e) (e_y e) 80 0 s else s in
  if bool_decide (e_type e = T_boss) then boss_defeated s else s.

(** 1894: [if (e.hp <= 0 && !e.dead)]. *)
Definition settle_death (j i : nat) (s : State) : State :=
  match bullets s !! j, enemies s !! i with
  | Some b, Some e =>
      if Qleb (e_hp e) 0 && negb (e_dead e) then payout b i e s else s
  | _, _ => s
  end.

(** The target of a chain jump: [state.enemies.find(ne => ne.id !== e.id &&
    !ne.dead && dist(ne, e) < 200 * rangeMult)]. *)
Definition nextTarget (s : State) (e : Enemy) (rangeMult : Q) : option Enemy :=
  snd <$> list_find (fun ne =>
    e_id ne <> e_id e /\ e_dead ne = false
    /\ dist_lt (e_x ne) (e_y ne) (e_x e) (e_y e) (200 * rangeMult) = true) (enemies s).

Definition truthy (a : option Q) : bool :=
  match a with Some v => negb (Qeq_bool v 0) | None => false end.

(** [state.bullets[j]] takes the value [b]. *)
Definition write_bullet (j : nat) (b : Bullet) (s : State) : State :=
  set_bullets (<[j := b]> (bullets s)) s.

(** 1890: what the hit does to the projectile, by its kind. *)
Definition on_hit (j : nat) (b : Bullet) (e : Enemy) (s : State) : State :=
  let w := b_weaponId b in
  if truthy (b_splashRadius b)
     && bool_decide (w <> Some ORBITING_ORBS) && bool_decide (w <> Some PULSE_NOVA)
     && bool_decide (w <> Some WAVE_MOTION) then
    let s := createExplosion (b_x b) (b_y b) (js_or (b_splashRadius b) 0) (b_damage b) s in
    let s :=
      if bool_decide (b_chainCount b = Some (-1)%Z) then
        foldl (fun s _ =>
          let '(r1, s) := random s in
          let '(r2, s) := random s in
          createExplosion (b_x b + (r1 - 0.5) * 40) (b_y b + (r2 - 0.5) * 40) 30
            (b_damage b / 2) s) s (seq 0 3)
      else s in
    upd_bullet j (set_b_dead true) s
  else if match b_chainCount b with Some c => (0 <? c)%Z | None => false end
          && bool_decide (w <> Some PULSE_NOVA) then
    let b := set_b_chainCount (Some (default 0%Z (b_chainCount b) - 1)%Z) b in
    let b := set_b_hitList (Some (default [] (b_hitList b) ++ [e_id e])) b in
    let rangeMult := js_or (b_orbitRadius b) 1 in
    let b :=
      match nextTarget s e rangeMult with
      | Some nt =>
          let angle := Math_atan2 (e_y nt - b_y b) (e_x nt - b_x b) in
          set_b_y (e_y e) (set_b_x (e_x e)
            (set_b_vy (Math_sin angle * 20) (set_b_vx (Math_cos angle * 20) b)))
      | None => set_b_dead true b
      end in
    write_bullet j b s
  else if b_piercing b then
    let b := set_b_hitList (Some (default [] (b_hitList b) ++ [e_id e])) b in
    let b :=
      if bool_decide (w = Some GAUSS_CANNON) then
        match b_chainCount b with
        | Some c =>
            let b := set_b_chainCount (Some (c - 1)%Z) b in
            if (c - 1 <=? 0)%Z then set_b_dead true b else b
        | None => b
        end
      else b in
    write_bullet j b s
  else if bool_decide (w <> Some ORBITING_ORBS) && bool_decide (w <> Some PULSE_NOVA)
  then upd_bullet j (set_b_dead true) s
  else s.

(** 1877-1886: the damage of a direct hit. *)
Definition finalDamage (s : State) (b : Bullet) (e : Enemy) : Q :=
  let frozenBonus :=
    if positive_timer (e_frozenTimer e)
       && (3 <=? p_spellLevels (player s) STASIS_FIELD)%nat
    then 1.5 else 1.0 in
  let d := b_damage b * frozenBonus in
  match e_dmgReduction e with
  | Some r => if Qltb 0 r then d * (1 - r) else d
  | None => d
  end.

(** 1867-1913: the projectile touches the enemy. *)
Definition direct_hit (j i : nat) (b : Bullet) (e : Enemy) (s : State) : State :=
  if bool_decide (e_type e = T_boss_clone) then
    upd_bullet j (set_b_dead true) (createExplosion (b_x b) (b_y b) 10 0 s)
  else
    let s := upd_enemy i (fun e => set_e_hp (e_hp e - finalDamage s b e) e) s in
    let s :=
      if bool_decide (b_weaponId b = Some PULSE_NOVA)
         && js_mod_is0 (b_timer b) (js_or (b_splashRadius b) 20)
      then createExplosion (b_x b) (b_y b) 60 (b_damage b / 2) s else s in
    let s := on_hit j b e s in
    settle_death j i s.

(** The tests of 1834-1838 that end the callback before any effect. *)
Definition skips (b : Bullet) (e : Enemy) : bool :=
  e_dead e || b_dead b || in_hitList b (e_id e) || e_isGhost e.

Definition reflects (b : Bullet) (e : Enemy) : bool :=
  (bool_decide (e_type e = T_reflector) || bool_decide (e_type e = T_alp_reflector))
  && e_isReflecting e
  && dist_lt (b_x b) (b_y b) (e_x e) (e_y e) (e_width e + b_width b + 10).

Definition shield_blocks (b : Bullet) (e : Enemy) : bool :=
  bool_decide (e_type e = T_boss)
  && (bool_decide (e_variant e = Some V_theta)
      || bool_decide (e_variant e = Some V_alptraum))
  && e_shieldActive e && Qltb 0 (js_or (e_shieldHp e) 0)
  && dist_lt (b_x b) (b_y b) (e_x e) (e_y e) 80.

Definition touches (b : Bullet) (e : Enemy) : bool :=
  dist_lt (b_x b) (b_y b) (e_x e) (e_y e) (e_width e + b_width b).

(** The callback of the inner [state.enemies.forEach] (1833-1913) for the
    projectile [state.bullets[j]] and the enemy [state.enemies[i]]. *)
Definition pair_step (j : nat) (s : State) (i : nat) : State :=
  match bullets s !! j, enemies s !! i with
  | Some b, Some e =>
      if skips b e then s
      else if reflects b e then
        push_bullets [enemy_shot "reflect_" (e_x e) (e_y e + 10) 6 6 0 5 10]
          (upd_bullet j (set_b_dead true) s)
      else if shield_blocks b e then
        upd_bullet j (set_b_dead true)
          (upd_enemy i (fun e =>
             if truthy (e_shieldHp e)
             then set_e_shieldHp (Some (js_or (e_shieldHp e) 0 - b_damage b)) e
             else e) s)
      else if touches b e then direct_hit j i b e s
      else s
  | _, _ => s
  end.

(** 1917-1923: the callback of the loop over the live mines. *)
Definition mine_step (j : nat) (s : State) (m : nat) : State :=
  match bullets s !! j, bullets s !! m with
  | Some b, Some mine =>
      if dist_lt (b_x b) (b_y b) (b_x mine) (b_y mine) (b_width mine + b_width b) then
        let s := upd_bullet j (set_b_dead true) s in
        let s := upd_bullet m (fun mine =>
                   if truthy (b_hp mine)
                   then set_b_hp (Some (js_or (b_hp mine) 0 - b_damage b)) mine
                   else mine) s in
        createExplosion (b_x mine) (b_y mine) 20 0 s
      else s
  | _, _ => s
  end.

(** The indices of the elements of an array that satisfy a test: the
    snapshot that [arr.filter(test)] takes, as references into the array. *)
Definition indices_where {A} (test : A -> bool) (l : list A) : list nat :=
  List.filter (fun k => from_option test false (l !! k)) (seq 0 (length l)).

(** 1915-1925. *)
Definition mine_check (j : nat) (s : State) : State :=
  match bullets s !! j with
  | Some b =>
      if bool_decide (b_owner b = by_player) && negb (b_dead b) then
        foldl (mine_step j) s
          (indices_where (fun m => b_isMine m && negb (b_dead m)) (bullets s))
      else s
  | None => s
  end.

(** The callback of the outer loop (1830-1927) for one projectile of the
    player. *)
Definition bullet_vs_enemies (s : State) (j : nat) : State :=
  match bullets s !! j with
  | Some b =>
      if b_isVortex b then s
      else mine_check j (for_indices (length (enemies s)) (pair_step j) s)
  | None => s
  end.

Definition collide (s : State) : State :=
  foldl bullet_vs_enemies s
    (indices_where (fun b => bool_decide (b_owner b = by_player)) (bullets s)).

(** *** Hits on the player (1930-1979) *)

(** The branch of [checkHit] taken when the entity touches the player
    (1936-1946). *)
Definition take_hit (s : State) : State :=
  if Qltb 0 (p_shield (player s)) then
    let s := upd_player (fun p =>
               set_p_shield (p_shield p - 20 * incomingDamageMultiplier) p) s in
    let s := if (3 <=? p_spellLevels (player s) AEGIS_SHIELD)%nat
             then createExplosion (p_x (player s)) (p_y (player s)) 150 100 s
             else s in
    upd_player (set_p_invulnerableTime 30) s
  else
    let s := upd_player (fun p =>
               set_p_framesSinceLastHit 0
                 (set_p_hp (p_hp p - 20 * incomingDamageMultiplier) p)) s in
    if Qleb (p_hp (player s)) 0 then
      if (0 <? p_revives (player s))%nat then revive s else lose s
    else upd_player (set_p_invulnerableTime 60) s.

(** [checkHit(entityX, entityY, size)] (1933-1950) with its result. *)
Definition checkHit (entityX entityY size : Q) (s : State) : State * bool :=
  let px := p_x (player s) in
  let py := p_y (player s) in
  if dist_lt entityX entityY px py (size + 4) then (take_hit s, true)
  else if dist_lt entityX entityY px py 20 then
    (set_score (score s + 10)%Z
       (upd_player (fun p => set_p_grazing (S (p_grazing p)) p) s), false)
  else (s, false).

(** 1953-1960: an orb of level 3 that is not cooling down and touches the
    projectile absorbs it. *)
Definition absorbing_orb (s : State) (b : Bullet) : option nat :=
  if bool_decide (ORBITING_ORBS ∈ p_equippedWeapons (player s))
     && (3 <=? p_weaponLevels (player s) ORBITING_ORBS)%nat then
    fst <$> list_find (fun orb =>
      b_owner orb = by_player /\ b_weaponId orb = Some ORBITING_ORBS
      /\ positive_timer (b_orbCooldown orb) = false
      /\ dist_lt (b_x orb) (b_y orb) (b_x b) (b_y b) (b_width orb + b_width b) = true)
      (bullets s)
  else None.

(** The callback of the loop over the projectiles of the enemies (1952-1971). *)
Definition enemy_bullet_vs_player (s : State) (j : nat) : State :=
  match bullets s !! j with
  | Some b =>
      match absorbing_orb s b with
      | Some k =>
          upd_bullet k (set_b_orbCooldown (Some 240%nat))
            (upd_bullet j (set_b_dead true) s)
      | None =>
          let px := p_x (player s) in
          let py := p_y (player s) in
          if b_isLaser b then
            if Qltb CANVAS_HEIGHT (b_y b) then s
            else if Qltb (b_y b) py && Qltb py (b_y b + b_height b)
                    && Qltb (b_x b) px && Qltb px (b_x b + b_width b)
            then fst (checkHit px py 0 s)
            else s
          else
            let '(s, hit) := checkHit (b_x b) (b_y b) (b_width b) s in
            if hit then upd_bullet j (set_b_dead true) s else s
      end
  | None => s
  end.

(** The callback of the loop over the enemies (1973-1978). *)
Definition enemy_vs_player (s : State) (i : nat) : State :=
  match enemies s !! i with
  | Some e =>
      if e_isGhost e then s
      else fst (checkHit (e_x e) (e_y e) (e_width e + 5) s)
  | None => s
  end.

(** 1930-1979. *)
Definition player_hits (s : State) : State :=
  match p_invulnerableTime (player s) with
  | S t => upd_player (set_p_invulnerableTime t) s
  | O =>
      let s := foldl enemy_bullet_vs_player s
                 (indices_where (fun b => bool_decide (b_owner b = by_enemy))
                    (bullets s)) in
      for_indices (length (enemies s)) enemy_vs_player s
  end.

(** 1981-1982. *)
Definition prune (s : State) : State :=
  set_enemies (filter (fun e => e_dead e = false) (enemies s))
    (set_bullets (filter (fun b => b_dead b = false) (bullets s)) s).

(** *** The step *)

(** 588-612: buffs, time scale, wave delay. *)
Definition tick_timers (s : State) : State :=
  let s := upd_player (fun p => set_p_activeBuffs (tick_buffs (p_activeBuffs p)) p) s in
  let s := set_timeScale (timeScale_of (p_activeBuffs (player s))) s in
  set_waveDelay (pred (waveDelay s)) s.

(** 618-624: focus flag, spell keys, cooldowns. *)
Definition cast_spells (isShift : bool) (s : State) : State :=
  let s := upd_player (set_p_focused isShift) s in
  let s := if pressed "KeyX" s then activateSpell 0 s else s in
  let s := if pressed "KeyC" s then activateSpell 1 s else s in
  let s := if pressed "KeyV" s then activateSpell 2 s else s in
  upd_player (fun p =>
    set_p_spellCooldowns (map (fun cd => Math_max 0 (cd - 1)) (p_spellCooldowns p)) p) s.

(** [speed] of line 616. *)
Definition player_speed (isShift overclocked : bool) : Q :=
  (if isShift then 2.5 else 5) * (if overclocked then 2 else 1).

Definition spawn (s : State) : State :=
  let '(f, active, ref) := spawnEnemy s in
  set_bossRef ref (set_bossActive active (put_field f s)).

(** [update] (567-1989). *)
Definition update (s : State) : State :=
  if isPaused then s
  else if isGameOver s then s
  else
    let s := set_stageTimer (S (stageTimer s)) (set_frame (S (frame s)) s) in
    let '(s, done) := practice_clock s in
    if done then s
    else
      let s := tick_timers s in
      let isShift := pressed "ShiftLeft" s || pressed "ShiftRight" s in
      let overclocked := isOverclocked s in
      let speed := player_speed isShift overclocked in
      let s := cast_spells isShift s in
      let s := regenerate s in
      let s := gravity s in
      let s := move_player speed s in
      let s := fire overclocked s in
      let s := spawn s in
      let s := for_indices (length (enemies s)) enemy_step s in
      let s := for_indices (length (bullets s)) bullet_step s in
      let s := collide s in
      let s := player_hits s in
      prune s.


End Engine.

(** ** Worlds for evaluation *)

(** The arrays as they are: what a behaviour that does nothing hands back. *)
Definition field_of (s : State) : Field := (enemies s, bullets s, rng s).

(** A bare environment: a 600 by 800 canvas, ten seconds of cooldown for every
    spell, no booster, no pity stack, no practice mode, not paused, and
    parameterised behaviours that do nothing.  The trigonometric functions are
    the ones of the direction of the positive x axis ([atan2 0 dx = 0] for
    [dx > 0], [cos 0 = 1], [sin 0 = 0]); the worlds evaluated below aim along
    that axis only, or not at all.  [Math.random()] returns 0. *)
Definition quiet_env : Env :=
  {| env_CANVAS_WIDTH := 600; env_CANVAS_HEIGHT := 800;
     env_SPELL_CARDS_cooldown := fun _ => 10;
     env_Math_cos := fun _ => 1; env_Math_sin := fun _ => 0;
     env_Math_atan2 := fun _ _ => 0; env_Math_sqrt := fun x => x;
     env_Math_PI := 355 / 113; env_Math_random := fun _ => 0;
     env_activeBoosters := fun _ => false; env_pityStacks := 0;
     env_practiceMode := None; env_isPaused := false;
     env_spawnEnemy := fun s => (field_of s, bossActive s, bossRef s);
     env_ghostLogic := fun s _ => field_of s;
     env_bossLogic := fun s _ => (field_of s, false);
     env_miniBossLogic := fun s _ => field_of s;
     env_bulletSpecial := fun s _ => field_of s;
     env_bulletEdges := fun s _ => field_of s |}.

(** The player of line 66-90 on that canvas, with the given hit points,
    shield, revives and weapons. *)
Definition a_player (hp shield : Q) (revives : nat) (ws : list WeaponId) : Player :=
  {| p_x := 300; p_y := 700; p_width := 8; p_height := 8; p_vx := 0; p_vy := 0;
     p_hp := hp; p_maxHp := 100; p_invulnerableTime := 0;
     p_framesSinceLastHit := 0; p_grazing := 0; p_focused := false;
     p_equippedWeapons := ws; p_equippedSpells := []; p_spellCooldowns := [];
     p_weaponLevels := fun _ => 1%nat; p_spellLevels := fun _ => 1%nat;
     p_shield := shield; p_revives := revives; p_activeBuffs := ∅ |}.

(** A world at the given frame with that player, these projectiles and
    enemies, on normal difficulty, stage 1, nothing scored yet. *)
Definition a_world (fr : nat) (p : Player) (bs : list Bullet) (es : list Enemy) : State :=
  {| player := p; bullets := bs; enemies := es; keys := ∅; frame := fr;
     score := 0; stage := 1; stageTimer := 0; bossActive := false;
     bossRef := None; dataFragments := 0; difficulty := NORMAL;
     timeScale := 1; waveDelay := 0; isGameOver := false; kills := 0;
     bossKills := 0; shotsFired := 0; practiceTimer := 0; events := [];
     rng := 0 |}.

Definition with_keys (ks : list string) (s : State) : State :=
  {| player := player s; bullets := bullets s; enemies := enemies s;
     keys := list_to_map ((fun k => (k, true)) <$> ks); frame := frame s;
     score := score s; stage := stage s; stageTimer := stageTimer s;
     bossActive := bossActive s; bossRef := bossRef s;
     dataFragments := dataFragments s; difficulty := difficulty s;
     timeScale := timeScale s; waveDelay := waveDelay s;
     isGameOver := isGameOver s; kills := kills s; bossKills := bossKills s;
     shotsFired := shotsFired s; practiceTimer := practiceTimer s;
     events := events s; rng := rng s |}.

(** A resting shot of an enemy, 5 by 5, damage 10, on the player. *)
Definition shot_on_player : Bullet :=
  enemy_shot "eb_" 300 700 5 5 0 0 10.


(** ** Vocabulary of the properties *)

(** The call of [onGameOver] that reports a loss from the world [s]. *)
Definition loss_event (s : State) : GameOverCall :=
  {| ev_score := score s; ev_win := false; ev_fragments := dataFragments s;
     ev_stats := Some (sessionStats s) |}.

(** How a hit of strength [dmg] on the player is resolved between the world
    [s] before and the world [s'] after: the shield pool takes it when it is
    not empty; else the hit points do, and at zero a revive is spent (full
    heal, 120 frames of invulnerability) or, with none banked, the run ends
    with a loss event. *)
Definition hit_outcome (dmg : Q) (s s' : State) : Prop :=
  let p := player s in
  let p' := player s' in
  (0 < p_shield p ->
     p_shield p' = p_shield p - dmg /\ p_hp p' = p_hp p
     /\ p_revives p' = p_revives p
     /\ isGameOver s' = isGameOver s /\ events s' = events s)
  /\ (p_shield p <= 0 -> 0 < p_hp p - dmg ->
     p_hp p' = p_hp p - dmg /\ p_shield p' = p_shield p
     /\ p_revives p' = p_revives p
     /\ isGameOver s' = isGameOver s /\ events s' = events s)
  /\ (p_shield p <= 0 -> p_hp p - dmg <= 0 -> (0 < p_revives p)%nat ->
     p_hp p' = p_maxHp p /\ p_revives p' = pred (p_revives p)
     /\ p_invulnerableTime p' = 120%nat
     /\ isGameOver s' = isGameOver s /\ events s' = events s)
  /\ (p_shield p <= 0 -> p_hp p - dmg <= 0 -> p_revives p = 0%nat ->
     p_hp p' = p_hp p - dmg /\ isGameOver s' = true
     /\ events s' = events s ++ [loss_event s]).

(** The player at 20 hit points without shield or revive, one shot on him. *)
Definition world_last_hit : State :=
  a_world 0 (a_player 20 0 0 []) [shot_on_player] [].

(** The player at 10 hit points without shield or revive, one shot on him. *)
Definition world_wounded : State :=
  a_world 0 (a_player 10 0 0 []) [shot_on_player] [].

(** The bounds on the hit points that every step keeps: the maximum is
    positive, the hit points do not exceed it, and they are positive unless
    the run is over. *)
Definition hp_ok (s : State) : Prop :=
  0 < p_maxHp (player s)
  /\ p_hp (player s) <= p_maxHp (player s)
  /\ (0 < p_hp (player s) \/ isGameOver s = true).

(** [s'] has the hit points and the maximum of [s], and is over if [s] is. *)
Definition hp_kept (s s' : State) : Prop :=
  p_hp (player s') = p_hp (player s)
  /\ p_maxHp (player s') = p_maxHp (player s)
  /\ (isGameOver s = true -> isGameOver s' = true).

Definition keeps (f : State -> State) : Prop := forall s, hp_kept s (f s).

(** Two resting shots on a player who has 20 hit points and no revive. *)
Definition world_two_shots : State :=
  a_world 0 (a_player 20 0 0 []) [shot_on_player; shot_on_player] [].

(** A boss of the given variant and phase at the top of the canvas, fighting,
    with its shield spent. *)
Definition a_boss (id : string) (v : Variant) (ph : nat) (hp maxHp : Q) : Enemy :=
  {| e_id := id; e_x := 300; e_y := 100; e_width := 40; e_height := 40;
     e_vx := 0; e_vy := 0; e_dead := false; e_hp := hp; e_maxHp := maxHp;
     e_type := T_boss; e_variant := Some v; e_scoreValue := 5000;
     e_patternTimer := 0; e_shotTimer := 0; e_state := Some S_fighting;
     e_frozenTimer := None; e_phase := Some ph;
     e_phaseTransitionTimer := None; e_fightStartFrame := Some 0%nat;
     e_dmgReduction := Some 0; e_dmgReductionTimer := Some 0%nat;
     e_parentId := None; e_orbitAngle := None; e_orbitRadius := None;
     e_orbitSpeed := None; e_shieldHp := None; e_shieldMax := None;
     e_shieldActive := false; e_shieldTimer := None; e_laserCharge := None;
     e_isReflecting := false; e_burstCount := None; e_targetAngle := None;
     e_invulnTimer := None; e_gravityDir := None; e_gravityTimer := None;
     e_isGhost := false; e_ext := noEnemyExt |}.

(** A world in which that boss is the active one. *)
Definition with_boss (b : Enemy) (s : State) : State :=
  set_bossRef (Some (e_id b)) (set_bossActive true (set_enemies (b :: enemies s) s)).

(** A plasma bolt of the player (damage 10) at the given place, at rest. *)
Definition plasma_at (x y : Q) : Bullet :=
  player_shot PLASMA_CUTTER x y 4 12 0 0 10.

(** Stage 5 of a regular run: the boss, in its second phase, has 5 hit points
    left and a plasma bolt sits on it. *)
Definition world_final_boss : State :=
  with_boss (a_boss "boss_1" V_alpha 2 5 5000)
    (set_stage 5 (a_world 0 (a_player 100 0 0 []) [plasma_at 300 100] [])).

(** A rocket (splash radius 60, damage 10) on a tank; a swarmer with 5 hit
    points stands 40 units to the side, out of reach of the rocket itself. *)
Definition world_splash : State :=
  a_world 0 (a_player 100 0 0 [])
    [set_b_chainCount (Some 0%Z) (set_b_splashRadius (Some 60)
       (player_shot ROCKET_BARRAGE 300 300 8 12 0 0 10))]
    [spawned "A" T_tank 300 300 22 150 600; spawned "B" T_swarmer 340 300 8 5 50].

(** The fire key is held at frame 5 (frame 6 in the step) with the Gauss
    cannon as only weapon; the cannon emits on frames divisible by 40. *)
Definition world_gauss_idle : State :=
  with_keys ["KeyZ"] (a_world 5 (a_player 100 0 0 [GAUSS_CANNON]) [] []).

(** The test of lines 675 and 681: a fire key is down and the frame is one
    of the firing cadence. *)
Definition firing (overclocked : bool) (s : State) : bool :=
  (pressed "KeyZ" s || pressed "Space" s)
  && (frame s mod baseFireRate overclocked s =? 0)%nat.






(** What tells a dependent of the boss from another enemy. *)
Definition kind (e : Enemy) : EnemyType * bool := (e_type e, e_isGhost e).


(** A change of an enemy that touches neither its kind nor its dead flag. *)
Definition harmless (f : Enemy -> Enemy) : Prop :=
  forall en, kind (f en) = kind en /\ e_dead (f en) = e_dead en.



(** * Boss phase transition *)

(** What the phase change does to one projectile (904-907): the player's are
    marked dead, the others are left alone. *)
Definition clear_one (b : Bullet) : Bullet :=
  if bool_decide (b_owner b = by_player) then set_b_dead true b else b.

(** An enemy with its hit points blanked: the explosions of the phase change
    subtract a damage of zero, which leaves the hit points equal as rationals
    only. *)
Definition no_hp (e : Enemy) : Enemy := set_e_hp 0 e.

(** The four writes of the trigger (896-899). *)
Definition triggered (e : Enemy) : Enemy :=
  set_e_dmgReductionTimer (Some 300%nat)
    (set_e_dmgReduction (Some 0.5)
       (set_e_phaseTransitionTimer (Some 120%nat) (set_e_phase (Some 2%nat) e))).

(** One tick of a boss inside its transition pause (817-822, 931-936). *)
Definition paused (e : Enemy) : Enemy :=
  let e := manage_shield_timer e in
  set_e_fightStartFrame (Some (S (or0 (e_fightStartFrame e))))
    (set_e_phaseTransitionTimer (Some (pred (or0 (e_phaseTransitionTimer e)))) e).

(** A boss of 10000 hit points brought to 3999, a plasma bolt of the player
    and a shot of an enemy in flight. *)
Definition world_phase : State :=
  with_boss (a_boss "boss_1" V_alpha 1 3999 10000)
    (a_world 0 (a_player 100 0 0 []) [plasma_at 300 400; shot_on_player] []).

(** What the phase logic of a boss reads and writes of an enemy, its hit
    points apart: the id, the type, the ghost flag, the maximal hit points,
    the phase, the transition timer and the damage reduction with its
    timer. *)
Definition phase_view (e : Enemy)
    : string * EnemyType * bool * Q * option nat * option nat * option Q * option nat :=
  (e_id e, e_type e, e_isGhost e, e_maxHp e, e_phase e,
   e_phaseTransitionTimer e, e_dmgReduction e, e_dmgReductionTimer e).

(** The enemy of index [i] of [l] is still at index [i] in [l'], with the
    same phase view. *)
Definition view_kept_at (i : nat) (l l' : list Enemy) : Prop :=
  forall e, l !! i = Some e ->
  exists e', l' !! i = Some e' /\ phase_view e' = phase_view e.

(** The same at every index. *)
Definition views_kept (l l' : list Enemy) : Prop :=
  forall i, view_kept_at i l l'.

(** What the parameterised regions of the step have in common (349-465,
    833-888, 973-1480, 1483-1557, 1624-1789, 1796-1827): they remove no enemy
    from the array and write none of the fields of the phase view. *)
Definition env_keeps_views (env : Env) : Prop :=
  (forall s, views_kept (enemies s) (env_spawnEnemy env s).1.1.1.1)
  /\ (forall s i, views_kept (enemies s) (env_ghostLogic env s i).1.1)
  /\ (forall s i, views_kept (enemies s) (env_bossLogic env s i).1.1.1)
  /\ (forall s i, views_kept (enemies s) (env_miniBossLogic env s i).1.1)
  /\ (forall s j, views_kept (enemies s) (env_bulletSpecial env s j).1.1)
  /\ (forall s j, views_kept (enemies s) (env_bulletEdges env s j).1.1).

(** The step is not held at its entry (568-586): the game is neither paused
    nor over and the practice timer does not end it. *)
Definition runs (env : Env) (s : State) : bool :=
  negb (env_isPaused env) && negb (isGameOver s)
  && negb (practice_clock env
             (set_stageTimer (S (stageTimer s)) (set_frame (S (frame s)) s))).2.

(** The world in which the loop over the enemies starts (815), in a step that
    runs. *)
Definition enemy_pass_start (env : Env) (s : State) : State :=
  let s := set_stageTimer (S (stageTimer s)) (set_frame (S (frame s)) s) in
  let s := (practice_clock env s).1 in
  let s := tick_timers s in
  let isShift := pressed "ShiftLeft" s || pressed "ShiftRight" s in
  let overclocked := isOverclocked s in
  let speed := player_speed isShift overclocked in
  let s := cast_spells env isShift s in
  let s := regenerate env s in
  let s := gravity env s in
  let s := move_player env speed s in
  let s := fire env overclocked s in
  spawn env s.

(** The world in which the callback of the enemy of index [i] starts. *)
Definition callback_start (env : Env) (s : State) (i : nat) : State :=
  for_indices i (enemy_step env) (enemy_pass_start env s).

(** The world at the end of the step before the dead are removed (1981). *)
Definition before_prune (env : Env) (s : State) : State :=
  let s := enemy_pass_start env s in
  let s := for_indices (length (enemies s)) (enemy_step env) s in
  let s := for_indices (length (bullets s)) (bullet_step env) s in
  let s := collide env s in
  player_hits env s.

(** The index that the enemy of index [i] has once the dead are removed. *)
Definition survivors (l : list Enemy) (i : nat) : nat :=
  length (filter (fun e => e_dead e = false) (take i l)).

(** The enemy of index [i] followed through one step: the world after the
    step and the index of the enemy in it; nothing when the step does not run
    or the enemy does not outlive it. *)
Definition follow (env : Env) (s : State) (i : nat) : option (State * nat) :=
  if runs env s then
    let u := before_prune env s in
    match enemies u !! i with
    | Some e' =>
        if e_dead e' then None else Some (update env s, survivors (enemies u) i)
    | None => None
    end
  else None.

Fixpoint follow_for (env : Env) (n : nat) (s : State) (i : nat)
    : option (State * nat) :=
  match n with
  | O => Some (s, i)
  | S n =>
      match follow env s i with
      | Some (s', i') => follow_for env n s' i'
      | None => None
      end
  end.

(** From the world [s] to the world [s'] the enemy of index [i] keeps its
    index and its phase view. *)
Definition kv (i : nat) (s s' : State) : Prop :=
  view_kept_at i (enemies s) (enemies s').


(** A boss of 10000 hit points at 4005, in its first phase, and a plasma bolt
    of the player (damage 10) on it. *)
Definition world_threshold : State :=
  with_boss (a_boss "boss_1" V_alpha 1 4005 10000)
    (a_world 0 (a_player 100 0 0 []) [plasma_at 300 100] []).

(** The same boss under a bolt of damage 5000. *)
Definition world_overkill : State :=
  with_boss (a_boss "boss_1" V_alpha 1 4005 10000)
    (a_world 0 (a_player 100 0 0 [])
       [player_shot PLASMA_CUTTER 300 100 4 12 0 0 5000] []).

(** The boss one step after its phase change: second phase, 119 ticks of
    pause left, the damage reduction at 0.5 with 300 on its timer. *)
Definition world_shielded : State :=
  with_boss
    (set_e_dmgReductionTimer (Some 300%nat)
       (set_e_dmgReduction (Some 0.5)
          (set_e_phaseTransitionTimer (Some 119%nat)
             (a_boss "boss_1" V_alpha 2 3999 10000))))
    (a_world 0 (a_player 100 0 0 []) [] []).


(** * Piercing projectiles (1830-1927) *)


(** The hit-list and the dead flag only grow from [b] to [b']. *)
Definition grows (b b' : Bullet) : Prop :=
  (forall id, in_hitList b id = true -> in_hitList b' id = true)
  /\ (b_dead b = true -> b_dead b' = true)
  /\ b_piercing b' = b_piercing b.

(** A mine of the Revenant at rest (1231-1236): 12 wide, 50 hit points. *)
Definition a_mine (x y : Q) : Bullet :=
  {| b_id := "rev_mine_"; b_x := x; b_y := y; b_width := 12; b_height := 12;
     b_vx := 0; b_vy := 0; b_dead := false; b_owner := by_enemy; b_damage := 30;
     b_timer := 0; b_weaponId := None; b_piercing := false; b_hitList := None;
     b_initialX := None; b_splashRadius := None; b_chainCount := None;
     b_orbitRadius := None; b_orbitAngle := None; b_orbCooldown := None;
     b_isVortex := false; b_isMine := true; b_hp := Some 50; b_isLaser := false;
     b_isSpawner := false; b_ext := noBulletExt |}.

(** A piercing bolt of the laser stream (damage 10) at the given place. *)
Definition laser_at (x y : Q) : Bullet :=
  set_b_hitList (Some []) (set_b_piercing true
    (player_shot LASER_STREAM x y 6 40 0 (-25) 10)).

(** The bolt between two mines, both within its reach; no enemy around. *)
Definition world_mines : State :=
  a_world 0 (a_player 100 0 0 []) [laser_at 300 300; a_mine 295 300; a_mine 305 300] [].

(** The bolt on a tank, a mine beside it. *)
Definition world_pierce : State :=
  a_world 0 (a_player 100 0 0 [])
    [laser_at 100 100; a_mine 105 100]
    [spawned "e_1" T_tank 100 100 22 150 600].


(** * Chain jumps (1890) *)

(** What makes [ne] a target of a jump from [e]: another id, not dead, and
    less than [200 * rangeMult] away from [e]. *)
Definition chain_target (e : Enemy) (rangeMult : Q) (ne : Enemy) : Prop :=
  e_id ne <> e_id e /\ e_dead ne = false
  /\ dist_lt (e_x ne) (e_y ne) (e_x e) (e_y e) (200 * rangeMult) = true.

(** The search of the target reads the id, the dead flag and the place of the
    enemies only. *)
Definition same_place (a b : option Enemy) : Prop :=
  match a, b with
  | Some a, Some b => e_x a = e_x b /\ e_y a = e_y b
  | None, None => True
  | _, _ => False
  end.

(** A bolt of the chain lightning at level 1 (739-744): four jumps, range
    multiplier 1.2, damage 27. *)
Definition chain_bolt (x y : Q) : Bullet :=
  set_b_orbitRadius (Some 1.2) (set_b_chainCount (Some 4%Z)
    (player_shot CHAIN_LIGHTNING x y 4 10 0 (-18) 27)).

(** The bolt on tank A; tank B, 200 away from A, comes before tank C, 50 away
    from A, in the array of the enemies. *)
Definition world_chain : State :=
  a_world 0 (a_player 100 0 0 []) [chain_bolt 90 100]
    [spawned "A" T_tank 100 100 22 150 600;
     spawned "B" T_tank 300 100 22 150 600;
     spawned "C" T_tank 150 100 22 150 600].


(** A piercing pulse nova of level 1 (pulse every 20 frames, damage 100) at
    the given place, at rest. *)
Definition nova_at (x y : Q) : Bullet :=
  set_b_splashRadius (Some 20) (set_b_piercing true
    (player_shot PULSE_NOVA x y 30 30 0 (-2) 100)).

(** The nova on tank A; tank B stands 40 to the side, within reach of the
    nova and of its pulse. *)
Definition world_nova : State :=
  a_world 0 (a_player 100 0 0 []) [nova_at 300 300]
    [spawned "A" T_tank 300 300 22 1000 600; spawned "B" T_tank 340 300 22 1000 600].





(** * Arrivals: [generateBoss] (181-345) and [spawnSpecificMob] (408-465)

    The step takes the arrival of enemies as a parameter
    ([env_spawnEnemy]); the two functions that build the arrivals are
    modelled here on their own.  The HUD texts and the mob pool, which
    [refreshMobPool] shuffles with a random comparator, are left out. *)

(** [variants] of 188-193. *)
Definition boss_variants (d : Difficulty) : list Variant :=
  [V_alpha; V_beta; V_gamma; V_delta; V_theta]
  ++ (if bool_decide (d = HARD) || bool_decide (d = EXTREME)
         || bool_decide (d = INFINITY) || bool_decide (d = BOSS_RUSH_EXTREME)
      then [V_somniomancer; V_revenant; V_alptraum] else []).

(** [arr[k]] for a number [k] that may be negative. *)
Definition at_index {A} (l : list A) (k : Z) : option A :=
  if (k <? 0)%Z then None else l !! Z.to_nat k.

(** [EASY ? 0.6 : HARD ? 1.5 : EXTREME ? 2.0 : 1.0] (236, 247). *)
Definition difficulty_multiplier (d : Difficulty) : Q :=
  if bool_decide (d = EASY) then 0.6
  else if bool_decide (d = HARD) then 1.5
  else if bool_decide (d = EXTREME) then 2.0 else 1.0.

(** [finalHp] of 221-253. *)
Definition finalHp (env : Env) (d : Difficulty) (stage : nat)
    (variant : option Variant) : Q :=
  let hp :=
    if bool_decide (d = BOSS_RUSH) then
      let progress := Math_min 1 ((Qnat stage - 1) / 14) in
      5000 + (20000 - 5000) * progress
    else if bool_decide (d = BOSS_RUSH_EXTREME) then
      let progress := Math_min 1 ((Qnat stage - 1) / 14) in
      10000 + (50000 - 10000) * progress
    else
      let multiplier :=
        if bool_decide (d = INFINITY) then 2.5 * (1 + Qnat stage * 0.75)
        else difficulty_multiplier d in
      2500 * Qnat stage * multiplier in
  let hp := match env_practiceMode env with
            | Some _ => 2500 * difficulty_multiplier d * 2
            | None => hp
            end in
  let hp := if bool_decide (variant = Some V_gamma) then hp * 1.25 else hp in
  if bool_decide (variant = Some V_revenant) then hp * 1.3 else hp.

(** The boss literal of 257-285 with the variant initialisation of 288-316
    that does not draw random numbers. *)
Definition boss_literal (env : Env) (s : State) (variant : option Variant) : Enemy :=
  let hp := finalHp env (difficulty s) (stage s) variant in
  let w := if bool_decide (variant = Some V_gamma) then 60 else 40 in
  let has v := bool_decide (variant = Some v) in
  {| e_id := "boss_"; e_x := env_CANVAS_WIDTH env / 2; e_y := -100;
     e_width := w; e_height := w; e_vx := 0; e_vy := 0; e_dead := false;
     e_hp := hp; e_maxHp := hp; e_type := T_boss; e_variant := variant;
     e_scoreValue := (5000 * Z.of_nat (stage s))%Z;
     e_patternTimer := 0; e_shotTimer := 0; e_state := Some S_entering;
     e_frozenTimer := None; e_phase := Some 1%nat;
     e_phaseTransitionTimer := None; e_fightStartFrame := Some 0%nat;
     e_dmgReduction := Some 0.5; e_dmgReductionTimer := Some 300%nat;
     e_parentId := None; e_orbitAngle := None; e_orbitRadius := None;
     e_orbitSpeed := None;
     e_shieldHp := if has V_theta then Some 0
                   else if has V_alptraum then Some (hp * 0.15) else None;
     e_shieldMax := if has V_theta then Some (hp * 0.08)
                    else if has V_alptraum then Some (hp * 0.15) else None;
     e_shieldActive := has V_alptraum;
     e_shieldTimer := if has V_theta || has V_alptraum then Some 0%nat else None;
     e_laserCharge := None; e_isReflecting := false; e_burstCount := None;
     e_targetAngle := None; e_invulnTimer := None; e_gravityDir := None;
     e_gravityTimer := None; e_isGhost := false;
     e_ext := {| currentAttack := None; attackTimer := None;
                 dashState := if has V_beta || has V_revenant then Some "idle" else None;
                 dashTimer := if has V_beta || has V_revenant then Some 0%nat else None;
                 mimicType := None; mimicTimer := None;
                 ghostType := None; ghostState := None; ghostTimer := None;
                 targetPos := None; trinityTimer := Some 0%Z;
                 summonBatchCount := None; trinityActive := false;
                 duoActive := false; duoTimer := None |} |}.

(** One drone of the escort of the Seraph (320-340). *)
Definition seraph_drone (env : Env) (boss : Enemy) (i : nat) (shotTimer : Q) : Enemy :=
  {| e_id := "seraph_drone_"; e_x := e_x boss; e_y := e_y boss;
     e_width := 15; e_height := 15; e_vx := 0; e_vy := 0; e_dead := false;
     e_hp := e_hp boss * 0.25; e_maxHp := e_hp boss * 0.25;
     e_type := T_seraph_drone; e_variant := None; e_scoreValue := 500;
     e_patternTimer := 0; e_shotTimer := shotTimer; e_state := None;
     e_frozenTimer := None; e_phase := None; e_phaseTransitionTimer := None;
     e_fightStartFrame := None; e_dmgReduction := None;
     e_dmgReductionTimer := None; e_parentId := Some (e_id boss);
     e_orbitAngle := Some (env_Math_PI env * 2 / 6 * Qnat i);
     e_orbitRadius := Some 100; e_orbitSpeed := Some 0.02;
     e_shieldHp := None; e_shieldMax := None; e_shieldActive := false;
     e_shieldTimer := None; e_laserCharge := None; e_isReflecting := false;
     e_burstCount := None; e_targetAngle := None; e_invulnTimer := None;
     e_gravityDir := None; e_gravityTimer := None; e_isGhost := false;
     e_ext := noEnemyExt |}.

(** [generateBoss(forcedVariant)] (181-345). *)
Definition generateBoss (env : Env) (forcedVariant : option Variant) (s : State) : State :=
  if bossActive s then s
  else
    let s := set_bossActive true s in
    let variants := boss_variants (difficulty s) in
    let len := Z.of_nat (length variants) in
    let '(r, s) := random env s in
    let variant := at_index variants (Qfloor (r * inject_Z len)) in
    let variant :=
      if isBossRush (difficulty s)
      then at_index variants (Z.rem (Z.of_nat (stage s) - 1) len)
      else variant in
    let variant := match forcedVariant with Some v => Some v | None => variant end in
    let boss := boss_literal env s variant in
    let '(boss, s) :=
      if bool_decide (variant = Some V_somniomancer) then
        let '(r, s) := random env s in
        let angle := r * env_Math_PI env * 2 in
        (set_e_gravityTimer (Some 1800%nat)
           (set_e_gravityDir
              (Some (env_Math_cos env angle * 1.2, env_Math_sin env angle * 1.2)) boss),
         s)
      else (boss, s) in
    let s := if bool_decide (variant = Some V_alptraum)
             then spawnGhostDrone env T_gorgon (-50) (-50) s else s in
    let s := set_bossRef (Some (e_id boss)) (push_enemies [boss] s) in
    if bool_decide (variant = Some V_delta) then
      foldl (fun s i =>
        let '(r, s) := random env s in
        push_enemies [seraph_drone env boss i (r * 60)] s) s (seq 0 6)
    else s.

(** The stats lookup of 418-433: hit points, width and score. *)
Definition mob_stats (ty : EnemyType) : Q * Q * Z :=
  match ty with
  | T_drone => (30, 12, 100%Z)
  | T_interceptor => (60, 15, 300%Z)
  | T_tank => (150, 22, 600%Z)
  | T_seeker => (20, 10, 200%Z)
  | T_stealth => (80, 18, 500%Z)
  | T_gorgon => (200, 25, 800%Z)
  | T_kamikaze => (40, 12, 400%Z)
  | T_aegis_bot => (120, 20, 700%Z)
  | T_swarmer => (10, 8, 50%Z)
  | T_lich => (300, 20, 1500%Z)
  | T_sniper => (100, 15, 1000%Z)
  | T_reflector => (250, 25, 1200%Z)
  | T_breacher => (180, 22, 900%Z)
  | _ => (30, 15, 100%Z)
  end.

(** [hpMult] of 435-437. *)
Definition hpMult (env : Env) (s : State) : Q :=
  match env_practiceMode env with
  | Some _ => 1
  | None =>
      if bool_decide (difficulty s = INFINITY) then 1 + Qnat (stage s) * 0.8
      else 1 + Qnat (stage s) * 0.2
  end.

(** [spawnSpecificMob(mobType, x)] (408-465) for a mob type of the
    enumeration. *)
Definition spawnSpecificMob (env : Env) (mobType : EnemyType) (x : Q) (s : State) : State :=
  let '(hp, w, sc) := mob_stats mobType in
  let '(r, s) := random env s in
  let e := set_e_shotTimer (r * 60)
             (spawned "enemy_" mobType x (-30) w (hp * hpMult env s) sc) in
  let has t := bool_decide (mobType = t) in
  let e := if has T_gorgon
           then set_e_burstCount (Some 0%nat) (set_e_laserCharge (Some 0%nat) e) else e in
  let e := if has T_aegis_bot
           then set_e_shieldTimer (Some 0%nat) (set_e_shieldActive true e) else e in
  let e := if has T_sniper
           then set_e_invulnTimer (Some 0%nat)
                  (set_e_dmgReduction (Some 0) (set_e_laserCharge (Some 0%nat) e))
           else e in
  let e := if has T_reflector
           then set_e_patternTimer 0 (set_e_isReflecting false e) else e in
  let '(e, s) :=
    if has T_lich then
      let '(r, s) := random env s in
      (set_e_patternTimer (Z.to_nat (Qfloor (r * 240))) e, s)
    else (e, s) in
  push_enemies [e] s.

(** [spawnRate] of 385-391, outside practice. *)
Definition spawnRate (d : Difficulty) (stage : nat) : Z :=
  let rate := if bool_decide (d = HARD) then 15%Z
              else if bool_decide (d = EASY) then 50%Z else 30%Z in
  let rate := if bool_decide (d = EXTREME) then 10%Z else rate in
  if bool_decide (d = INFINITY) then Z.max 4 (15 - Z.of_nat stage * 3) else rate.

(** A regular run at the given difficulty and stage with nothing on the
    field. *)
Definition world_stage (d : Difficulty) (st : nat) : State :=
  {| player := a_player 100 0 0 []; bullets := []; enemies := []; keys := ∅;
     frame := 0; score := 0; stage := st; stageTimer := 0; bossActive := false;
     bossRef := None; dataFragments := 0; difficulty := d; timeScale := 1;
     waveDelay := 0; isGameOver := false; kills := 0; bossKills := 0;
     shotsFired := 0; practiceTimer := 0; events := []; rng := 0 |}.

(** * The profile of the player ([App.tsx])

    The React state of [App] that outlives a run, and the handlers that
    change it.  A handler reads the state of the render it was created in and
    queues its updates; it is modelled as a function on that state, the
    handler being called once per render.  The prices come from
    [./constants], which is not part of the sources: they are the fields of
    a catalogue. *)

Record Catalog := {
  WEAPONS_unlockCost : WeaponId -> Z;
  WEAPONS_lv2_cost : WeaponId -> Z;
  WEAPONS_lv3_cost : WeaponId -> Z;
  SPELL_CARDS_unlockCost : SpellCardId -> Z;
  SPELL_CARDS_lv2_cost : SpellCardId -> Z;
  SPELL_CARDS_lv3_cost : SpellCardId -> Z;
  BOOSTERS_cost : BoosterId -> Z;
  DATABASE_ENTRIES_cost : string -> option Z;   (* [find(e => e.id === id)?.cost] *)
}.

(** [GameStats] ([types.ts] 58-72). *)
Record GameStats := {
  totalGamesPlayed : nat;
  gs_totalKills : nat;
  gs_bossesKilled : nat;
  totalDeaths : nat;
  gs_totalShotsFired : nat;
  totalFragmentsCollected : Z;
  gs_maxStageReached : nat;
  highestScore : Z;
  bestBossRush : Difficulty * nat;    (* [{difficulty, waves}]; the initial state sets it *)
}.

Record Profile := {
  pf_difficulty : Difficulty;
  pf_unlockedInfinity : bool;
  pf_clearedDifficulties : list Difficulty;
  pf_dataFragments : Z;
  pf_unlockedWeapons : list WeaponId;
  pf_unlockedSpells : list SpellCardId;
  pf_databaseUnlocks : list string;
  pf_databaseClears : gmap string (list Difficulty);
  pf_practiceConfig : option (string * Difficulty);   (* entry id, difficulty *)
  pf_gameStats : GameStats;
  pf_pitySystemEnabled : bool;
  pf_pityStacks : nat;
  pf_weaponLevels : WeaponId -> nat;
  pf_spellLevels : SpellCardId -> nat;
  pf_maxWeaponSlots : nat;
  pf_maxSpellSlots : nat;
  pf_activeBoosters : BoosterId -> bool;              (* [activeBoosters.has] *)
  pf_lastGameResult : option (Z * bool * Z);
}.

Definition spend (cost : Z) (p : Profile) : Profile :=
  {| pf_difficulty := pf_difficulty p; pf_unlockedInfinity := pf_unlockedInfinity p;
     pf_clearedDifficulties := pf_clearedDifficulties p;
     pf_dataFragments := (pf_dataFragments p - cost)%Z;
     pf_unlockedWeapons := pf_unlockedWeapons p;
     pf_unlockedSpells := pf_unlockedSpells p;
     pf_databaseUnlocks := pf_databaseUnlocks p;
     pf_databaseClears := pf_databaseClears p;
     pf_practiceConfig := pf_practiceConfig p; pf_gameStats := pf_gameStats p;
     pf_pitySystemEnabled := pf_pitySystemEnabled p;
     pf_pityStacks := pf_pityStacks p; pf_weaponLevels := pf_weaponLevels p;
     pf_spellLevels := pf_spellLevels p; pf_maxWeaponSlots := pf_maxWeaponSlots p;
     pf_maxSpellSlots := pf_maxSpellSlots p;
     pf_activeBoosters := pf_activeBoosters p;
     pf_lastGameResult := pf_lastGameResult p |}.

Definition set_unlocks (ws : list WeaponId) (ss : list SpellCardId) (ds : list string)
    (p : Profile) : Profile :=
  {| pf_difficulty := pf_difficulty p; pf_unlockedInfinity := pf_unlockedInfinity p;
     pf_clearedDifficulties := pf_clearedDifficulties p;
     pf_dataFragments := pf_dataFragments p;
     pf_unlockedWeapons := ws; pf_unlockedSpells := ss; pf_databaseUnlocks := ds;
     pf_databaseClears := pf_databaseClears p;
     pf_practiceConfig := pf_practiceConfig p; pf_gameStats := pf_gameStats p;
     pf_pitySystemEnabled := pf_pitySystemEnabled p;
     pf_pityStacks := pf_pityStacks p; pf_weaponLevels := pf_weaponLevels p;
     pf_spellLevels := pf_spellLevels p; pf_maxWeaponSlots := pf_maxWeaponSlots p;
     pf_maxSpellSlots := pf_maxSpellSlots p;
     pf_activeBoosters := pf_activeBoosters p;
     pf_lastGameResult := pf_lastGameResult p |}.

Definition set_levels (wl : WeaponId -> nat) (sl : SpellCardId -> nat)
    (wslots sslots : nat) (p : Profile) : Profile :=
  {| pf_difficulty := pf_difficulty p; pf_unlockedInfinity := pf_unlockedInfinity p;
     pf_clearedDifficulties := pf_clearedDifficulties p;
     pf_dataFragments := pf_dataFragments p;
     pf_unlockedWeapons := pf_unlockedWeapons p;
     pf_unlockedSpells := pf_unlockedSpells p;
     pf_databaseUnlocks := pf_databaseUnlocks p;
     pf_databaseClears := pf_databaseClears p;
     pf_practiceConfig := pf_practiceConfig p; pf_gameStats := pf_gameStats p;
     pf_pitySystemEnabled := pf_pitySystemEnabled p;
     pf_pityStacks := pf_pityStacks p; pf_weaponLevels := wl;
     pf_spellLevels := sl; pf_maxWeaponSlots := wslots;
     pf_maxSpellSlots := sslots;
     pf_activeBoosters := pf_activeBoosters p;
     pf_lastGameResult := pf_lastGameResult p |}.

Definition set_boosters (bs : BoosterId -> bool) (p : Profile) : Profile :=
  {| pf_difficulty := pf_difficulty p; pf_unlockedInfinity := pf_unlockedInfinity p;
     pf_clearedDifficulties := pf_clearedDifficulties p;
     pf_dataFragments := pf_dataFragments p;
     pf_unlockedWeapons := pf_unlockedWeapons p;
     pf_unlockedSpells := pf_unlockedSpells p;
     pf_databaseUnlocks := pf_databaseUnlocks p;
     pf_databaseClears := pf_databaseClears p;
     pf_practiceConfig := pf_practiceConfig p; pf_gameStats := pf_gameStats p;
     pf_pitySystemEnabled := pf_pitySystemEnabled p;
     pf_pityStacks := pf_pityStacks p; pf_weaponLevels := pf_weaponLevels p;
     pf_spellLevels := pf_spellLevels p; pf_maxWeaponSlots := pf_maxWeaponSlots p;
     pf_maxSpellSlots := pf_maxSpellSlots p;
     pf_activeBoosters := bs;
     pf_lastGameResult := pf_lastGameResult p |}.

(** [{ ...prev, [id]: v }] on a record indexed by an enumeration. *)
Definition with_entry {K} `{EqDecision K} {V} (k : K) (v : V) (f : K -> V) : K -> V :=
  fun k' => if decide (k' = k) then v else f k'.

Section Shop.

Variable cat : Catalog.

(** 263-269. *)
Definition handleUnlockWeapon (id : WeaponId) (p : Profile) : Profile :=
  let cost := WEAPONS_unlockCost cat id in
  if (cost <=? pf_dataFragments p)%Z then
    set_unlocks (pf_unlockedWeapons p ++ [id]) (pf_unlockedSpells p)
      (pf_databaseUnlocks p) (spend cost p)
  else p.

(** 271-277. *)
Definition handleUnlockSpell (id : SpellCardId) (p : Profile) : Profile :=
  let cost := SPELL_CARDS_unlockCost cat id in
  if (cost <=? pf_dataFragments p)%Z then
    set_unlocks (pf_unlockedWeapons p) (pf_unlockedSpells p ++ [id])
      (pf_databaseUnlocks p) (spend cost p)
  else p.

(** 279-285. *)
Definition handleUnlockDatabaseEntry (id : string) (p : Profile) : Profile :=
  match DATABASE_ENTRIES_cost cat id with
  | Some cost =>
      if (cost <=? pf_dataFragments p)%Z then
        set_unlocks (pf_unlockedWeapons p) (pf_unlockedSpells p)
          (pf_databaseUnlocks p ++ [id]) (spend cost p)
      else p
  | None => p
  end.

(** 287-298. *)
Definition handleUpgradeWeapon (id : WeaponId) (p : Profile) : Profile :=
  let currentLevel := pf_weaponLevels p id in
  if (3 <=? currentLevel)%nat then p
  else
    let cost := if (currentLevel =? 1)%nat
                then WEAPONS_lv2_cost cat id else WEAPONS_lv3_cost cat id in
    if (cost <=? pf_dataFragments p)%Z then
      set_levels (with_entry id (currentLevel + 1)%nat (pf_weaponLevels p))
        (pf_spellLevels p) (pf_maxWeaponSlots p) (pf_maxSpellSlots p) (spend cost p)
    else p.

(** 300-311. *)
Definition handleUpgradeSpell (id : SpellCardId) (p : Profile) : Profile :=
  let currentLevel := pf_spellLevels p id in
  if (3 <=? currentLevel)%nat then p
  else
    let cost := if (currentLevel =? 1)%nat
                then SPELL_CARDS_lv2_cost cat id else SPELL_CARDS_lv3_cost cat id in
    if (cost <=? pf_dataFragments p)%Z then
      set_levels (pf_weaponLevels p)
        (with_entry id (currentLevel + 1)%nat (pf_spellLevels p))
        (pf_maxWeaponSlots p) (pf_maxSpellSlots p) (spend cost p)
    else p.

(** 313-327; [true] stands for ['weapon'], [false] for ['spell']. *)
Definition handleUpgradeSlot (weapon : bool) (p : Profile) : Profile :=
  if weapon then
    let cost := if (pf_maxWeaponSlots p =? 2)%nat then 1000%Z else 2000%Z in
    if (pf_maxWeaponSlots p <? 4)%nat && (cost <=? pf_dataFragments p)%Z then
      set_levels (pf_weaponLevels p) (pf_spellLevels p)
        (pf_maxWeaponSlots p + 1)%nat (pf_maxSpellSlots p) (spend cost p)
    else p
  else
    let cost := 1500%Z in
    if (pf_maxSpellSlots p <? 2)%nat && (cost <=? pf_dataFragments p)%Z then
      set_levels (pf_weaponLevels p) (pf_spellLevels p)
        (pf_maxWeaponSlots p) (pf_maxSpellSlots p + 1)%nat (spend cost p)
    else p.

(** 329-335. *)
Definition handleBuyBooster (id : BoosterId) (p : Profile) : Profile :=
  let cost := BOOSTERS_cost cat id in
  if (cost <=? pf_dataFragments p)%Z && negb (pf_activeBoosters p id) then
    set_boosters (with_entry id true (pf_activeBoosters p)) (spend cost p)
  else p.

(** What the player can do in the menus. *)
Inductive ShopAction :=
  | UnlockWeapon (id : WeaponId)
  | UnlockSpell (id : SpellCardId)
  | UnlockDatabaseEntry (id : string)
  | UpgradeWeapon (id : WeaponId)
  | UpgradeSpell (id : SpellCardId)
  | UpgradeSlot (weapon : bool)
  | BuyBooster (id : BoosterId).

Definition shop (p : Profile) (a : ShopAction) : Profile :=
  match a with
  | UnlockWeapon id => handleUnlockWeapon id p
  | UnlockSpell id => handleUnlockSpell id p
  | UnlockDatabaseEntry id => handleUnlockDatabaseEntry id p
  | UpgradeWeapon id => handleUpgradeWeapon id p
  | UpgradeSpell id => handleUpgradeSpell id p
  | UpgradeSlot w => handleUpgradeSlot w p
  | BuyBooster id => handleBuyBooster id p
  end.

End Shop.

(** [sessionStats.k || 0] on the partial statistics of an outcome event. *)
Definition stat_or0 (f : SessionStats -> nat) (st : option SessionStats) : nat :=
  match st with Some x => f x | None => 0%nat end.

(** The update of [gameStats] in [handleGameOver] (348-380). *)
Definition book_stats (difficulty : Difficulty) (score : Z) (win : bool)
    (finalFragments : Z) (st : option SessionStats) (prev : GameStats) : GameStats :=
  let isBossRush := bool_decide (difficulty = BOSS_RUSH)
                    || bool_decide (difficulty = BOSS_RUSH_EXTREME) in
  let newBestBossRush :=
    if isBossRush then
      let currentWaves := stat_or0 maxStageReached st in
      let currentIsExtreme := bool_decide (difficulty = BOSS_RUSH_EXTREME) in
      let bestIsExtreme := bool_decide (fst (bestBossRush prev) = BOSS_RUSH_EXTREME) in
      if currentIsExtreme && negb bestIsExtreme then (difficulty, currentWaves)
      else if Bool.eqb currentIsExtreme bestIsExtreme then
        if (snd (bestBossRush prev) <? currentWaves)%nat
        then (difficulty, currentWaves) else bestBossRush prev
      else bestBossRush prev
    else bestBossRush prev in
  {| totalGamesPlayed := totalGamesPlayed prev + 1;
     gs_totalKills := gs_totalKills prev + stat_or0 totalKills st;
     gs_bossesKilled := gs_bossesKilled prev + stat_or0 bossesKilled st;
     totalDeaths := totalDeaths prev + (if win then 0 else 1);
     gs_totalShotsFired := gs_totalShotsFired prev + stat_or0 totalShotsFired st;
     totalFragmentsCollected := (totalFragmentsCollected prev + finalFragments)%Z;
     gs_maxStageReached := Nat.max (gs_maxStageReached prev) (stat_or0 maxStageReached st);
     highestScore := Z.max (highestScore prev) score;
     bestBossRush := newBestBossRush |}.

(** [handleGameOver(score, win, fragments, sessionStats)] (337-418); the
    change of view and the music are left out. *)
Definition handleGameOver (ev : GameOverCall) (p : Profile) : Profile :=
  let score := ev_score ev in
  let win := ev_win ev in
  let fragments := ev_fragments ev in
  let finalFragments := if win then (fragments * 3 / 2)%Z else fragments in
  let difficulty := pf_difficulty p in
  match pf_practiceConfig p with
  | Some (entry, diff) =>
      let clears :=
        if win then
          let existing := default [] (pf_databaseClears p !! entry) in
          if bool_decide (diff ∈ existing) then pf_databaseClears p
          else <[entry := existing ++ [diff]]> (pf_databaseClears p)
        else pf_databaseClears p in
      {| pf_difficulty := difficulty; pf_unlockedInfinity := pf_unlockedInfinity p;
         pf_clearedDifficulties := pf_clearedDifficulties p;
         pf_dataFragments := pf_dataFragments p;
         pf_unlockedWeapons := pf_unlockedWeapons p;
         pf_unlockedSpells := pf_unlockedSpells p;
         pf_databaseUnlocks := pf_databaseUnlocks p;
         pf_databaseClears := clears;
         pf_practiceConfig := pf_practiceConfig p; pf_gameStats := pf_gameStats p;
         pf_pitySystemEnabled := pf_pitySystemEnabled p;
         pf_pityStacks := pf_pityStacks p; pf_weaponLevels := pf_weaponLevels p;
         pf_spellLevels := pf_spellLevels p;
         pf_maxWeaponSlots := pf_maxWeaponSlots p;
         pf_maxSpellSlots := pf_maxSpellSlots p;
         pf_activeBoosters := pf_activeBoosters p;
         pf_lastGameResult := Some (score, win, finalFragments) |}
  | None =>
      let newlyCleared := win && negb (bool_decide (difficulty ∈ pf_clearedDifficulties p)) in
      let newCleared := pf_clearedDifficulties p ++ [difficulty] in
      {| pf_difficulty := difficulty;
         pf_unlockedInfinity :=
           if newlyCleared
              && bool_decide (EASY ∈ newCleared) && bool_decide (NORMAL ∈ newCleared)
              && bool_decide (HARD ∈ newCleared) && bool_decide (EXTREME ∈ newCleared)
           then true else pf_unlockedInfinity p;
         pf_clearedDifficulties :=
           if newlyCleared then newCleared else pf_clearedDifficulties p;
         pf_dataFragments := (pf_dataFragments p + finalFragments)%Z;
         pf_unlockedWeapons := pf_unlockedWeapons p;
         pf_unlockedSpells := pf_unlockedSpells p;
         pf_databaseUnlocks := pf_databaseUnlocks p;
         pf_databaseClears := pf_databaseClears p;
         pf_practiceConfig := None;
         pf_gameStats := book_stats difficulty score win finalFragments (ev_stats ev)
                           (pf_gameStats p);
         pf_pitySystemEnabled := pf_pitySystemEnabled p;
         pf_pityStacks :=
           if pf_pitySystemEnabled p
           then (if win then 0%nat else Nat.min 100 (pf_pityStacks p + 1))
           else pf_pityStacks p;
         pf_weaponLevels := pf_weaponLevels p; pf_spellLevels := pf_spellLevels p;
         pf_maxWeaponSlots := pf_maxWeaponSlots p;
         pf_maxSpellSlots := pf_maxSpellSlots p;
         pf_activeBoosters := fun _ => false;
         pf_lastGameResult := Some (score, win, finalFragments) |}
  end.

(** The profile of a first start (12-95), in the given mode. *)
Definition first_profile (d : Difficulty) (practice : option (string * Difficulty)) : Profile :=
  {| pf_difficulty := d; pf_unlockedInfinity := false; pf_clearedDifficulties := [];
     pf_dataFragments := 500; pf_unlockedWeapons := [PLASMA_CUTTER];
     pf_unlockedSpells := []; pf_databaseUnlocks := []; pf_databaseClears := ∅;
     pf_practiceConfig := practice;
     pf_gameStats := {| totalGamesPlayed := 0; gs_totalKills := 0; gs_bossesKilled := 0;
                        totalDeaths := 0; gs_totalShotsFired := 0;
                        totalFragmentsCollected := 0; gs_maxStageReached := 0;
                        highestScore := 0; bestBossRush := (BOSS_RUSH, 0%nat) |};
     pf_pitySystemEnabled := false; pf_pityStacks := 0;
     pf_weaponLevels := fun _ => 1%nat; pf_spellLevels := fun _ => 1%nat;
     pf_maxWeaponSlots := 2; pf_maxSpellSlots := 1;
     pf_activeBoosters := fun _ => false; pf_lastGameResult := None |}.

(** Prices used in the examples. *)
Definition a_catalog : Catalog :=
  {| WEAPONS_unlockCost := fun _ => 300%Z; WEAPONS_lv2_cost := fun _ => 200%Z;
     WEAPONS_lv3_cost := fun _ => 400%Z; SPELL_CARDS_unlockCost := fun _ => 250%Z;
     SPELL_CARDS_lv2_cost := fun _ => 200%Z; SPELL_CARDS_lv3_cost := fun _ => 400%Z;
     BOOSTERS_cost := fun _ => 100%Z;
     DATABASE_ENTRIES_cost := fun _ => Some 50%Z |}.

(** * More of the engine and the profile: definitions of the properties *)

(** An environment that differs from the quiet one in being paused. *)
Definition paused_env : Env :=
  {| env_CANVAS_WIDTH := 600; env_CANVAS_HEIGHT := 800;
     env_SPELL_CARDS_cooldown := fun _ => 10;
     env_Math_cos := fun _ => 1; env_Math_sin := fun _ => 0;
     env_Math_atan2 := fun _ _ => 0; env_Math_sqrt := fun x => x;
     env_Math_PI := 355 # 113; env_Math_random := fun _ => 0;
     env_activeBoosters := fun _ => false; env_pityStacks := 0;
     env_practiceMode := None; env_isPaused := true;
     env_spawnEnemy := fun s => (field_of s, bossActive s, bossRef s);
     env_ghostLogic := fun s _ => field_of s;
     env_bossLogic := fun s _ => (field_of s, false);
     env_miniBossLogic := fun s _ => field_of s;
     env_bulletSpecial := fun s _ => field_of s;
     env_bulletEdges := fun s _ => field_of s |}.

(** The world of the two shots once the run is over. *)
Definition world_over : State := update quiet_env world_two_shots.

(** No entity of the world is flagged dead. *)
Definition all_live (s : State) : Prop :=
  Forall (fun e => e_dead e = false) (enemies s)
  /\ Forall (fun b => b_dead b = false) (bullets s).

(** The player keeps its size under a move. *)
Definition same_size (f : Player -> Player) : Prop :=
  forall p, p_width (f p) = p_width p /\ p_height (f p) = p_height p.

(** A player with one spell of the given level in slot 0, at the given
    cooldown. *)
Definition a_caster (sp : SpellCardId) (lvl : nat) (cd : Q) : Player :=
  {| p_x := 300; p_y := 700; p_width := 8; p_height := 8; p_vx := 0; p_vy := 0;
     p_hp := 100; p_maxHp := 100; p_invulnerableTime := 0;
     p_framesSinceLastHit := 0; p_grazing := 0; p_focused := false;
     p_equippedWeapons := []; p_equippedSpells := [sp]; p_spellCooldowns := [cd];
     p_weaponLevels := fun _ => 1%nat; p_spellLevels := fun _ => lvl;
     p_shield := 0; p_revives := 0; p_activeBuffs := ∅ |}.

(** A world of that player, who holds the key of slot 0 down. *)
Definition world_spell (sp : SpellCardId) (lvl : nat) (cd : Q) : State :=
  with_keys ["KeyX"] (a_world 0 (a_caster sp lvl cd) [] []).

(** Every projectile of [s] is still at its index in [s'], with a hit-list and
    a dead flag that have only grown. *)
Definition bullets_grow (s s' : State) : Prop :=
  forall k b, bullets s !! k = Some b ->
    exists b', bullets s' !! k = Some b' /\ grows b b'.

(** From [e] to [e'] an enemy keeps its id, type and place, and does not come
    back from the dead. *)
Definition stays (e e' : Enemy) : Prop :=
  e_id e' = e_id e /\ e_type e' = e_type e /\ e_isGhost e' = e_isGhost e
  /\ e_x e' = e_x e /\ e_y e' = e_y e
  /\ (e_dead e = true -> e_dead e' = true).

Definition enemies_stay (s s' : State) : Prop :=
  Forall2 stays (enemies s) (enemies s').

(** A drone brought to zero hit points that is not flagged yet, a plasma bolt
    on it. *)
Definition world_spent : State :=
  a_world 0 (a_player 100 0 0 []) [plasma_at 300 100]
    [spawned "e_1" T_drone 300 100 12 0 100].

(** The product of the loot multipliers of a kill (1896-1897). *)
Definition loot_factor (env : Env) (s : State) : Z :=
  (lootMult (difficulty s) * (if isBossRush (difficulty s) then 3 else 1)
   * (if env_activeBoosters env LOOT_UP then 2 else 1))%Z.

(** A projectile as the weapon [w] of the player emits it. *)
Definition fresh_shot (w : WeaponId) (b : Bullet) : Prop :=
  b_owner b = by_player /\ b_dead b = false /\ b_timer b = 0%nat
  /\ b_weaponId b = Some w /\ b_isMine b = false.

(** From [s] to [s'] projectiles that satisfy [P] were appended, and the
    player and the enemies are as they were. *)
Definition appends (P : Bullet -> Prop) (s s' : State) : Prop :=
  player s' = player s /\ enemies s' = enemies s
  /\ exists l, bullets s' = bullets s ++ l /\ Forall P l.

(** A projectile emitted by one of the equipped weapons. *)
Definition shot_of_loadout (s : State) (b : Bullet) : Prop :=
  exists w, w ∈ p_equippedWeapons (player s) /\ fresh_shot w b.

(** The orbs of the player that are alive (766). *)
Definition live_orbs (s : State) : nat :=
  length (filter (fun b => b_owner b = by_player
                           /\ b_weaponId b = Some ORBITING_ORBS
                           /\ b_dead b = false) (bullets s)).

(** The cap of the orbs by the level of the weapon (767). *)
Definition maxOrbs (lvl : nat) : nat :=
  if (lvl =? 1)%nat then 2%nat else if (lvl =? 2)%nat then 3%nat else 4%nat.

(** What every boss has when it arrives (257-285). *)
Definition arriving_boss (e : Enemy) : Prop :=
  e_type e = T_boss /\ e_dead e = false /\ e_hp e = e_maxHp e
  /\ e_state e = Some S_entering /\ e_phase e = Some 1%nat
  /\ e_dmgReduction e = Some 0.5 /\ e_dmgReductionTimer e = Some 300%nat
  /\ e_y e = -100.

(** An enemy that comes with the boss. *)
Definition escort (e : Enemy) : Prop := e_type e <> T_boss /\ e_dead e = false.

(** One drone of the escort of that boss. *)
Definition escort_drone (boss d : Enemy) : Prop :=
  e_type d = T_seraph_drone /\ e_parentId d = Some (e_id boss)
  /\ e_hp d = e_hp boss * 0.25 /\ e_maxHp d = e_hp d /\ e_dead d = false.

(** From [s] to [s'] the enemies of [l] were appended; the boss flags are as
    they were. *)
Definition joined (l : list Enemy) (s s' : State) : Prop :=
  enemies s' = enemies s ++ l /\ bossActive s' = bossActive s
  /\ bossRef s' = bossRef s.

(** The variant that [generateBoss] settles on (195-205). *)
Definition chosen_variant (env : Env) (fv : option Variant) (s : State) : option Variant :=
  let variants := boss_variants (difficulty s) in
  let len := Z.of_nat (length variants) in
  match fv with
  | Some v => Some v
  | None =>
      if isBossRush (difficulty s)
      then at_index variants (Z.rem (Z.of_nat (stage s) - 1) len)
      else at_index variants (Qfloor (env_Math_random env (rng s) * inject_Z len))
  end.

(** The levels and the slots are within what the menus sell: levels up to 3,
    up to 4 weapon slots, up to 2 spell slots. *)
Definition within_caps (p : Profile) : Prop :=
  (forall w, (pf_weaponLevels p w <= 3)%nat)
  /\ (forall sp, (pf_spellLevels p sp <= 3)%nat)
  /\ (pf_maxWeaponSlots p <= 4)%nat /\ (pf_maxSpellSlots p <= 2)%nat.

(** A regular run of 41 fragments and 1200 points, won, with its session
    statistics. *)
Definition a_won_run : GameOverCall :=
  {| ev_score := 1200; ev_win := true; ev_fragments := 41;
     ev_stats := Some {| totalKills := 30; bossesKilled := 1;
                         totalShotsFired := 500; maxStageReached := 2 |} |}.

Ltac break_ifs :=
  repeat match goal with |- context [if ?c then _ else _] => destruct c end.



(** * Properties *)

(** ** Numbers *)

Lemma Qltb_lt a b : Qltb a b = true <-> a < b.
Proof. unfold Qltb. rewrite Qlt_alt. destruct (a ?= b); split; congruence. Qed.

Lemma Qltb_ge a b : Qltb a b = false <-> b <= a.
Proof.
  unfold Qltb. split.
  - intros H. apply Qnot_lt_le. rewrite Qlt_alt. destruct (a ?= b); congruence.
  - intros H. apply Qle_not_lt in H. rewrite Qlt_alt in H.
    destruct (a ?= b); congruence.
Qed.

Lemma Qleb_le a b : Qleb a b = true <-> a <= b.
Proof.
  unfold Qleb. rewrite Qle_alt. destruct (a ?= b); split; congruence.
Qed.

Lemma Qleb_gt a b : Qleb a b = false <-> b < a.
Proof.
  unfold Qleb. rewrite Qgt_alt. destruct (a ?= b); split; congruence.
Qed.

Lemma Math_min_le_l a b : Math_min a b <= a.
Proof.
  unfold Math_min. destruct (Qleb a b) eqn:E; [lra|].
  apply Qleb_gt in E. lra.
Qed.

Lemma Math_min_glb a b c : c < a -> c < b -> c < Math_min a b.
Proof. unfold Math_min. destruct (Qleb a b); auto. Qed.

(** ** Loops *)

Lemma foldl_invariant {A B} (P : A -> Prop) (f : A -> B -> A) (l : list B) (a : A) :
  P a -> (forall a b, P a -> P (f a b)) -> P (foldl f a l).
Proof.
  intros Ha Hf. revert a Ha. induction l as [|b l IH]; simpl; auto.
Qed.

Lemma for_indices_invariant (P : State -> Prop) n body s :
  P s -> (forall s i, P s -> P (body s i)) -> P (for_indices n body s).
Proof. intros. unfold for_indices. apply foldl_invariant; auto. Qed.


Lemma foldl_seq_ind (P : nat -> State -> Prop) body n start s :
  P start s ->
  (forall k st, (start <= k < start + n)%nat -> P k st -> P (S k) (body st k)) ->
  P (start + n)%nat (foldl body s (seq start n)).
Proof.
  revert start s. induction n as [|n IH]; intros start s H0 Hstep; cbn.
  - now rewrite Nat.add_0_r.
  - replace (start + S n)%nat with (S start + n)%nat by lia.
    apply IH.
    + apply Hstep; [lia|exact H0].
    + intros k st Hk. apply Hstep. lia.
Qed.

Lemma for_indices_ind (P : nat -> State -> Prop) n body s :
  P 0%nat s ->
  (forall k st, (k < n)%nat -> P k st -> P (S k) (body st k)) ->
  P n (for_indices n body s).
Proof.
  intros H0 Hstep. unfold for_indices.
  apply (foldl_seq_ind P body n 0 s H0). intros k st Hk. apply Hstep. lia.
Qed.

Lemma write_enemy_same s i e :
  enemies s !! i = Some e -> write_enemy i e s = s.
Proof.
  intros He. unfold write_enemy. rewrite list_insert_id by exact He.
  now destruct s.
Qed.



Lemma bullets_createExplosion env x y r d s :
  bullets (createExplosion env x y r d s) = bullets s.
Proof. reflexivity. Qed.

Lemma bullets_boss_defeated env s : bullets (boss_defeated env s) = bullets s.
Proof.
  unfold boss_defeated. destruct (env_practiceMode env); [reflexivity|].
  cbv zeta. break_ifs; reflexivity.
Qed.

Lemma bullets_payout env b i e s : bullets (payout env b i e s) = bullets s.
Proof.
  unfold payout. cbn [random]. cbv zeta.
  repeat match goal with |- context [if ?c then _ else _] => destruct c end;
    rewrite ?bullets_boss_defeated; reflexivity.
Qed.

Lemma bullets_settle_death env j i s : bullets (settle_death env j i s) = bullets s.
Proof.
  unfold settle_death. repeat case_match; auto using bullets_payout.
Qed.


Lemma lookup_write_bullet j b' s b :
  bullets s !! j = Some b -> bullets (write_bullet j b' s) !! j = Some b'.
Proof.
  intros H. cbn. apply list_lookup_insert_eq. eapply lookup_lt_Some; eauto.
Qed.


Lemma list_find_alter {A} (P : A -> Prop) `{!forall x, Decision (P x)} f i l :
  (forall x, P (f x) <-> P x) ->
  list_find P (alter f i l)
  = (fun kx => (kx.1, if decide (kx.1 = i) then f kx.2 else kx.2)) <$> list_find P l.
Proof.
  intros Hf. revert i. induction l as [|x l IH]; intros i; [reflexivity|].
  destruct i as [|i]; cbn.
  - destruct (decide (P (f x))) as [H1|H1], (decide (P x)) as [H2|H2].
    + reflexivity.
    + exfalso. apply H2, Hf, H1.
    + exfalso. apply H1, Hf, H2.
    + destruct (list_find P l) as [[k y]|]; reflexivity.
  - destruct (decide (P x)); [reflexivity|].
    rewrite IH. destruct (list_find P l) as [[k y]|]; [|reflexivity].
    cbn. destruct (decide (k = i)), (decide (S k = S i)); try lia; reflexivity.
Qed.


(** ** The hit points of the player stay at or below their maximum *)

Lemma hp_kept_refl s : hp_kept s s.
Proof. unfold hp_kept; auto. Qed.

Lemma hp_kept_trans s1 s2 s3 : hp_kept s1 s2 -> hp_kept s2 s3 -> hp_kept s1 s3.
Proof. unfold hp_kept. intros (?&?&?) (?&?&?). repeat split; try congruence; auto. Qed.

Lemma hp_ok_kept s s' : hp_kept s s' -> hp_ok s -> hp_ok s'.
Proof.
  unfold hp_kept, hp_ok. intros (Hh & Hm & Hg) (? & ? & ?).
  rewrite Hh, Hm. intuition auto.
Qed.

Lemma keeps_foldl {B} (f : State -> B -> State) l :
  (forall b, keeps (fun s => f s b)) -> keeps (fun s => foldl f s l).
Proof.
  intros Hf s. apply (foldl_invariant (hp_kept s)); [apply hp_kept_refl|].
  intros a b Ha. eapply hp_kept_trans; [exact Ha|apply Hf].
Qed.

Ltac kept_now := unfold hp_kept; cbn; repeat split; auto.

Lemma keeps_createExplosion env x y r d : keeps (createExplosion env x y r d).
Proof. intros s. kept_now. Qed.

Ltac split_ifs :=
  repeat (match goal with
          | |- context [if ?c then _ else _] => destruct c eqn:?
          | |- context [match ?c with Some _ => _ | None => _ end] => destruct c eqn:?
          end; cbn).

Lemma keeps_mob_logic_nonkamikaze env s i e :
  e_type e <> T_kamikaze -> hp_kept s (mob_logic env s i e).
Proof.
  intros Hk. unfold mob_logic.
  destruct (e_type e) eqn:Ht; try congruence; try apply hp_kept_refl.
  all: try (repeat case_match; kept_now; fail).
  all: split_ifs; kept_now.
Qed.

Lemma hp_ok_kamikaze_hit env s : hp_ok s -> hp_ok (kamikaze_hit env s).
Proof.
  unfold hp_ok, kamikaze_hit, incomingDamageMultiplier. intros (Hm & Hle & Hpos).
  destruct (p_invulnerableTime (player s)); cbn [Nat.eqb]; [|auto].
  destruct (Qltb 0 (p_shield (player s))); [cbn; auto|].
  destruct (Qleb _ 0) eqn:Hhp.
  - destruct (p_revives (player s)) eqn:Hr; cbn; rewrite Hr; cbn.
    + repeat split; auto. destruct (env_activeBoosters env DMG_RED); lra.
    + repeat split; auto; lra.
  - apply Qleb_gt in Hhp. cbn in *.
    repeat split; auto. destruct (env_activeBoosters env DMG_RED); lra.
Qed.

Lemma hp_ok_take_hit env s : hp_ok s -> hp_ok (take_hit env s).
Proof.
  unfold hp_ok, take_hit, incomingDamageMultiplier. intros (Hm & Hle & Hpos).
  destruct (Qltb 0 (p_shield (player s))).
  - destruct (3 <=? _)%nat; cbn; auto.
  - destruct (Qleb _ 0) eqn:Hhp.
    + destruct (p_revives (player s)) eqn:Hr; cbn; rewrite Hr; cbn.
      * repeat split; auto. destruct (env_activeBoosters env DMG_RED); lra.
      * repeat split; auto; lra.
    + apply Qleb_gt in Hhp. cbn in *.
      repeat split; auto. destruct (env_activeBoosters env DMG_RED); lra.
Qed.

Lemma hp_ok_kamikaze_logic env s i e : hp_ok s -> hp_ok (kamikaze_logic env s i e).
Proof.
  intros H. unfold kamikaze_logic. cbv zeta.
  match goal with |- context [write_enemy i ?e' s] => set (e1 := e') end.
  assert (H1 : hp_ok (write_enemy i e1 s)) by (revert H; apply hp_ok_kept; kept_now).
  destruct (dist_lt _ _ _ _ _); [|exact H1].
  eapply hp_ok_kept; [|apply hp_ok_kamikaze_hit].
  - kept_now.
  - revert H1. apply hp_ok_kept. apply keeps_createExplosion.
Qed.

Lemma hp_ok_mob_logic env s i e : hp_ok s -> hp_ok (mob_logic env s i e).
Proof.
  intros H. destruct (decide (e_type e = T_kamikaze)) as [Hk|Hk].
  - unfold mob_logic. rewrite Hk. now apply hp_ok_kamikaze_logic.
  - revert H. apply hp_ok_kept. now apply keeps_mob_logic_nonkamikaze.
Qed.

Lemma keeps_for_indices n body :
  (forall i, keeps (fun s => body s i)) -> keeps (for_indices n body).
Proof. intros H. unfold for_indices. now apply keeps_foldl. Qed.

Lemma keeps_clear_player_bullets env : keeps (clear_player_bullets env).
Proof.
  intros s. unfold clear_player_bullets. apply keeps_for_indices.
  intros j s'. split_ifs; kept_now.
Qed.

Lemma keeps_phase_transition env i e : keeps (fun s => phase_transition env s i e).
Proof.
  intros s. unfold phase_transition. cbv zeta.
  match goal with |- context [clear_player_bullets env ?w] => set (s1 := w) end.
  assert (H1 : hp_kept s s1) by (subst s1; kept_now).
  pose proof (keeps_clear_player_bullets env s1) as H2.
  pose proof (hp_kept_trans _ _ _ H1 H2) as H3.
  eapply hp_kept_trans; [exact H3|].
  unfold spawnGhostDrone. split_ifs; kept_now.
Qed.

Lemma hp_ok_enemy_step env s i : hp_ok s -> hp_ok (enemy_step env s i).
Proof.
  intros H. unfold enemy_step, with_enemy.
  destruct (enemies s !! i) as [e0|] eqn:He0; [|exact H].
  cbv zeta.
  set (e := manage_shield_timer e0).
  set (s0 := write_enemy i e s).
  assert (H0 : hp_ok s0) by (revert H; apply hp_ok_kept; kept_now).
  destruct (e_isGhost e && bool_decide (e_type e = T_drone)).
  { revert H0. apply hp_ok_kept. unfold ghost_drone, put_field.
    destruct (env_ghostLogic env s0 i) as [[? ?] ?]. split_ifs; kept_now. }
  match goal with |- context [transition_pause ?w i] => set (s1 := w) end.
  assert (H1 : hp_ok s1).
  { subst s1. destruct (_ && _); [|exact H0].
    revert H0. apply hp_ok_kept. apply keeps_phase_transition. }
  clearbody s1. clear H0 s0 H.
  destruct (transition_pause s1 i) as [s'|] eqn:Hp.
  { unfold transition_pause, with_enemy in Hp.
    destruct (enemies s1 !! i); [|discriminate].
    destruct (_ && _); [|discriminate]. injection Hp as <-.
    revert H1. apply hp_ok_kept. kept_now. }
  match goal with |- context [frozen_pause ?w i] => set (s2 := w) end.
  assert (H2 : hp_ok s2).
  { subst s2. revert H1. apply hp_ok_kept.
    unfold mini_boss_orbit, clone_motion, with_enemy. split_ifs; kept_now. }
  clearbody s2. clear H1 Hp s1.
  destruct (frozen_pause s2 i) as [s'|] eqn:Hf.
  { unfold frozen_pause, with_enemy in Hf.
    destruct (enemies s2 !! i); [|discriminate].
    destruct (e_frozenTimer _) as [[|t]|]; try discriminate. injection Hf as <-.
    revert H2. apply hp_ok_kept. kept_now. }
  set (s3 := upd_enemy i advance_timers s2).
  assert (H3 : hp_ok s3) by (revert H2; apply hp_ok_kept; kept_now).
  clearbody s3.
  destruct (enemies s3 !! i) as [e3|]; cbn; [|exact H3].
  assert (Hb : hp_ok (fst (behave env s3 i e3))).
  { unfold behave.
    destruct (e_type e3) eqn:Ht;
      try (cbn [fst]; now apply hp_ok_mob_logic).
    - revert H3. apply hp_ok_kept. unfold put_field.
      destruct (env_bossLogic env s3 i) as [[[? ?] ?] ?]. kept_now.
    - cbn [fst]. revert H3. apply hp_ok_kept.
      unfold seraph_drone_logic. split_ifs; kept_now.
    - cbn [fst]. revert H3. apply hp_ok_kept.
      unfold oracle_minion_logic, random. split_ifs; kept_now.
    - revert H3. apply hp_ok_kept. unfold put_field.
      destruct (env_bossLogic env s3 i) as [[[? ?] ?] ?]. kept_now.
    - cbn [fst]. revert H3. apply hp_ok_kept.
      unfold alp_reflector_logic. split_ifs; kept_now.
    - cbn [fst]. revert H3. apply hp_ok_kept. unfold put_field.
      destruct (env_miniBossLogic env s3 i) as [[? ?] ?]. kept_now. }
  destruct (behave env s3 i e3) as [s4 ret]. cbn [fst] in Hb.
  destruct ret; [exact Hb|]. revert Hb. apply hp_ok_kept. kept_now.
Qed.

Lemma keeps_bullet_step env j : keeps (fun s => bullet_step env s j).
Proof.
  intros s. unfold bullet_step, put_field. cbv zeta.
  match goal with |- context [env_bulletEdges env ?w j] =>
    destruct (env_bulletEdges env w j) as [[? ?] ?] end.
  match goal with |- context [env_bulletSpecial env ?w j] =>
    destruct (env_bulletSpecial env w j) as [[? ?] ?] end.
  kept_now.
Qed.

Lemma keeps_boss_defeated env : keeps (boss_defeated env).
Proof. intros s. unfold boss_defeated. split_ifs; kept_now. Qed.

Lemma keeps_payout env b i e : keeps (payout env b i e).
Proof.
  intros s. unfold payout, random. cbv zeta.
  match goal with |- context [boss_defeated env ?w] => set (s1 := w) end.
  assert (H1 : hp_kept s s1) by (subst s1; split_ifs; kept_now).
  clearbody s1. destruct (bool_decide _); [|exact H1].
  eapply hp_kept_trans; [exact H1|apply keeps_boss_defeated].
Qed.

Lemma keeps_settle_death env j i : keeps (settle_death env j i).
Proof.
  intros s. unfold settle_death.
  destruct (bullets s !! j); [|apply hp_kept_refl].
  destruct (enemies s !! i); [|apply hp_kept_refl].
  destruct (_ && _); [apply keeps_payout|apply hp_kept_refl].
Qed.

Lemma keeps_on_hit env j b e : keeps (on_hit env j b e).
Proof.
  intros s. unfold on_hit, random.
  destruct (_ && _ && _ && _).
  { split_ifs; kept_now. }
  destruct (_ && _).
  { split_ifs; kept_now. }
  destruct (b_piercing b).
  { split_ifs; kept_now. }
  split_ifs; kept_now.
Qed.

Lemma keeps_direct_hit env j i b e : keeps (direct_hit env j i b e).
Proof.
  intros s. unfold direct_hit.
  destruct (bool_decide _); [kept_now|]. cbv zeta.
  match goal with |- context [on_hit env j b e ?w] => set (s1 := w) end.
  assert (H1 : hp_kept s s1) by (subst s1; split_ifs; kept_now).
  clearbody s1. eapply hp_kept_trans; [exact H1|].
  eapply hp_kept_trans; [apply keeps_on_hit|apply keeps_settle_death].
Qed.

Lemma keeps_pair_step env j i : keeps (fun s => pair_step env j s i).
Proof.
  intros s. unfold pair_step.
  destruct (bullets s !! j); [|apply hp_kept_refl].
  destruct (enemies s !! i); [|apply hp_kept_refl].
  destruct (skips _ _); [apply hp_kept_refl|].
  destruct (reflects _ _); [kept_now|].
  destruct (shield_blocks _ _); [kept_now|].
  destruct (touches _ _); [apply keeps_direct_hit|apply hp_kept_refl].
Qed.

Lemma keeps_mine_step env j m : keeps (fun s => mine_step env j s m).
Proof. intros s. unfold mine_step. split_ifs; kept_now. Qed.

Lemma keeps_bullet_vs_enemies env j : keeps (fun s => bullet_vs_enemies env s j).
Proof.
  intros s. unfold bullet_vs_enemies.
  destruct (bullets s !! j); [|apply hp_kept_refl].
  destruct (b_isVortex _); [apply hp_kept_refl|].
  apply (hp_kept_trans _ (for_indices (length (enemies s)) (pair_step env j) s)).
  - apply (keeps_for_indices _ (pair_step env j)). intros i. apply keeps_pair_step.
  - unfold mine_check.
    match goal with |- hp_kept ?w _ => generalize w end. intros s1.
    destruct (bullets s1 !! j); [|apply hp_kept_refl].
    destruct (_ && _); [|apply hp_kept_refl].
    apply (keeps_foldl (mine_step env j)). intros m. apply keeps_mine_step.
Qed.

Lemma keeps_collide env : keeps (collide env).
Proof.
  intros s. unfold collide.
  apply (keeps_foldl (bullet_vs_enemies env)). intros j. apply keeps_bullet_vs_enemies.
Qed.

Lemma hp_ok_checkHit env x y size s :
  hp_ok s -> hp_ok (fst (checkHit env x y size s)).
Proof.
  intros H. unfold checkHit. cbv zeta.
  destruct (dist_lt _ _ _ _ _); [now apply hp_ok_take_hit|].
  destruct (dist_lt _ _ _ _ _); [|exact H].
  revert H. apply hp_ok_kept. kept_now.
Qed.

Lemma hp_ok_player_hits env s : hp_ok s -> hp_ok (player_hits env s).
Proof.
  intros H. unfold player_hits.
  destruct (p_invulnerableTime (player s)) eqn:Hi.
  - apply for_indices_invariant.
    + apply foldl_invariant; [exact H|].
      intros a j Ha. unfold enemy_bullet_vs_player.
      destruct (bullets a !! j); [|exact Ha].
      destruct (absorbing_orb _ _).
      { revert Ha. apply hp_ok_kept. kept_now. }
      cbv zeta. destruct (b_isLaser _).
      { destruct (Qltb _ _); [exact Ha|].
        destruct (_ && _ && _ && _); [now apply hp_ok_checkHit|exact Ha]. }
      pose proof (hp_ok_checkHit env (b_x b) (b_y b) (b_width b) a Ha) as Hc.
      destruct (checkHit _ _ _ _ _) as [s' hit]. cbn [fst] in Hc.
      destruct hit; [|exact Hc]. revert Hc. apply hp_ok_kept. kept_now.
    + intros a i Ha. unfold enemy_vs_player.
      destruct (enemies a !! i); [|exact Ha].
      destruct (e_isGhost _); [exact Ha|now apply hp_ok_checkHit].
  - revert H. apply hp_ok_kept. kept_now.
Qed.

Lemma keeps_prune : keeps prune.
Proof. intros s. kept_now. Qed.

Lemma keeps_strike_each env dmg rad : keeps (strike_each env dmg rad).
Proof.
  intros s. unfold strike_each. apply keeps_for_indices.
  intros i s'. split_ifs; kept_now.
Qed.

Lemma hp_ok_spell_effect env spellId lvl s :
  hp_ok s -> hp_ok (spell_effect env spellId lvl s).
Proof.
  intros H. destruct spellId; unfold spell_effect.
  - revert H. apply hp_ok_kept. kept_now.
  - cbv zeta. destruct (3 <=? lvl)%nat.
    + eapply hp_ok_kept; [apply keeps_strike_each|].
      revert H. apply hp_ok_kept. kept_now.
    + revert H. apply hp_ok_kept. kept_now.
  - revert H. apply hp_ok_kept. kept_now.
  - revert H. apply hp_ok_kept. kept_now.
  - eapply hp_ok_kept; [apply keeps_strike_each|exact H].
  - destruct H as (Hm & Hle & Hpos). unfold hp_ok.
    destruct (2 <=? lvl)%nat, (3 <=? lvl)%nat; cbn.
    all: repeat split; auto using Math_min_le_l.
    all: destruct Hpos as [Hpos|Hpos]; [left|right; exact Hpos].
    all: repeat apply Math_min_glb; try lra.
    all: match goal with |- 0 < ?a + _ =>
           assert (0 < a) by (repeat apply Math_min_glb; lra); lra end.
  - revert H. apply hp_ok_kept. kept_now.
  - revert H. apply hp_ok_kept. kept_now.
Qed.

Lemma hp_ok_activateSpell env index s : hp_ok s -> hp_ok (activateSpell env index s).
Proof.
  intros H. unfold activateSpell.
  destruct (_ !! index); [|exact H].
  destruct (_ !! index); [|exact H].
  destruct (Qleb _ 0); [|exact H]. cbv zeta.
  apply hp_ok_spell_effect. revert H. apply hp_ok_kept. kept_now.
Qed.

Lemma hp_ok_cast_spells env isShift s : hp_ok s -> hp_ok (cast_spells env isShift s).
Proof.
  intros H. unfold cast_spells. cbv zeta.
  eapply hp_ok_kept; [kept_now|].
  repeat match goal with
         | |- hp_ok (if ?c then _ else _) => destruct c
         | |- hp_ok (activateSpell _ _ _) => apply hp_ok_activateSpell
         end.
  all: revert H; apply hp_ok_kept; kept_now.
Qed.

Lemma hp_ok_regenerate env s : hp_ok s -> hp_ok (regenerate env s).
Proof.
  intros (Hm & Hle & Hpos). unfold regenerate, hp_ok. cbv zeta.
  destruct (_ && _ && _) eqn:Hc; cbn; auto.
  repeat split; auto using Math_min_le_l.
  destruct Hpos as [Hpos|Hpos]; [left|right; exact Hpos].
  apply Math_min_glb; lra.
Qed.

Lemma keeps_gravity env : keeps (gravity env).
Proof.
  intros s. unfold gravity, random. cbv zeta.
  destruct (if bossActive s then boss_index s else None) as [[i b0]|]; [|kept_now].
  split_ifs; repeat (case_match; cbn); kept_now.
Qed.

Lemma keeps_move_player env speed : keeps (move_player env speed).
Proof.
  intros s. unfold move_player, upd_player, hp_kept. cbn.
  repeat match goal with |- context [if ?c then _ else _] => destruct c end.
  all: cbn; auto.
Qed.

Lemma keeps_emit env wId lvl dmgMult : keeps (emit env wId lvl dmgMult).
Proof.
  intros s. destruct wId; unfold emit, random; cbv zeta.
  all: split_ifs; kept_now.
Qed.

Lemma keeps_fire env oc : keeps (fire env oc).
Proof.
  intros s. unfold fire.
  destruct (_ || _); [|apply hp_kept_refl].
  destruct (_ =? 0)%nat; [|apply hp_kept_refl].
  apply (keeps_foldl (fire_weapon env _)). intros w s'. unfold fire_weapon. cbv zeta.
  eapply hp_kept_trans; [|apply keeps_emit]. kept_now.
Qed.

Lemma keeps_spawn env : keeps (spawn env).
Proof.
  intros s. unfold spawn, put_field.
  destruct (env_spawnEnemy env s) as [[[[? ?] ?] ?] ?]. kept_now.
Qed.

Lemma keeps_tick_timers : keeps tick_timers.
Proof. intros s. kept_now. Qed.

Lemma keeps_practice_clock env s : hp_kept s (fst (practice_clock env s)).
Proof. unfold practice_clock. split_ifs; kept_now. Qed.

Lemma hp_ok_update env s : hp_ok s -> hp_ok (update env s).
Proof.
  intros H. unfold update.
  destruct (env_isPaused env); [exact H|].
  destruct (isGameOver s); [exact H|]. cbv zeta.
  match goal with |- context [practice_clock env ?w] => set (s0 := w) end.
  assert (H0 : hp_ok s0) by (revert H; apply hp_ok_kept; kept_now).
  clearbody s0.
  pose proof (hp_ok_kept _ _ (keeps_practice_clock env s0) H0) as H1.
  destruct (practice_clock env s0) as [s1 done]. cbn [fst] in H1.
  destruct done; [exact H1|].
  eapply hp_ok_kept; [apply keeps_prune|].
  apply hp_ok_player_hits.
  eapply hp_ok_kept; [apply keeps_collide|].
  eapply hp_ok_kept; [apply keeps_for_indices; intros j; apply keeps_bullet_step|].
  apply for_indices_invariant; [|intros; now apply hp_ok_enemy_step].
  eapply hp_ok_kept; [apply keeps_spawn|].
  eapply hp_ok_kept; [apply keeps_fire|].
  eapply hp_ok_kept; [apply keeps_move_player|].
  eapply hp_ok_kept; [apply keeps_gravity|].
  apply hp_ok_regenerate. apply hp_ok_cast_spells.
  eapply hp_ok_kept; [apply keeps_tick_timers|exact H1].
Qed.

(** C1 (as amended).  Over any number of steps the hit points of the player
    stay at or below [maxHp] (regeneration and heals are capped by
    [Math.min]), and they stay above zero unless the run has been ended: the
    damage that ends a run leaves the hit points at their non-positive value,
    nothing clamps them at zero. *)
Theorem player_hp_within_bounds env n s :
  hp_ok s -> hp_ok (Nat.iter n (update env) s).
Proof.
  intros H. induction n as [|n IH]; cbn; [exact H|].
  now apply hp_ok_update.
Qed.

Lemma player_hp_within_bounds_witness :
  hp_ok (Nat.iter 3 (update quiet_env) world_last_hit).
Proof.
  apply (player_hp_within_bounds quiet_env 3 world_last_hit).
  unfold hp_ok. cbn. split; [lra|]. split; [lra|left; lra].
Defined.

(** C1 as stated fails: the player at 10 hit points, without shield or
    revive, is hit for 20; the step ends with -10 hit points. *)
Lemma hp_below_zero_after_loss :
  let s' := update quiet_env world_wounded in
  ~ (0 <= p_hp (player s') /\ p_hp (player s') <= p_maxHp (player s')).
Proof.
  cbv zeta. intros [H _]. vm_compute in H. apply H. reflexivity.
Qed.

(** ** Outcome events and death payouts: where the code falls short *)

(** C2.  The code emits two outcome events in one step: two shots touch a
    player who has 20 hit points, no shield and no revive.  The first hit
    flags the run as over and calls [onGameOver]; [checkHit] looks neither at
    that flag nor at the invulnerability counter again, so the second hit of
    the same step calls [onGameOver] once more.  And the victory over the
    boss of the last stage calls [onGameOver] without setting [isGameOver]:
    the next call of [update] steps the world on. *)
Theorem two_lethal_hits_two_events :
  (let s' := update quiet_env world_two_shots in
   isGameOver s' = true
   /\ events s' = [loss_event world_two_shots; loss_event world_two_shots])
  /\ (let s' := update quiet_env world_final_boss in
      map ev_win (events s') = [true] /\ isGameOver s' = false
      /\ frame (update quiet_env s') = S (frame s')).
Proof. vm_compute. repeat split. Qed.

(** C3.  The code pays nothing for an enemy that splash damage brings to zero:
    the rocket hits the tank and its explosion takes the swarmer beside it
    from 5 to -5 hit points; [createExplosion] only subtracts, the payout of
    lines 1892-1911 is reached for the enemy that was hit directly, so at the
    end of the step the swarmer is in the world, not dead, and nothing was
    scored, counted or dropped for it. *)
Theorem splash_kill_pays_nothing :
  let s' := update quiet_env world_splash in
  match enemies s' !! 1%nat with
  | Some e => e_id e = "B" /\ e_hp e < 0 /\ e_dead e = false
  | None => False
  end
  /\ kills s' = 0%nat /\ score s' = 0%Z /\ dataFragments s' = 0%Z.
Proof. vm_compute. repeat split. Qed.
(** ** The callback of the enemy loop *)

Lemma manage_shield_timer_keeps e :
  e_type (manage_shield_timer e) = e_type e
  /\ e_phase (manage_shield_timer e) = e_phase e
  /\ e_hp (manage_shield_timer e) = e_hp e
  /\ e_maxHp (manage_shield_timer e) = e_maxHp e
  /\ e_phaseTransitionTimer (manage_shield_timer e) = e_phaseTransitionTimer e
  /\ e_isGhost (manage_shield_timer e) = e_isGhost e.
Proof.
  unfold manage_shield_timer.
  destruct (e_dmgReductionTimer e) as [[|t]|]; [| destruct (t =? 0)%nat |];
    cbn; repeat split; reflexivity.
Qed.


Lemma lookup_write_enemy i e s :
  (i < length (enemies s))%nat -> enemies (write_enemy i e s) !! i = Some e.
Proof. intros H. cbn. now apply list_lookup_insert_eq. Qed.

Lemma alter_insert_same {A} (f : A -> A) i x (l : list A) :
  alter f i (<[i := x]> l) = <[i := f x]> l.
Proof. revert i. induction l as [|a l IH]; intros [|i]; cbn; auto. now rewrite IH. Qed.

Lemma upd_write_enemy i f e s :
  upd_enemy i f (write_enemy i e s) = write_enemy i (f e) s.
Proof.
  unfold upd_enemy, write_enemy. destruct s. cbn.
  now rewrite alter_insert_same.
Qed.


Lemma clone_motion_other env s i e :
  enemies s !! i = Some e -> e_type e <> T_boss_clone -> clone_motion env s i = s.
Proof.
  intros He Ht. unfold clone_motion, with_enemy.
  now rewrite He, (bool_decide_false _ Ht).
Qed.

Lemma mini_boss_orbit_other env s i e :
  enemies s !! i = Some e -> e_type e <> T_alp_mini_boss -> mini_boss_orbit env s i = s.
Proof.
  intros He Ht. unfold mini_boss_orbit, with_enemy.
  now rewrite He, (bool_decide_false _ Ht).
Qed.







(** * The boss phase transition (893-937) *)

Lemma no_hp_explode x y r d l :
  map no_hp (map (explode_enemy x y r d) l) = map no_hp l.
Proof.
  rewrite map_map. apply map_ext. intros e. unfold explode_enemy. break_ifs; reflexivity.
Qed.

Lemma clear_player_bullets_spec env s :
  bullets (clear_player_bullets env s) = map clear_one (bullets s)
  /\ map no_hp (enemies (clear_player_bullets env s)) = map no_hp (enemies s)
  /\ rng (clear_player_bullets env s) = rng s.
Proof.
  unfold clear_player_bullets.
  set (n := length (bullets s)).
  pose (P := fun (k : nat) (st : State) =>
    length (bullets st) = n
    /\ (forall j, (j < k)%nat -> bullets st !! j = clear_one <$> bullets s !! j)
    /\ (forall j, (k <= j)%nat -> bullets st !! j = bullets s !! j)
    /\ map no_hp (enemies st) = map no_hp (enemies s)
    /\ rng st = rng s).
  assert (HP : P n (for_indices n (fun s j =>
      match bullets s !! j with
      | Some b =>
          if bool_decide (b_owner b = by_player)
          then upd_bullet j (set_b_dead true) (createExplosion env (b_x b) (b_y b) 20 0 s)
          else s
      | None => s
      end) s)).
  { apply for_indices_ind.
    - unfold P. repeat split; auto. intros j Hj. lia.
    - intros k st Hk (Hlen & Hlt & Hge & Hen & Hr).
      assert (Hk' : bullets st !! k = bullets s !! k) by (apply Hge; lia).
      destruct (bullets s !! k) as [b|] eqn:Hb.
      2:{ apply lookup_ge_None in Hb. unfold n in Hk. lia. }
      rewrite Hk'. unfold P.
      destruct (bool_decide (b_owner b = by_player)) eqn:Ho; cbn.
      + rewrite length_alter. split; [exact Hlen|].
        split.
        { intros j Hj. destruct (decide (j = k)) as [->|Hne].
          - rewrite list_lookup_alter_eq, Hk', Hb. cbn. unfold clear_one. now rewrite Ho.
          - rewrite list_lookup_alter_ne by congruence. apply Hlt. lia. }
        split.
        { intros j Hj. rewrite list_lookup_alter_ne by lia. apply Hge. lia. }
        split; [|exact Hr]. rewrite no_hp_explode. exact Hen.
      + split; [exact Hlen|]. split.
        { intros j Hj. destruct (decide (j = k)) as [->|Hne].
          - rewrite Hk', Hb. cbn. unfold clear_one. now rewrite Ho.
          - apply Hlt. lia. }
        split; [|split; [exact Hen|exact Hr]].
        intros j Hj. apply Hge. lia. }
  destruct HP as (Hlen & Hlt & _ & Hen & Hr).
  split; [|split; [exact Hen|exact Hr]].
  apply list_eq. intros j.
  change (map clear_one (bullets s)) with (clear_one <$> bullets s).
  rewrite list_lookup_fmap.
  destruct (decide (j < n)%nat) as [Hj|Hj]; [now apply Hlt|].
  rewrite (lookup_ge_None_2 (bullets s)) by (unfold n in Hj; lia).
  apply lookup_ge_None_2. lia.
Qed.

Lemma no_hp_lookup (l l' : list Enemy) i e :
  map no_hp l' = map no_hp l -> l !! i = Some e ->
  exists e', l' !! i = Some e' /\ no_hp e' = no_hp e.
Proof.
  intros Hm Hl.
  assert (H : (no_hp <$> l') !! i = (no_hp <$> l) !! i).
  { change (map no_hp l' !! i = map no_hp l !! i). now rewrite Hm. }
  rewrite !list_lookup_fmap, Hl in H.
  destruct (l' !! i) as [e'|]; [|discriminate].
  change (Some (no_hp e') = Some (no_hp e)) in H. apply (inj Some) in H.
  exists e'. split; [reflexivity|exact H].
Qed.

(* fields of an enemy that [no_hp] keeps *)

Lemma no_hp_fields e e' :
  no_hp e' = no_hp e ->
  e_type e' = e_type e /\ e_phase e' = e_phase e
  /\ e_dmgReduction e' = e_dmgReduction e
  /\ e_dmgReductionTimer e' = e_dmgReductionTimer e
  /\ e_phaseTransitionTimer e' = e_phaseTransitionTimer e
  /\ e_fightStartFrame e' = e_fightStartFrame e.
Proof.
  intros H.
  repeat split.
  - change (e_type (no_hp e') = e_type (no_hp e)). now rewrite H.
  - change (e_phase (no_hp e') = e_phase (no_hp e)). now rewrite H.
  - change (e_dmgReduction (no_hp e') = e_dmgReduction (no_hp e)). now rewrite H.
  - change (e_dmgReductionTimer (no_hp e') = e_dmgReductionTimer (no_hp e)). now rewrite H.
  - change (e_phaseTransitionTimer (no_hp e') = e_phaseTransitionTimer (no_hp e)). now rewrite H.
  - change (e_fightStartFrame (no_hp e') = e_fightStartFrame (no_hp e)). now rewrite H.
Qed.

Lemma no_hp_explode_one x y r d e : no_hp (explode_enemy x y r d e) = no_hp e.
Proof. unfold explode_enemy. break_ifs; reflexivity. Qed.

Lemma phase_transition_spec env s i e :
  (i < length (enemies s))%nat ->
  bullets (phase_transition env s i e) = map clear_one (bullets s)
  /\ exists e', enemies (phase_transition env s i e) !! i = Some e'
                /\ no_hp e' = no_hp (triggered e).
Proof.
  intros Hi. unfold phase_transition. cbv zeta. fold (triggered e).
  set (s1 := createExplosion env _ _ 200 0 (write_enemy i (triggered e) s)).
  assert (Hbs : bullets s1 = bullets s) by reflexivity.
  assert (Hs1 : exists e0, enemies s1 !! i = Some e0 /\ no_hp e0 = no_hp (triggered e)).
  { subst s1. unfold createExplosion, write_enemy. cbn [enemies set_enemies].
    change (map ?f ?l) with (f <$> l). rewrite list_lookup_fmap.
    rewrite list_lookup_insert_eq by exact Hi. cbn [fmap option_fmap option_map].
    eexists. split; [reflexivity|]. apply no_hp_explode_one. }
  clearbody s1.
  destruct (clear_player_bullets_spec env s1) as (Hb & He & _).
  rewrite Hbs in Hb. clear Hbs.
  destruct Hs1 as (e0 & Hs1 & Hn0).
  destruct (no_hp_lookup _ _ i e0 He Hs1) as (e1 & H1 & H2).
  clear He Hs1.
  set (s2 := clear_player_bullets env s1) in *. clearbody s2. clear s1.
  assert (Hlen : (i < length (enemies s2))%nat) by (eapply lookup_lt_Some; eauto).
  set (s3 := if bool_decide (e_variant (triggered e) = Some V_somniomancer)
             then push_enemies [replica (triggered e)] s2 else s2).
  assert (H3 : bullets s3 = bullets s2 /\ enemies s3 !! i = Some e1).
  { subst s3. destruct (bool_decide _); [|auto]. cbn.
    rewrite lookup_app_l by exact Hlen. auto. }
  clearbody s3. destruct H3 as [Hb3 He3].
  assert (Hlen3 : (i < length (enemies s3))%nat) by (eapply lookup_lt_Some; eauto).
  destruct (bool_decide (e_variant (triggered e) = Some V_alptraum)).
  - unfold spawnGhostDrone, random. cbn. rewrite lookup_app_l by exact Hlen3.
    rewrite Hb3, Hb. split; [reflexivity|]. exists e1. split; [exact He3|congruence].
  - rewrite Hb3, Hb. split; [reflexivity|]. exists e1. split; [exact He3|congruence].
Qed.

Lemma boss_enters_phase2 env s i e :
  enemies s !! i = Some e -> e_type e = T_boss ->
  e_phase e = Some 1%nat -> e_hp e < e_maxHp e * 0.4 ->
  bullets (enemy_step env s i) = map clear_one (bullets s)
  /\ exists e', enemies (enemy_step env s i) !! i = Some e'
       /\ e_type e' = T_boss /\ e_phase e' = Some 2%nat
       /\ e_dmgReduction e' = Some 0.5
       /\ e_dmgReductionTimer e' = Some 300%nat
       /\ e_phaseTransitionTimer e' = Some 119%nat.
Proof.
  intros He Ht Hp Hhp.
  assert (Hi : (i < length (enemies s))%nat) by (eapply lookup_lt_Some; eauto).
  unfold enemy_step, with_enemy. rewrite He. cbv zeta.
  destruct (manage_shield_timer_keeps e) as (Mt & Mp & Mh & Mm & Mtt & Mg).
  set (e1 := manage_shield_timer e) in *.
  rewrite Mt, Ht. rewrite (bool_decide_false (T_boss = T_drone)) by discriminate.
  rewrite andb_false_r. rewrite bool_decide_true by reflexivity.
  assert (Hdue : phase2_due e1 = true).
  { unfold phase2_due. rewrite Mp, Hp, Mh, Mm. rewrite bool_decide_true by reflexivity.
    now apply Qltb_lt. }
  rewrite Hdue. cbn [andb].
  assert (Hi1 : (i < length (enemies (write_enemy i e1 s)))%nat)
    by (cbn; now rewrite length_insert).
  destruct (phase_transition_spec env (write_enemy i e1 s) i e1 Hi1)
    as (Hb & e2 & He2 & Hn2).
  set (s2 := phase_transition env (write_enemy i e1 s) i e1) in *. clearbody s2.
  destruct (no_hp_fields _ _ Hn2) as (Ft & Fp & Fr & Frt & Ftt & Ff).
  unfold transition_pause, with_enemy. rewrite He2, Ft.
  change (e_type (triggered e1)) with (e_type e1). rewrite Mt, Ht.
  rewrite bool_decide_true by reflexivity. rewrite Ftt. cbn [andb positive_timer triggered].
  cbn. split; [exact Hb|].
  rewrite list_lookup_insert_eq by (eapply lookup_lt_Some; eauto).
  eexists. split; [reflexivity|]. cbn. rewrite Ft, Fp, Fr, Frt.
  cbn. rewrite Mt, Ht. repeat split; reflexivity.
Qed.

Lemma shield_holds e k t :
  e_dmgReduction e = Some 0.5 -> e_dmgReductionTimer e = Some t ->
  e_dmgReductionTimer (Nat.iter k manage_shield_timer e) = Some (t - k)%nat
  /\ e_dmgReduction (Nat.iter k manage_shield_timer e)
     = if (k <? t)%nat then Some 0.5 else if (t =? 0)%nat then Some 0.5 else Some 0.
Proof.
  intros Hr Ht. induction k as [|k IH].
  - cbn. rewrite Nat.sub_0_r. split; [exact Ht|].
    destruct t; cbn; auto.
  - destruct IH as (IHt & IHr).
    change (Nat.iter (S k) manage_shield_timer e)
      with (manage_shield_timer (Nat.iter k manage_shield_timer e)).
    set (ek := Nat.iter k manage_shield_timer e) in *. clearbody ek.
    unfold manage_shield_timer.
    destruct (t - k)%nat as [|d] eqn:Hd; rewrite IHt.
    + split; [rewrite IHt; f_equal; lia|]. rewrite IHr.
      destruct (Nat.ltb_spec k t); [lia|].
      destruct (Nat.ltb_spec (S k) t); [lia|]. reflexivity.
    + destruct (Nat.eqb_spec d 0).
      * split; [cbn; f_equal; lia|].
        destruct (Nat.ltb_spec (S k) t); [lia|].
        destruct (Nat.eqb_spec t 0); [lia|]. reflexivity.
      * split; [cbn; f_equal; lia|].
        change (e_dmgReduction (set_e_dmgReductionTimer (Some d) ek))
          with (e_dmgReduction ek). rewrite IHr.
        destruct (Nat.ltb_spec k t); [|lia].
        destruct (Nat.ltb_spec (S k) t); [|lia]. reflexivity.
Qed.

(** ** The step of a boss *)

Lemma update_stages env s :
  runs env s = true -> update env s = prune (before_prune env s).
Proof.
  unfold runs, update, before_prune, enemy_pass_start.
  destruct (env_isPaused env); [discriminate|].
  destruct (isGameOver s); [discriminate|].
  cbn [negb andb].
  destruct (practice_clock env _) as [s1 done]. cbn [fst snd].
  destruct done; [discriminate|]. reflexivity.
Qed.

(** ** The phase view through the step *)

Lemma kv_refl i s : kv i s s.
Proof. intros e He. exists e. auto. Qed.

Lemma kv_trans i s1 s2 s3 : kv i s1 s2 -> kv i s2 s3 -> kv i s1 s3.
Proof.
  intros H1 H2 e He. destruct (H1 e He) as (e2 & He2 & V2).
  destruct (H2 e2 He2) as (e3 & He3 & V3). exists e3. split; [exact He3|congruence].
Qed.

Lemma kv_eq i s s' : enemies s' = enemies s -> kv i s s'.
Proof. unfold kv. intros ->. intros e He. exists e. auto. Qed.

Lemma kv_write i k x s : k <> i -> kv i s (write_enemy k x s).
Proof.
  intros Hk e He. exists e. split; [|reflexivity].
  cbn. rewrite list_lookup_insert_ne by exact Hk. exact He.
Qed.

Lemma kv_upd_ne i k f s : k <> i -> kv i s (upd_enemy k f s).
Proof.
  intros Hk e He. exists e. split; [|reflexivity].
  cbn. rewrite list_lookup_alter_ne by exact Hk. exact He.
Qed.

Lemma kv_upd i k f s :
  (forall e, phase_view (f e) = phase_view e) -> kv i s (upd_enemy k f s).
Proof.
  intros Hf e He. destruct (decide (k = i)) as [->|Hk].
  - exists (f e). split; [|apply Hf]. cbn. rewrite list_lookup_alter_eq, He. reflexivity.
  - now apply kv_upd_ne.
Qed.

Lemma kv_map i f s :
  (forall e, phase_view (f e) = phase_view e) ->
  kv i s (set_enemies (map f (enemies s)) s).
Proof.
  intros Hf e He. exists (f e). split; [|apply Hf].
  cbn. change (map f (enemies s)) with (f <$> enemies s).
  rewrite list_lookup_fmap, He. reflexivity.
Qed.

Lemma view_explode x y r d e : phase_view (explode_enemy x y r d e) = phase_view e.
Proof. unfold explode_enemy. break_ifs; reflexivity. Qed.

Lemma kv_explosion i env x y r d s : kv i s (createExplosion env x y r d s).
Proof. apply kv_map. intros e. apply view_explode. Qed.

Lemma kv_push i l s : kv i s (push_enemies l s).
Proof.
  intros e He. exists e. split; [|reflexivity].
  cbn. rewrite lookup_app_l by (eapply lookup_lt_Some; eauto). exact He.
Qed.

Lemma kv_put_field i f s :
  views_kept (enemies s) f.1.1 -> kv i s (put_field f s).
Proof. intros H. destruct f as [[es bs] r]. exact (H i). Qed.

Lemma kv_foldl {B} i (f : State -> B -> State) l s :
  (forall a b, kv i a (f a b)) -> kv i s (foldl f s l).
Proof.
  intros Hf. apply (foldl_invariant (kv i s)); [apply kv_refl|].
  intros a b Ha. eapply kv_trans; [exact Ha|apply Hf].
Qed.

Lemma kv_for_indices i n body s :
  (forall a k, kv i a (body a k)) -> kv i s (for_indices n body s).
Proof. intros H. unfold for_indices. now apply kv_foldl. Qed.

Create HintDb kvdb.

Lemma kv_let i s (v : State) (b : State -> State) :
  kv i s v -> (forall x, kv i s x -> kv i s (b x)) -> kv i s (let x := v in b x).
Proof. intros Hv Hb. exact (Hb v Hv). Qed.

Ltac destruct_inner c :=
  lazymatch c with
  | match ?d with _ => _ end => destruct_inner d
  | _ => destruct c
  end.

(** One layer of a state expression is taken off the goal; a state bound by
    [let] is replaced by a variable once it is known to keep the view. *)
Ltac kv_peel :=
  first
  [ assumption
  | match goal with |- kv _ ?a ?b => constr_eq a b end; apply kv_refl
  | lazymatch goal with
    | |- kv ?i ?s (let x := ?v in @?b x) =>
        lazymatch type of v with
        | State => apply (kv_let i s v b); [|intros ? ?]
        | _ => change (kv i s (b v))
        end
    | |- kv ?i ?s (write_enemy ?k ?x ?s1) =>
        apply (kv_trans i s s1); [|apply kv_write; solve [assumption|congruence]]
    | |- kv ?i ?s (upd_enemy ?k ?f ?s1) =>
        apply (kv_trans i s s1);
        [|first [ apply kv_upd; intros; solve [reflexivity|break_ifs; reflexivity]
                | apply kv_upd_ne; solve [assumption|congruence] ]]
    | |- kv ?i ?s (createExplosion ?env ?x ?y ?r ?d ?s1) =>
        apply (kv_trans i s s1); [|apply kv_explosion]
    | |- kv ?i ?s (push_enemies ?l ?s1) =>
        apply (kv_trans i s s1); [|apply kv_push]
    | |- kv ?i ?s (match ?c with _ => _ end) => destruct_inner c
    | |- kv ?i ?s (foldl ?f ?s1 ?l) =>
        apply (kv_trans i s s1); [|apply kv_foldl; intros ? ?]
    | |- kv ?i ?s (for_indices ?n ?f ?s1) =>
        apply (kv_trans i s s1); [|apply kv_for_indices; intros ? ?]
    | |- kv ?i ?s (?f ?s1) =>
        apply (kv_trans i s s1);
        [|first [solve [auto with kvdb] | apply kv_eq; reflexivity]]
    end ].

Ltac kv_auto :=
  cbv delta [random]; cbv beta iota; repeat (kv_peel; cbv beta iota).

Ltac kv_by f := cbv delta [f]; kv_auto.

Lemma kv_strike_each i env dmg rad s : kv i s (strike_each env dmg rad s).
Proof. kv_by strike_each. Qed.

#[local] Hint Resolve kv_strike_each : kvdb.

Lemma kv_spell_effect i env sp lvl s : kv i s (spell_effect env sp lvl s).
Proof.
  destruct sp; kv_by spell_effect.
  all: apply kv_map; intros; reflexivity.
Qed.
#[local] Hint Resolve kv_spell_effect : kvdb.

Lemma kv_activateSpell i env index s : kv i s (activateSpell env index s).
Proof. kv_by activateSpell. Qed.
#[local] Hint Resolve kv_activateSpell : kvdb.

Lemma kv_cast_spells i env isShift s : kv i s (cast_spells env isShift s).
Proof. kv_by cast_spells. Qed.
#[local] Hint Resolve kv_cast_spells : kvdb.

Lemma kv_regenerate i env s : kv i s (regenerate env s).
Proof. kv_by regenerate. Qed.
#[local] Hint Resolve kv_regenerate : kvdb.

Lemma kv_gravity i env s : kv i s (gravity env s).
Proof. kv_by gravity. Qed.
#[local] Hint Resolve kv_gravity : kvdb.

Lemma enemies_emit env wId lvl dmgMult s :
  enemies (emit env wId lvl dmgMult s) = enemies s.
Proof.
  destruct wId; unfold emit, random; cbv zeta.
  all: break_ifs; reflexivity.
Qed.

Lemma kv_fire i env oc s : kv i s (fire env oc s).
Proof.
  apply kv_eq. unfold fire.
  destruct (_ || _); [|reflexivity].
  destruct (_ =? 0)%nat; [|reflexivity].
  apply (foldl_invariant (fun st => enemies st = enemies s)); [reflexivity|].
  intros a w Ha. unfold fire_weapon. cbv zeta. now rewrite enemies_emit.
Qed.
#[local] Hint Resolve kv_fire : kvdb.

Lemma kv_spawn i env s : env_keeps_views env -> kv i s (spawn env s).
Proof.
  intros (Hsp & _). unfold spawn. specialize (Hsp s).
  destruct (env_spawnEnemy env s) as [[f a] r]. cbn [fst] in Hsp.
  apply (kv_put_field i f s) in Hsp. exact Hsp.
Qed.

Lemma enemies_practice_clock env s : enemies (practice_clock env s).1 = enemies s.
Proof.
  unfold practice_clock. destruct (env_practiceMode env); [|reflexivity].
  destruct (_ =? 0)%nat; [|reflexivity]. destruct (_ && _); reflexivity.
Qed.

Lemma kv_enemy_pass_start i env s :
  env_keeps_views env -> kv i s (enemy_pass_start env s).
Proof.
  intros Henv. unfold enemy_pass_start. cbv zeta.
  eapply kv_trans; [|apply kv_spawn, Henv].
  do 6 kv_peel.
  apply kv_eq. now rewrite enemies_practice_clock.
Qed.

(** *** The loop over the enemies, for the callbacks of the others *)

Lemma kv_revive i env s : kv i s (revive env s).
Proof. kv_by revive. Qed.
#[local] Hint Resolve kv_revive : kvdb.

Lemma kv_lose i s : kv i s (lose s).
Proof. apply kv_eq. reflexivity. Qed.
#[local] Hint Resolve kv_lose : kvdb.

Lemma kv_kamikaze_hit i env s : kv i s (kamikaze_hit env s).
Proof. kv_by kamikaze_hit. Qed.
#[local] Hint Resolve kv_kamikaze_hit : kvdb.

Lemma kv_kamikaze_logic i env s k e : k <> i -> kv i s (kamikaze_logic env s k e).
Proof. intros Hk. kv_by kamikaze_logic. Qed.

Lemma kv_mob_logic i env s k e : k <> i -> kv i s (mob_logic env s k e).
Proof.
  intros Hk. cbv delta [mob_logic]. cbv beta.
  destruct (e_type e); try apply kv_refl; try (apply kv_kamikaze_logic; exact Hk).
  all: cbv zeta; kv_auto.
Qed.

Lemma kv_alp_reflector_logic i s k e : k <> i -> kv i s (alp_reflector_logic s k e).
Proof. intros Hk. kv_by alp_reflector_logic. Qed.

Lemma kv_seraph_drone_logic i env s k e : k <> i -> kv i s (seraph_drone_logic env s k e).
Proof. intros Hk. kv_by seraph_drone_logic. Qed.

Lemma kv_oracle_minion_logic i env s k e : k <> i -> kv i s (oracle_minion_logic env s k e).
Proof. intros Hk. kv_by oracle_minion_logic. Qed.

Lemma kv_ghost_drone i env s k e :
  env_keeps_views env -> k <> i -> kv i s (ghost_drone env s k e).
Proof.
  intros (_ & Hg & _) Hk. cbv delta [ghost_drone]. cbv beta.
  destruct (negb (bossActive s)); [kv_auto|].
  apply kv_put_field, Hg.
Qed.

Lemma kv_clear_player_bullets i env s : kv i s (clear_player_bullets env s).
Proof. kv_by clear_player_bullets. Qed.
#[local] Hint Resolve kv_clear_player_bullets : kvdb.

Lemma kv_spawnGhostDrone i env ty x y s : kv i s (spawnGhostDrone env ty x y s).
Proof. cbv delta [spawnGhostDrone]. cbv beta zeta. kv_auto. Qed.
#[local] Hint Resolve kv_spawnGhostDrone : kvdb.

Lemma kv_phase_transition i env s k e :
  k <> i -> kv i s (phase_transition env s k e).
Proof. intros Hk. kv_by phase_transition. Qed.

Lemma kv_transition_pause i s k s' :
  k <> i -> transition_pause s k = Some s' -> kv i s s'.
Proof.
  intros Hk. unfold transition_pause, with_enemy.
  destruct (enemies s !! k); [|discriminate].
  destruct (_ && _); [|discriminate]. intros [= <-]. now apply kv_write.
Qed.

Lemma kv_clone_motion i env s k : k <> i -> kv i s (clone_motion env s k).
Proof. intros Hk. cbv delta [clone_motion with_enemy]. kv_auto. Qed.

Lemma kv_mini_boss_orbit i env s k : k <> i -> kv i s (mini_boss_orbit env s k).
Proof. intros Hk. cbv delta [mini_boss_orbit with_enemy]. kv_auto. Qed.

Lemma kv_frozen_pause i s k s' :
  k <> i -> frozen_pause s k = Some s' -> kv i s s'.
Proof.
  intros Hk. unfold frozen_pause, with_enemy.
  destruct (enemies s !! k) as [e|]; [|discriminate].
  destruct (e_frozenTimer e) as [[|t]|]; try discriminate.
  intros [= <-]. now apply kv_write.
Qed.

Lemma kv_behave i env s k e :
  env_keeps_views env -> k <> i -> kv i s (behave env s k e).1.
Proof.
  intros (_ & _ & Hb & Hm & _) Hk. unfold behave.
  destruct (e_type e); cbn [fst].
  all: try (apply kv_mob_logic; exact Hk).
  all: try (apply kv_seraph_drone_logic; exact Hk).
  all: try (apply kv_oracle_minion_logic; exact Hk).
  all: try (apply kv_alp_reflector_logic; exact Hk).
  all: try (apply kv_put_field, Hm).
  all: specialize (Hb s k); destruct (env_bossLogic env s k) as [f ret];
    cbn [fst]; apply kv_put_field, Hb.
Qed.

(** The callback of another enemy leaves the phase view alone. *)
Lemma kv_enemy_step i env s k :
  env_keeps_views env -> k <> i -> kv i s (enemy_step env s k).
Proof.
  intros Henv Hk. unfold enemy_step, with_enemy.
  destruct (enemies s !! k) as [e0|]; [|apply kv_refl].
  cbv zeta.
  set (e := manage_shield_timer e0).
  assert (H1 : kv i s (write_enemy k e s)) by now apply kv_write.
  set (s1 := write_enemy k e s) in *. clearbody s1.
  destruct (_ && _).
  { eapply kv_trans; [exact H1|]. now apply kv_ghost_drone. }
  assert (H2 : kv i s (if bool_decide (e_type e = T_boss) && phase2_due e
                       then phase_transition env s1 k e else s1)).
  { destruct (_ && _); [|exact H1].
    eapply kv_trans; [exact H1|]. now apply kv_phase_transition. }
  set (s2 := if bool_decide (e_type e = T_boss) && phase2_due e
             then phase_transition env s1 k e else s1) in *. clearbody s2.
  destruct (transition_pause s2 k) as [s'|] eqn:Hp.
  { eapply kv_trans; [exact H2|]. eapply kv_transition_pause; eauto. }
  assert (H3 : kv i s (mini_boss_orbit env (clone_motion env s2 k) k)).
  { eapply kv_trans; [exact H2|].
    eapply kv_trans; [apply kv_clone_motion, Hk|apply kv_mini_boss_orbit, Hk]. }
  set (s3 := mini_boss_orbit env (clone_motion env s2 k) k) in *. clearbody s3.
  destruct (frozen_pause s3 k) as [s'|] eqn:Hf.
  { eapply kv_trans; [exact H3|]. eapply kv_frozen_pause; eauto. }
  assert (H4 : kv i s (upd_enemy k advance_timers s3)).
  { eapply kv_trans; [exact H3|]. now apply kv_upd_ne. }
  set (s4 := upd_enemy k advance_timers s3) in *. clearbody s4.
  destruct (enemies s4 !! k) as [e4|]; [|exact H4].
  pose proof (kv_behave i env s4 k e4 Henv Hk) as H5.
  destruct (behave env s4 k e4) as [s5 ret]. cbn [fst] in H5.
  assert (H6 : kv i s s5) by (eapply kv_trans; eauto).
  destruct ret; [exact H6|].
  eapply kv_trans; [exact H6|]. now apply kv_upd_ne.
Qed.

(** *** The projectiles, the collisions and the hits on the player *)

Lemma kv_bullet_step i env s j :
  env_keeps_views env -> kv i s (bullet_step env s j).
Proof.
  intros (_ & _ & _ & _ & Hsp & Hed). unfold bullet_step. cbv zeta.
  eapply kv_trans; [|apply kv_put_field, Hed].
  eapply kv_trans; [|apply kv_eq; reflexivity].
  eapply kv_trans; [|apply kv_put_field, Hsp].
  apply kv_eq. reflexivity.
Qed.

Lemma kv_cascade i s : kv i s (cascade s).
Proof. apply kv_map. intros e. destruct (is_dependent e); reflexivity. Qed.
#[local] Hint Resolve kv_cascade : kvdb.

Lemma kv_boss_defeated i env s : kv i s (boss_defeated env s).
Proof. kv_by boss_defeated. Qed.
#[local] Hint Resolve kv_boss_defeated : kvdb.

Lemma kv_payout i env b k e s : kv i s (payout env b k e s).
Proof. kv_by payout. Qed.
#[local] Hint Resolve kv_payout : kvdb.

Lemma kv_settle_death i env j k s : kv i s (settle_death env j k s).
Proof. kv_by settle_death. Qed.
#[local] Hint Resolve kv_settle_death : kvdb.

Lemma kv_on_hit i env j b e s : kv i s (on_hit env j b e s).
Proof. kv_by on_hit. Qed.
#[local] Hint Resolve kv_on_hit : kvdb.

Lemma kv_direct_hit i env j k b e s : kv i s (direct_hit env j k b e s).
Proof. kv_by direct_hit. Qed.
#[local] Hint Resolve kv_direct_hit : kvdb.

Lemma kv_pair_step i env j s k : kv i s (pair_step env j s k).
Proof. kv_by pair_step. Qed.

Lemma kv_mine_step i env j s m : kv i s (mine_step env j s m).
Proof. kv_by mine_step. Qed.

Lemma kv_mine_check i env j s : kv i s (mine_check env j s).
Proof. kv_by mine_check. apply kv_mine_step. Qed.
#[local] Hint Resolve kv_mine_check : kvdb.

Lemma kv_bullet_vs_enemies i env s j : kv i s (bullet_vs_enemies env s j).
Proof. kv_by bullet_vs_enemies. apply kv_pair_step. Qed.

Lemma kv_collide i env s : kv i s (collide env s).
Proof. unfold collide. apply kv_foldl. intros a j. apply kv_bullet_vs_enemies. Qed.

Lemma kv_take_hit i env s : kv i s (take_hit env s).
Proof. kv_by take_hit. Qed.
#[local] Hint Resolve kv_take_hit : kvdb.

Lemma kv_checkHit i env x y size s : kv i s (checkHit env x y size s).1.
Proof.
  unfold checkHit. cbv zeta. break_ifs; cbn [fst].
  - apply kv_take_hit.
  - apply kv_eq. reflexivity.
  - apply kv_refl.
Qed.

Lemma kv_enemy_bullet_vs_player i env s j : kv i s (enemy_bullet_vs_player env s j).
Proof.
  unfold enemy_bullet_vs_player.
  destruct (bullets s !! j) as [b|]; [|apply kv_refl].
  destruct (absorbing_orb s b); [apply kv_eq; reflexivity|].
  cbv zeta. destruct (b_isLaser b).
  - break_ifs; try apply kv_refl. apply kv_checkHit.
  - pose proof (kv_checkHit i env (b_x b) (b_y b) (b_width b) s) as H.
    destruct (checkHit env (b_x b) (b_y b) (b_width b) s) as [s1 hit].
    cbn [fst] in H. destruct hit; [|exact H].
    eapply kv_trans; [exact H|apply kv_eq; reflexivity].
Qed.

Lemma kv_enemy_vs_player i env s k : kv i s (enemy_vs_player env s k).
Proof.
  unfold enemy_vs_player. destruct (enemies s !! k) as [e|]; [|apply kv_refl].
  destruct (e_isGhost e); [apply kv_refl|apply kv_checkHit].
Qed.

Lemma kv_player_hits i env s : kv i s (player_hits env s).
Proof.
  unfold player_hits. destruct (p_invulnerableTime (player s)).
  - cbv zeta.
    match goal with |- kv i s (for_indices ?n ?f ?s1) => apply (kv_trans i s s1) end.
    + apply kv_foldl. intros a j. apply kv_enemy_bullet_vs_player.
    + apply kv_for_indices. intros a k. apply kv_enemy_vs_player.
  - apply kv_eq. reflexivity.
Qed.

(** From the end of the loop over the enemies to the removal of the dead the
    phase view of no enemy changes. *)
Lemma kv_after_enemies i env s :
  env_keeps_views env ->
  kv i s (player_hits env (collide env
            (for_indices (length (bullets s)) (bullet_step env) s))).
Proof.
  intros Henv.
  eapply kv_trans; [|apply kv_player_hits].
  eapply kv_trans; [|apply kv_collide].
  apply kv_for_indices. intros a j. now apply kv_bullet_step.
Qed.

(** *** The callback of the boss *)

Lemma kv_write_view i k x e0 s :
  enemies s !! k = Some e0 -> phase_view x = phase_view e0 ->
  kv i s (write_enemy k x s).
Proof.
  intros H0 Hv. destruct (decide (k = i)) as [->|Hk]; [|now apply kv_write].
  intros e He. rewrite H0 in He. injection He as <-.
  exists x. split; [|exact Hv]. apply lookup_write_enemy. eapply lookup_lt_Some; eauto.
Qed.

Lemma phase_view_fields e e' :
  phase_view e' = phase_view e ->
  e_id e' = e_id e /\ e_type e' = e_type e /\ e_isGhost e' = e_isGhost e
  /\ e_maxHp e' = e_maxHp e /\ e_phase e' = e_phase e
  /\ e_phaseTransitionTimer e' = e_phaseTransitionTimer e
  /\ e_dmgReduction e' = e_dmgReduction e
  /\ e_dmgReductionTimer e' = e_dmgReductionTimer e.
Proof. unfold phase_view. intros [= -> -> -> -> -> -> -> ->]. repeat split. Qed.

Lemma manage_shield_timer_id e :
  e_id (manage_shield_timer e) = e_id e.
Proof.
  unfold manage_shield_timer.
  destruct (e_dmgReductionTimer e) as [[|t]|]; [| destruct (t =? 0)%nat |]; reflexivity.
Qed.

Lemma phase2_due_manage e : phase2_due (manage_shield_timer e) = phase2_due e.
Proof.
  destruct (manage_shield_timer_keeps e) as (Mt & Mp & Mh & Mm & Mtt & Mg).
  unfold phase2_due. now rewrite Mp, Mh, Mm.
Qed.

Lemma boss_pause_step env s i e :
  enemies s !! i = Some e -> e_type e = T_boss -> e_isGhost e = false ->
  phase2_due e = false -> positive_timer (e_phaseTransitionTimer e) = true ->
  enemy_step env s i = write_enemy i (paused e) s.
Proof.
  intros He Ht Hg Hdue Htt.
  assert (Hi : (i < length (enemies s))%nat) by (eapply lookup_lt_Some; eauto).
  unfold enemy_step, with_enemy, paused. rewrite He. cbv zeta.
  destruct (manage_shield_timer_keeps e) as (Mt & Mp & Mh & Mm & Mtt & Mg).
  pose proof (phase2_due_manage e) as Md.
  set (e1 := manage_shield_timer e) in *.
  rewrite Mg, Hg. cbn [andb]. rewrite Md, Hdue, andb_false_r.
  unfold transition_pause, with_enemy. cbn [write_enemy enemies set_enemies].
  rewrite list_lookup_insert_eq by exact Hi.
  rewrite Mt, Ht, Mtt, Htt. rewrite bool_decide_true by reflexivity.
  cbn [andb].
  unfold write_enemy. cbn. rewrite list_insert_insert_eq. reflexivity.
Qed.

Lemma boss_acts env s i e :
  env_keeps_views env ->
  enemies s !! i = Some e -> e_type e = T_boss -> e_isGhost e = false ->
  phase2_due e = false -> positive_timer (e_phaseTransitionTimer e) = false ->
  exists e', enemies (enemy_step env s i) !! i = Some e'
             /\ phase_view e' = phase_view (manage_shield_timer e).
Proof.
  intros Henv He Ht Hg Hdue Htt.
  assert (Hi : (i < length (enemies s))%nat) by (eapply lookup_lt_Some; eauto).
  destruct (manage_shield_timer_keeps e) as (Mt & Mp & Mh & Mm & Mtt & Mg).
  pose proof (phase2_due_manage e) as Md.
  set (e1 := manage_shield_timer e) in *.
  assert (H1 : enemies (write_enemy i e1 s) !! i = Some e1)
    by now apply lookup_write_enemy.
  enough (K : kv i (write_enemy i e1 s) (enemy_step env s i)) by exact (K e1 H1).
  unfold enemy_step, with_enemy. rewrite He. cbv zeta. fold e1.
  rewrite Mg, Hg. cbn [andb]. rewrite Md, Hdue, andb_false_r.
  set (s1 := write_enemy i e1 s) in *.
  assert (Hp : transition_pause s1 i = None).
  { unfold transition_pause, with_enemy. rewrite H1, Mtt, Htt.
    now rewrite andb_false_r. }
  rewrite Hp.
  rewrite (clone_motion_other env s1 i e1 H1) by congruence.
  rewrite (mini_boss_orbit_other env s1 i e1 H1) by congruence.
  unfold frozen_pause, with_enemy. rewrite H1.
  destruct (e_frozenTimer e1) as [[|t]|] eqn:Hf.
  2:{ apply (kv_write_view i i _ e1); [exact H1|reflexivity]. }
  all: subst s1; rewrite upd_write_enemy.
  all: set (e2 := advance_timers e1).
  all: rewrite (lookup_write_enemy i e2 s Hi).
  all: assert (H2 : kv i (write_enemy i e1 s) (write_enemy i e2 s))
         by (intros x Hx; rewrite H1 in Hx; injection Hx as <-; exists e2;
             split; [now apply lookup_write_enemy|reflexivity]).
  all: unfold behave; change (e_type e2) with (e_type e1); rewrite Mt, Ht.
  all: destruct Henv as (_ & _ & Hb & _); specialize (Hb (write_enemy i e2 s) i).
  all: destruct (env_bossLogic env (write_enemy i e2 s) i) as [f ret]; cbn [fst] in Hb.
  all: apply (kv_put_field i) in Hb.
  all: destruct ret; [eapply kv_trans; eauto|].
  all: eapply kv_trans; [eapply kv_trans; eauto|].
  all: apply kv_upd; intros x; unfold check_bounds; break_ifs; reflexivity.
Qed.

(** The callback of a boss, by what the test of line 895 finds. *)
Lemma boss_callback env s i e :
  env_keeps_views env ->
  enemies s !! i = Some e -> e_type e = T_boss -> e_isGhost e = false ->
  exists e', enemies (enemy_step env s i) !! i = Some e'
    /\ e_id e' = e_id e /\ e_type e' = T_boss /\ e_isGhost e' = false
    /\ e_maxHp e' = e_maxHp e
    /\ (phase2_due e = true ->
        e_phase e' = Some 2%nat /\ e_phaseTransitionTimer e' = Some 119%nat
        /\ e_dmgReduction e' = Some 0.5 /\ e_dmgReductionTimer e' = Some 300%nat
        /\ bullets (enemy_step env s i) = map clear_one (bullets s))
    /\ (phase2_due e = false ->
        e_phase e' = e_phase e
        /\ e_phaseTransitionTimer e'
           = (if positive_timer (e_phaseTransitionTimer e)
              then Some (pred (or0 (e_phaseTransitionTimer e)))
              else e_phaseTransitionTimer e)
        /\ e_dmgReduction e' = e_dmgReduction (manage_shield_timer e)
        /\ e_dmgReductionTimer e' = e_dmgReductionTimer (manage_shield_timer e)).
Proof.
  intros Henv He Ht Hg.
  assert (Hi : (i < length (enemies s))%nat) by (eapply lookup_lt_Some; eauto).
  destruct (manage_shield_timer_keeps e) as (Mt & Mp & Mh & Mm & Mtt & Mg).
  pose proof (manage_shield_timer_id e) as Mid.
  destruct (phase2_due e) eqn:Hdue.
  - pose proof Hdue as Hd. unfold phase2_due in Hd. apply andb_true_iff in Hd as [Hp Hh].
    apply bool_decide_eq_true in Hp. apply Qltb_lt in Hh.
    destruct (boss_enters_phase2 env s i e He Ht Hp Hh)
      as (Hb & e' & He' & Ht' & Hp' & Hr' & Hrt' & Htt').
    assert (Hk : exists e2, enemies (enemy_step env s i) !! i = Some e2
                 /\ e_id e2 = e_id e /\ e_isGhost e2 = false /\ e_maxHp e2 = e_maxHp e).
    { clear Hb He' Ht' Hp' Hr' Hrt' Htt' e'.
      unfold enemy_step, with_enemy. rewrite He. cbv zeta.
      pose proof (phase2_due_manage e) as Md.
      set (e1 := manage_shield_timer e) in *.
      rewrite Mg, Hg. cbn [andb]. rewrite Mt, Ht, Md, Hdue.
      rewrite bool_decide_true by reflexivity. cbn [andb].
      assert (Hi1 : (i < length (enemies (write_enemy i e1 s)))%nat)
        by (cbn; now rewrite length_insert).
      assert (K : kv i (write_enemy i (triggered e1) (write_enemy i e1 s))
                    (phase_transition env (write_enemy i e1 s) i e1)).
      { cbv delta [phase_transition]. cbv beta zeta. fold (triggered e1).
        repeat match goal with
               | |- kv _ ?a ?b => constr_eq a b; apply kv_refl
               | |- kv ?i ?s (if ?c then _ else _) => destruct c
               | |- kv ?i ?s (?f ?s1) =>
                   apply (kv_trans i s s1); [|solve [auto with kvdb | apply kv_push
                                                    | apply kv_explosion]]
               end. }
      destruct (K (triggered e1)) as (e2 & H2 & V2);
        [apply lookup_write_enemy; exact Hi1|].
      set (s2 := phase_transition env (write_enemy i e1 s) i e1) in *. clearbody s2.
      destruct (phase_view_fields _ _ V2) as (F1 & F2 & F3 & F4 & F5 & F6 & F7 & F8).
      unfold transition_pause, with_enemy. rewrite H2, F2, F6.
      change (e_type (triggered e1)) with (e_type e1). rewrite Mt, Ht.
      rewrite bool_decide_true by reflexivity. cbn [andb].
      change (positive_timer (e_phaseTransitionTimer (triggered e1))) with true.
      cbv iota. cbn [enemies write_enemy set_enemies].
      rewrite list_lookup_insert_eq by (eapply lookup_lt_Some; eauto).
      eexists. split; [reflexivity|]. cbn. rewrite F1, F3, F4. cbn.
      rewrite Mid, Mg, Mm. auto. }
    destruct Hk as (e2 & H2 & K1 & K2 & K3). rewrite He' in H2. injection H2 as <-.
    exists e'. split; [exact He'|]. repeat split; auto; discriminate.
  - destruct (positive_timer (e_phaseTransitionTimer e)) eqn:Htt.
    + rewrite (boss_pause_step env s i e He Ht Hg Hdue Htt).
      exists (paused e). split; [now apply lookup_write_enemy|].
      unfold paused. cbn. rewrite Mid, Mt, Mg, Mm, Mp, Mtt, Ht, Hg.
      repeat split; auto; discriminate.
    + destruct (boss_acts env s i e Henv He Ht Hg Hdue Htt) as (e' & He' & V).
      destruct (phase_view_fields _ _ V) as (F1 & F2 & F3 & F4 & F5 & F6 & F7 & F8).
      exists e'. split; [exact He'|].
      rewrite F1, F2, F3, F4, F5, F6, F7, F8, Mid, Mt, Mg, Mm, Mp, Mtt.
      repeat split; auto; discriminate.
Qed.

(** *** One step *)

Lemma kv_foldl_others i env l s :
  env_keeps_views env -> Forall (fun k => k <> i) l ->
  kv i s (foldl (enemy_step env) s l).
Proof.
  intros Henv Hl. revert s. induction Hl as [|k l Hk Hl IH]; intros s; cbn [foldl].
  - apply kv_refl.
  - eapply kv_trans; [apply (kv_enemy_step i env s k Henv Hk)|apply IH].
Qed.

Lemma for_indices_split (f : State -> nat -> State) n i s :
  (i < n)%nat ->
  for_indices n f s = foldl f (f (for_indices i f s) i) (seq (S i) (n - S i)).
Proof.
  intros Hi. unfold for_indices.
  replace n with (i + S (n - S i))%nat at 1 by lia.
  rewrite seq_app, foldl_app. cbn [seq foldl Nat.add]. reflexivity.
Qed.

Lemma lookup_filter_survivors (l : list Enemy) i e :
  l !! i = Some e -> e_dead e = false ->
  filter (fun e => e_dead e = false) l !! survivors l i = Some e.
Proof.
  intros Hl Hd. unfold survivors.
  pose proof (take_drop_middle l i e Hl) as Hm.
  set (P := fun e : Enemy => e_dead e = false) in *.
  replace (filter P l) with (filter P (take i l ++ e :: drop (S i) l))
    by now rewrite Hm.
  rewrite (filter_app P), lookup_app_r by lia.
  rewrite Nat.sub_diag, (filter_cons_True P) by exact Hd. reflexivity.
Qed.

Lemma manage_shield_timer_view e e' :
  phase_view e' = phase_view e ->
  e_dmgReduction (manage_shield_timer e') = e_dmgReduction (manage_shield_timer e)
  /\ e_dmgReductionTimer (manage_shield_timer e')
     = e_dmgReductionTimer (manage_shield_timer e).
Proof.
  intros V. destruct (phase_view_fields _ _ V) as (_ & _ & _ & _ & _ & _ & F7 & F8).
  unfold manage_shield_timer. rewrite F8.
  destruct (e_dmgReductionTimer e) as [[|t]|] eqn:E; [| destruct (t =? 0)%nat |];
    cbn [e_dmgReduction e_dmgReductionTimer set_e_dmgReduction
         set_e_dmgReductionTimer]; rewrite ?F7, ?F8, ?E; auto.
Qed.

Lemma phase2_due_view e e' :
  phase_view e' = phase_view e ->
  phase2_due e' = bool_decide (e_phase e = Some 1%nat) && Qltb (e_hp e') (e_maxHp e * 0.4).
Proof.
  intros V. destruct (phase_view_fields _ _ V) as (_ & _ & _ & F4 & F5 & _).
  unfold phase2_due. now rewrite F4, F5.
Qed.

(** A boss through one step that runs. *)
Lemma boss_tick env s i e :
  env_keeps_views env -> runs env s = true ->
  enemies s !! i = Some e -> e_type e = T_boss -> e_isGhost e = false ->
  let w := callback_start env s i in
  let u := before_prune env s in
  exists ei e',
    enemies w !! i = Some ei /\ phase_view ei = phase_view e
    /\ enemies u !! i = Some e'
    /\ e_id e' = e_id e /\ e_type e' = T_boss /\ e_isGhost e' = false
    /\ e_maxHp e' = e_maxHp e
    /\ (phase2_due ei = true ->
        e_phase e' = Some 2%nat /\ e_phaseTransitionTimer e' = Some 119%nat
        /\ e_dmgReduction e' = Some 0.5 /\ e_dmgReductionTimer e' = Some 300%nat
        /\ bullets (enemy_step env w i) = map clear_one (bullets w))
    /\ (phase2_due ei = false ->
        e_phase e' = e_phase e
        /\ e_phaseTransitionTimer e'
           = (if positive_timer (e_phaseTransitionTimer e)
              then Some (pred (or0 (e_phaseTransitionTimer e)))
              else e_phaseTransitionTimer e)
        /\ e_dmgReduction e' = e_dmgReduction (manage_shield_timer e)
        /\ e_dmgReductionTimer e' = e_dmgReductionTimer (manage_shield_timer e)
        /\ (positive_timer (e_phaseTransitionTimer e) = true ->
            enemy_step env w i = write_enemy i (paused ei) w))
    /\ (e_dead e' = false ->
        enemies (update env s) !! survivors (enemies u) i = Some e').
Proof.
  intros Henv Hrun He Ht Hg w u.
  set (w0 := enemy_pass_start env s).
  destruct (kv_enemy_pass_start i env s Henv e He) as (e0 & H0 & V0). fold w0 in H0.
  assert (Hi0 : (i < length (enemies w0))%nat) by (eapply lookup_lt_Some; eauto).
  assert (Kw : kv i w0 w).
  { unfold w, callback_start, for_indices. fold w0. apply kv_foldl_others; [exact Henv|].
    apply Forall_forall. intros k Hk. apply elem_of_seq in Hk. lia. }
  destruct (Kw e0 H0) as (ei & Hei & Vi).
  assert (Vie : phase_view ei = phase_view e) by congruence.
  destruct (phase_view_fields _ _ Vie) as (F1 & F2 & F3 & F4 & F5 & F6 & F7 & F8).
  destruct (boss_callback env w i ei Henv Hei) as (e1 & H1 & C1 & C2 & C3 & C4 & Cdue & Cnot);
    [congruence|congruence|].
  set (p := for_indices (length (enemies w0)) (enemy_step env) w0).
  assert (Kp : kv i (enemy_step env w i) p).
  { unfold p. rewrite (for_indices_split _ _ i w0 Hi0). fold (callback_start env s i). fold w.
    apply kv_foldl_others; [exact Henv|].
    apply Forall_forall. intros k Hk. apply elem_of_seq in Hk. lia. }
  assert (Ku : kv i p u).
  { unfold u, before_prune. cbv zeta. fold w0. fold p. now apply kv_after_enemies. }
  destruct (Kp e1 H1) as (e2 & H2 & V2).
  destruct (Ku e2 H2) as (e' & H' & V').
  assert (V : phase_view e' = phase_view e1) by congruence.
  destruct (phase_view_fields _ _ V) as (G1 & G2 & G3 & G4 & G5 & G6 & G7 & G8).
  destruct (manage_shield_timer_view e ei Vie) as (Ms & Mst).
  exists ei, e'. split; [exact Hei|]. split; [exact Vie|]. split; [exact H'|].
  split; [congruence|]. split; [congruence|]. split; [congruence|].
  split; [congruence|]. split; [|split].
  - intros Hdue. destruct (Cdue Hdue) as (D1 & D2 & D3 & D4 & D5).
    repeat split; congruence.
  - intros Hdue. destruct (Cnot Hdue) as (D1 & D2 & D3 & D4).
    split; [congruence|]. split; [rewrite G6, D2, F6; reflexivity|].
    split; [congruence|]. split; [congruence|].
    intros Hpos. apply boss_pause_step; try assumption; congruence.
  - intros Hd. rewrite (update_stages env s Hrun). fold u.
    cbn [prune enemies set_enemies set_bullets].
    now apply lookup_filter_survivors.
Qed.

(** *** Several steps *)

Lemma manage_shield_timer_fields a b :
  e_dmgReduction a = e_dmgReduction b ->
  e_dmgReductionTimer a = e_dmgReductionTimer b ->
  e_dmgReduction (manage_shield_timer a) = e_dmgReduction (manage_shield_timer b)
  /\ e_dmgReductionTimer (manage_shield_timer a)
     = e_dmgReductionTimer (manage_shield_timer b).
Proof.
  intros F7 F8. unfold manage_shield_timer. rewrite F8.
  destruct (e_dmgReductionTimer b) as [[|t]|] eqn:E; [| destruct (t =? 0)%nat |];
    cbn [e_dmgReduction e_dmgReductionTimer set_e_dmgReduction
         set_e_dmgReductionTimer]; rewrite ?F7, ?F8, ?E; auto.
Qed.

Lemma manage_shield_timer_iter n a b :
  e_dmgReduction a = e_dmgReduction b ->
  e_dmgReductionTimer a = e_dmgReductionTimer b ->
  e_dmgReduction (Nat.iter n manage_shield_timer a)
  = e_dmgReduction (Nat.iter n manage_shield_timer b)
  /\ e_dmgReductionTimer (Nat.iter n manage_shield_timer a)
     = e_dmgReductionTimer (Nat.iter n manage_shield_timer b).
Proof.
  intros F7 F8. induction n as [|n [IH1 IH2]]; [auto|].
  change (Nat.iter (S n) manage_shield_timer a)
    with (manage_shield_timer (Nat.iter n manage_shield_timer a)).
  change (Nat.iter (S n) manage_shield_timer b)
    with (manage_shield_timer (Nat.iter n manage_shield_timer b)).
  now apply manage_shield_timer_fields.
Qed.

(** A boss in its second phase, followed through [n] steps: it stays in the
    second phase, its transition timer runs down by one a step, and its
    damage reduction and the timer of it are what [n] rounds of lines 817-822
    make of them. *)
Lemma boss_followed env n :
  env_keeps_views env ->
  forall s i e s' i',
  follow_for env n s i = Some (s', i') ->
  enemies s !! i = Some e -> e_type e = T_boss -> e_isGhost e = false ->
  e_phase e = Some 2%nat ->
  exists e', enemies s' !! i' = Some e'
    /\ e_id e' = e_id e /\ e_type e' = T_boss /\ e_isGhost e' = false
    /\ e_phase e' = Some 2%nat
    /\ (forall p, e_phaseTransitionTimer e = Some p ->
        e_phaseTransitionTimer e' = Some (p - n)%nat)
    /\ e_dmgReduction e' = e_dmgReduction (Nat.iter n manage_shield_timer e)
    /\ e_dmgReductionTimer e'
       = e_dmgReductionTimer (Nat.iter n manage_shield_timer e).
Proof.
  intros Henv. induction n as [|n IH]; intros s i e s' i' Hf He Ht Hg Hp.
  - cbn in Hf. injection Hf as <- <-. exists e. repeat split; auto.
    intros p Hpp. rewrite Hpp. f_equal. lia.
  - cbn [follow_for] in Hf.
    destruct (follow env s i) as [[s1 i1]|] eqn:Hf1; [|discriminate].
    unfold follow in Hf1. destruct (runs env s) eqn:Hrun; [|discriminate].
    cbv zeta in Hf1.
    destruct (boss_tick env s i e Henv Hrun He Ht Hg)
      as (ei & e1 & Hei & Vi & H1 & K1 & K2 & K3 & K4 & _ & Knot & Kup).
    rewrite H1 in Hf1. destruct (e_dead e1) eqn:Hd; [discriminate|].
    injection Hf1 as <- <-. specialize (Kup eq_refl).
    assert (Hdue : phase2_due ei = false).
    { rewrite (phase2_due_view e ei Vi), Hp. reflexivity. }
    destruct (Knot Hdue) as (D1 & D2 & D3 & D4 & _).
    destruct (IH _ _ e1 s' i' Hf Kup K2 K3 ltac:(congruence))
      as (e' & H' & J1 & J2 & J3 & J4 & J5 & J6 & J7).
    exists e'. split; [exact H'|].
    split; [congruence|]. split; [exact J2|]. split; [exact J3|].
    split; [exact J4|]. split; [|].
    + intros p Hpp. rewrite Hpp in D2.
      rewrite (J5 (pred p)).
      * f_equal. lia.
      * rewrite D2. destruct p; reflexivity.
    + destruct (manage_shield_timer_iter n e1 (manage_shield_timer e) D3 D4) as (E1 & E2).
      rewrite J6, J7, E1, E2.
      rewrite <- !Nat.iter_succ_r. auto.
Qed.

Lemma quiet_env_keeps_views : env_keeps_views quiet_env.
Proof. repeat split; intros; unfold views_kept, view_kept_at; cbn; eauto. Qed.

(** C4 (as amended).  In a step that runs, [update] is the removal of the dead
    after the stages up to the hits on the player, and a boss goes through it
    as follows, whatever the parameterised regions do as long as they remove
    no enemy and write no field of the phase view.  Its phase view is the one
    it had at the start of the step when its callback in the loop over the
    enemies starts.  If it is in phase 1 and that callback finds its hit
    points below 40% of the maximum, it ends the step in phase 2 with 119 on
    the transition timer, a damage reduction of 0.5 and 300 on its timer, and
    the callback marks every projectile of the player dead and touches no
    other; if the callback finds them at 40% or above, it ends the step in
    phase 1: nothing after the callback, the collisions included, changes the
    phase.  A boss in phase 2 stays in phase 2, and while its transition timer
    is positive its callback is the countdown alone, with no attack.  If it is
    not dead at the end it is in the world that [update] returns.  Followed
    through [n] steps, a boss in phase 2 with the reduction at 0.5 and [t] on
    its timer is still in phase 2, with [n] less on the transition timer,
    [t - n] on the timer of the reduction, and the reduction at 0.5 as long
    as [n < t], at 0 from then on. *)
Theorem boss_phase_transition env s i e :
  env_keeps_views env -> runs env s = true ->
  enemies s !! i = Some e -> e_type e = T_boss -> e_isGhost e = false ->
  let w := callback_start env s i in
  let u := before_prune env s in
  update env s = prune u
  /\ (exists ei e',
      enemies w !! i = Some ei /\ phase_view ei = phase_view e
      /\ enemies u !! i = Some e' /\ e_id e' = e_id e /\ e_type e' = T_boss
      /\ (e_phase e = Some 1%nat -> e_hp ei < e_maxHp e * 0.4 ->
          e_phase e' = Some 2%nat /\ e_phaseTransitionTimer e' = Some 119%nat
          /\ e_dmgReduction e' = Some 0.5 /\ e_dmgReductionTimer e' = Some 300%nat
          /\ bullets (enemy_step env w i) = map clear_one (bullets w))
      /\ (e_phase e = Some 1%nat -> e_maxHp e * 0.4 <= e_hp ei ->
          e_phase e' = Some 1%nat)
      /\ (e_phase e = Some 2%nat ->
          e_phase e' = Some 2%nat
          /\ (forall p, e_phaseTransitionTimer e = Some (S p) ->
              e_phaseTransitionTimer e' = Some p
              /\ enemy_step env w i = write_enemy i (paused ei) w))
      /\ (e_dead e' = false ->
          enemies (update env s) !! survivors (enemies u) i = Some e'))
  /\ (forall n s' i' p t,
      follow_for env n s i = Some (s', i') ->
      e_phase e = Some 2%nat -> e_phaseTransitionTimer e = Some p ->
      e_dmgReduction e = Some 0.5 -> e_dmgReductionTimer e = Some t -> (0 < t)%nat ->
      exists e', enemies s' !! i' = Some e'
        /\ e_id e' = e_id e /\ e_type e' = T_boss /\ e_phase e' = Some 2%nat
        /\ e_phaseTransitionTimer e' = Some (p - n)%nat
        /\ e_dmgReductionTimer e' = Some (t - n)%nat
        /\ e_dmgReduction e' = (if (n <? t)%nat then Some 0.5 else Some 0)).
Proof.
  intros Henv Hrun He Ht Hg w u.
  split; [now apply update_stages|]. split.
  - destruct (boss_tick env s i e Henv Hrun He Ht Hg)
      as (ei & e' & Hei & Vi & H' & K1 & K2 & K3 & K4 & Kdue & Knot & Kup).
    fold w in Hei, Kdue, Knot. fold u in H', Kup.
    pose proof (phase2_due_view e ei Vi) as Hdue.
    exists ei, e'. split; [exact Hei|]. split; [exact Vi|]. split; [exact H'|].
    split; [exact K1|]. split; [exact K2|]. split; [|split; [|split]].
    + intros Hp Hh. apply Kdue. rewrite Hdue, Hp.
      rewrite bool_decide_true by reflexivity. now apply Qltb_lt.
    + intros Hp Hh. destruct Knot as (D1 & _); [|congruence].
      rewrite Hdue. rewrite (proj2 (Qltb_ge _ _) Hh). apply andb_false_r.
    + intros Hp. destruct Knot as (D1 & D2 & _ & _ & D5).
      { rewrite Hdue, Hp. reflexivity. }
      split; [congruence|]. intros p Hpp. rewrite Hpp in D2, D5.
      split; [exact D2|]. now apply D5.
    + exact Kup.
  - intros n s' i' p t Hf Hp Hpp Hr Hrt Hpos.
    destruct (boss_followed env n Henv s i e s' i' Hf He Ht Hg Hp)
      as (e' & H' & J1 & J2 & J3 & J4 & J5 & J6 & J7).
    destruct (shield_holds e n t Hr Hrt) as (S1 & S2).
    exists e'. split; [exact H'|]. split; [exact J1|]. split; [exact J2|].
    split; [exact J4|]. split; [now apply J5|]. split; [congruence|].
    rewrite J6, S2. destruct (n <? t)%nat; [reflexivity|].
    destruct (Nat.eqb_spec t 0); [lia|reflexivity].
Qed.

Lemma boss_phase_transition_witness :
  (exists e', enemies (update quiet_env world_phase) !! 0%nat = Some e'
      /\ e_type e' = T_boss /\ e_phase e' = Some 2%nat
      /\ e_phaseTransitionTimer e' = Some 119%nat
      /\ e_dmgReduction e' = Some 0.5 /\ e_dmgReductionTimer e' = Some 300%nat)
  /\ (exists e', enemies (Nat.iter 3 (update quiet_env) world_shielded) !! 0%nat = Some e'
        /\ e_type e' = T_boss /\ e_phase e' = Some 2%nat
        /\ e_phaseTransitionTimer e' = Some (119 - 3)%nat
        /\ e_dmgReductionTimer e' = Some (300 - 3)%nat
        /\ e_dmgReduction e' = Some 0.5).
Proof.
  split.
  - destruct (boss_phase_transition quiet_env world_phase 0
                (a_boss "boss_1" V_alpha 1 3999 10000) quiet_env_keeps_views)
      as (_ & (ei & e' & H1 & H2 & H3 & H4 & H5 & H6 & _ & _ & H9) & _);
      [reflexivity|reflexivity|reflexivity|reflexivity|].
    assert (Hhp : e_hp ei < e_maxHp (a_boss "boss_1" V_alpha 1 3999 10000) * 0.4).
    { vm_compute in H1. injection H1 as <-. vm_compute. reflexivity. }
    destruct (H6 eq_refl Hhp) as (F1 & F2 & F3 & F4 & _).
    assert (Hd : e_dead e' = false).
    { vm_compute in H3. injection H3 as <-. reflexivity. }
    exists e'. split; [exact (H9 Hd)|]. repeat split; assumption.
  - destruct (boss_phase_transition quiet_env world_shielded 0
                (set_e_dmgReductionTimer (Some 300%nat)
                   (set_e_dmgReduction (Some 0.5)
                      (set_e_phaseTransitionTimer (Some 119%nat)
                         (a_boss "boss_1" V_alpha 2 3999 10000))))
                quiet_env_keeps_views)
      as (_ & _ & H);
      [reflexivity|reflexivity|reflexivity|reflexivity|].
    destruct (H 3%nat (Nat.iter 3 (update quiet_env) world_shielded) 0%nat
                119%nat 300%nat)
      as (e' & K1 & K2 & K3 & K4 & K5 & K6 & K7);
      [vm_compute; reflexivity|reflexivity|reflexivity|reflexivity|reflexivity|lia|].
    exists e'. repeat split; assumption.
Defined.

(** C4 as stated fails.  A bolt of the player takes a boss of 10000 hit points
    from 4005 to 3995 in the collisions of a step: the boss ends that step in
    phase 1, with no shield, and is in phase 2 at the end of the next step
    only.  And a boss that one bolt takes from 4005 to below zero is removed
    in phase 1: it never changes phase. *)
Lemma phase_flips_a_step_after_the_hit :
  (let s1 := update quiet_env world_threshold in
   let s2 := update quiet_env s1 in
   match enemies world_threshold, enemies s1, enemies s2 with
   | [b0], [b1], [b2] =>
       e_hp b0 == 4005 /\ e_maxHp b0 == 10000 /\ e_phase b0 = Some 1%nat
       /\ e_hp b1 == 3995 /\ e_phase b1 = Some 1%nat
       /\ e_dmgReductionTimer b1 = Some 0%nat
       /\ e_hp b2 == 3995 /\ e_phase b2 = Some 2%nat
       /\ e_phaseTransitionTimer b2 = Some 119%nat
       /\ e_dmgReductionTimer b2 = Some 300%nat
   | _, _, _ => False
   end)
  /\ (let s1 := update quiet_env world_overkill in
      match enemies world_overkill with
      | [b0] => e_hp b0 == 4005 /\ e_phase b0 = Some 1%nat
      | _ => False
      end
      /\ enemies s1 = [] /\ bossKills s1 = 1%nat /\ bossActive s1 = false).
Proof. vm_compute. repeat split. Qed.
(** * Piercing projectiles (1830-1927) *)

Lemma grows_refl b : grows b b.
Proof. repeat split; auto. Qed.

Lemma grows_dead b : grows b (set_b_dead true b).
Proof. repeat split; auto. Qed.

Lemma in_hitList_push b id id' :
  in_hitList b id = true ->
  in_hitList (set_b_hitList (Some (default [] (b_hitList b) ++ [id'])) b) id = true.
Proof.
  unfold in_hitList. cbn. destruct (b_hitList b) as [l|]; [|discriminate].
  intros H. apply bool_decide_eq_true in H. apply bool_decide_eq_true.
  cbn. apply elem_of_app. now left.
Qed.





(** C5.  The code processes a projectile again after it has been marked dead,
    and damages an enemy that is already in the hit-list.  A piercing bolt
    lies between two mines and no enemy is around: the loop over the mines
    (1917-1923) is entered because the bolt is alive, the first mine marks it
    dead, and the loop goes on to take its damage off the second mine as
    well; the loop over the enemies re-tests the flag for every enemy (1834),
    the loop over the mines tests it once, before it starts (1916).  And a
    piercing pulse nova that has A in its hit-list and then hits B sets off
    its pulse (1889), which lowers the hit points of A once more. *)
Theorem dead_projectile_hits_second_mine :
  (let s1 := mine_step quiet_env 0 world_mines 1 in
   let s2 := mine_step quiet_env 0 s1 2 in
   b_piercing (laser_at 300 300) = true
   /\ map b_dead (bullets world_mines) = [false; false; false]
   /\ map b_hp (bullets world_mines) = [None; Some 50; Some 50]
   /\ map b_dead (bullets s1) = [true; false; false]
   /\ map b_hp (bullets s1) = [None; Some 40; Some 50]
   /\ map b_hp (bullets s2) = [None; Some 40; Some 40]
   /\ collide quiet_env world_mines = s2)
  /\ (let s1 := pair_step quiet_env 0 world_nova 0 in
      let s2 := pair_step quiet_env 0 s1 1 in
      b_piercing (nova_at 300 300) = true
      /\ map b_hitList (bullets s1) = [Some ["A"]]
      /\ match enemies s1 !! 0%nat, enemies s2 !! 0%nat with
         | Some a1, Some a2 => e_id a1 = "A" /\ e_hp a1 == 850 /\ e_hp a2 == 800
         | _, _ => False
         end
      /\ collide quiet_env world_nova = s2).
Proof. vm_compute. repeat split. Qed.
(** * Chain jumps (1890) *)

Lemma nextTarget_first s e r nt :
  nextTarget s e r = Some nt ->
  exists k, enemies s !! k = Some nt /\ chain_target e r nt
            /\ forall k' e', (k' < k)%nat -> enemies s !! k' = Some e' ->
                             ~ chain_target e r e'.
Proof.
  unfold nextTarget. intros H.
  destruct (list_find _ _) as [[k x]|] eqn:Hf; [|discriminate].
  injection H as <-. apply list_find_Some in Hf as (H1 & H2 & H3).
  exists k. split; [exact H1|]. split; [exact H2|].
  intros k' e' Hk He'. exact (H3 k' e' He' Hk).
Qed.

Lemma nextTarget_none s e r :
  nextTarget s e r = None -> forall ne, ne ∈ enemies s -> ~ chain_target e r ne.
Proof.
  unfold nextTarget. intros H.
  destruct (list_find _ _) as [[k x]|] eqn:Hf; [discriminate|].
  apply list_find_None in Hf. intros ne Hne. eapply Forall_forall in Hf; eauto.
Qed.

Lemma nextTarget_upd s i f e r :
  (forall x, e_id (f x) = e_id x /\ e_dead (f x) = e_dead x
             /\ e_x (f x) = e_x x /\ e_y (f x) = e_y x) ->
  same_place (nextTarget (upd_enemy i f s) e r) (nextTarget s e r).
Proof.
  intros Hf. unfold nextTarget. cbn.
  rewrite list_find_alter.
  - destruct (list_find _ (enemies s)) as [[k x]|]; cbn; [|exact I].
    destruct (decide (k = i)); [|auto]. destruct (Hf x) as (_ & _ & -> & ->). auto.
  - intros x. destruct (Hf x) as (-> & -> & -> & ->). reflexivity.
Qed.

Lemma set_hp_keeps d (x : Enemy) :
  e_id (set_e_hp d x) = e_id x /\ e_dead (set_e_hp d x) = e_dead x
  /\ e_x (set_e_hp d x) = e_x x /\ e_y (set_e_hp d x) = e_y x.
Proof. repeat split. Qed.

(** C6 (amended). A bolt of the chain lightning with [chainCount = n > 0] that
    damages an enemy A loses one jump, appends the id of A to its hit-list
    and looks for the first enemy in array order that has another id, is not
    dead and is less than [200 * rangeMult] away from A.  If there is one, the
    bolt moves to the place of A and takes a velocity of 20 along the
    direction from its own place before the hit to that target; if there is
    none, it is marked dead. *)
Theorem chain_jump env s j i b e n :
  bullets s !! j = Some b -> enemies s !! i = Some e ->
  b_weaponId b = Some CHAIN_LIGHTNING -> b_splashRadius b = None ->
  b_chainCount b = Some n -> (0 < n)%Z ->
  skips b e = false -> reflects b e = false -> shield_blocks b e = false ->
  touches b e = true -> e_type e <> T_boss_clone ->
  let r := js_or (b_orbitRadius b) 1 in
  exists b', bullets (pair_step env j s i) !! j = Some b'
    /\ b_chainCount b' = Some (n - 1)%Z
    /\ b_hitList b' = Some (default [] (b_hitList b) ++ [e_id e])
    /\ match nextTarget s e r with
       | Some nt =>
           (exists k, enemies s !! k = Some nt /\ chain_target e r nt
              /\ forall k' e', (k' < k)%nat -> enemies s !! k' = Some e' ->
                               ~ chain_target e r e')
           /\ b_dead b' = false
           /\ b_x b' = e_x e /\ b_y b' = e_y e
           /\ b_vx b' = env_Math_cos env
                          (env_Math_atan2 env (e_y nt - b_y b) (e_x nt - b_x b)) * 20
           /\ b_vy b' = env_Math_sin env
                          (env_Math_atan2 env (e_y nt - b_y b) (e_x nt - b_x b)) * 20
       | None =>
           b_dead b' = true
           /\ forall ne, ne ∈ enemies s -> ~ chain_target e r ne
       end.
Proof.
  intros Hb He Hw Hs Hc Hn Hsk Hrf Hsh Ht Hty r.
  unfold pair_step. rewrite Hb, He, Hsk, Hrf, Hsh, Ht.
  unfold direct_hit. rewrite (bool_decide_false _ Hty). cbv zeta.
  rewrite bullets_settle_death.
  rewrite Hw. rewrite (bool_decide_false (Some CHAIN_LIGHTNING = Some PULSE_NOVA)) by discriminate.
  cbn [andb].
  set (s1 := upd_enemy i _ s).
  assert (Hb1 : bullets s1 !! j = Some b) by exact Hb.
  assert (Hnt : same_place (nextTarget s1 e r) (nextTarget s e r)).
  { apply nextTarget_upd. intros x. apply set_hp_keeps. }
  unfold on_hit. cbv zeta. rewrite Hs, Hw, Hc. cbn [truthy andb].
  rewrite (proj2 (Z.ltb_lt 0 n) Hn).
  rewrite (bool_decide_true (Some CHAIN_LIGHTNING <> Some PULSE_NOVA)) by discriminate.
  cbn [andb].
  assert (Hdead : b_dead b = false).
  { unfold skips in Hsk. destruct (e_dead e), (b_dead b); try discriminate; reflexivity. }
  eexists. split; [eapply lookup_write_bullet; exact Hb1|].
  cbn [b_orbitRadius set_b_hitList set_b_chainCount]. fold r.
  unfold same_place in Hnt.
  destruct (nextTarget s1 e r) as [nt1|], (nextTarget s e r) as [nt|] eqn:Hfind;
    try contradiction.
  - destruct Hnt as (Hx & Hy). cbn. rewrite Hx, Hy. repeat split; auto.
    now apply nextTarget_first.
  - cbn. repeat split; auto. now apply nextTarget_none.
Qed.

Lemma chain_jump_witness :
  let b := chain_bolt 90 100 in
  let e := spawned "A" T_tank 100 100 22 150 600 in
  let r := js_or (b_orbitRadius b) 1 in
  exists b', bullets (pair_step quiet_env 0 world_chain 0) !! 0%nat = Some b'
    /\ b_chainCount b' = Some (4 - 1)%Z
    /\ b_hitList b' = Some (default [] (b_hitList b) ++ [e_id e])
    /\ match nextTarget world_chain e r with
       | Some nt =>
           (exists k, enemies world_chain !! k = Some nt /\ chain_target e r nt
              /\ forall k' e', (k' < k)%nat -> enemies world_chain !! k' = Some e' ->
                               ~ chain_target e r e')
           /\ b_dead b' = false
           /\ b_x b' = e_x e /\ b_y b' = e_y e
           /\ b_vx b' = env_Math_cos quiet_env
                          (env_Math_atan2 quiet_env (e_y nt - b_y b) (e_x nt - b_x b)) * 20
           /\ b_vy b' = env_Math_sin quiet_env
                          (env_Math_atan2 quiet_env (e_y nt - b_y b) (e_x nt - b_x b)) * 20
       | None =>
           b_dead b' = true
           /\ forall ne, ne ∈ enemies world_chain -> ~ chain_target e r ne
       end.
Proof.
  apply (chain_jump quiet_env world_chain 0 0 (chain_bolt 90 100)
           (spawned "A" T_tank 100 100 22 150 600) 4);
    try reflexivity; discriminate.
Defined.

(** C6, counterexample. The bolt hits A; C is 50 away from A and B is 200
    away, yet the target is B, which comes first in the array, and the bolt
    lands on the place of A, not on that of its target. *)
Lemma chain_lands_on_the_enemy_hit :
  let b := chain_bolt 90 100 in
  let A := spawned "A" T_tank 100 100 22 150 600 in
  let B := spawned "B" T_tank 300 100 22 150 600 in
  let C := spawned "C" T_tank 150 100 22 150 600 in
  let s' := pair_step quiet_env 0 world_chain 0 in
  nextTarget world_chain A (js_or (b_orbitRadius b) 1) = Some B
  /\ dist_lt (e_x C) (e_y C) (e_x A) (e_y A) 51 = true
  /\ dist_lt (e_x B) (e_y B) (e_x A) (e_y A) 200 = false
  /\ map (fun b => (b_x b, b_y b, b_dead b)) (bullets s') = [(e_x A, e_y A, false)]
  /\ (e_x A, e_y A) <> (e_x B, e_y B).
Proof. vm_compute. repeat split; discriminate. Qed.



(** ** What the time scale reaches *)







Section TimeScale.

(** In this section [cbn] leaves the comparisons of frame counters folded. *)
#[local] Arguments Nat.ltb : simpl never.
#[local] Arguments Nat.leb : simpl never.
#[local] Arguments Nat.eqb : simpl never.
#[local] Arguments Nat.modulo : simpl never.





End TimeScale.



























(** ** The followers of a boss *)



Lemma harmless_compose f g : harmless f -> harmless g -> harmless (fun en => g (f en)).
Proof.
  intros Hf Hg en. destruct (Hf en) as [? ?], (Hg (f en)) as [? ?].
  split; congruence.
Qed.














(** ** Hits on the player: shield, hit points, revive, loss *)

Lemma take_hit_outcome env s :
  hit_outcome (20 * incomingDamageMultiplier env) s (take_hit env s).
Proof.
  unfold hit_outcome, take_hit.
  destruct (Qltb 0 (p_shield (player s))) eqn:Hsh.
  - apply Qltb_lt in Hsh.
    repeat split; intros; try lra.
    all: destruct (3 <=? p_spellLevels _ AEGIS_SHIELD)%nat; reflexivity.
  - apply Qltb_ge in Hsh.
    destruct (Qleb _ 0) eqn:Hhp.
    + apply Qleb_le in Hhp. cbn in Hhp.
      destruct (p_revives (player s)) as [|r] eqn:Hr; cbn; rewrite Hr; cbn.
      * repeat split; intros; try lra; try lia; reflexivity.
      * repeat split; intros; try lra; try lia; reflexivity.
    + apply Qleb_gt in Hhp. cbn in Hhp.
      repeat split; intros; try lra; reflexivity.
Qed.

Lemma kamikaze_hit_outcome env s :
  p_invulnerableTime (player s) = 0%nat ->
  hit_outcome (30 * incomingDamageMultiplier env) s (kamikaze_hit env s).
Proof.
  intros Hinv. unfold hit_outcome, kamikaze_hit. rewrite Hinv. cbn [Nat.eqb].
  destruct (Qltb 0 (p_shield (player s))) eqn:Hsh.
  - apply Qltb_lt in Hsh. repeat split; intros; try lra; reflexivity.
  - apply Qltb_ge in Hsh.
    destruct (Qleb _ 0) eqn:Hhp.
    + apply Qleb_le in Hhp. cbn in Hhp.
      destruct (p_revives (player s)) as [|r] eqn:Hr; cbn; rewrite Hr; cbn.
      * repeat split; intros; try lra; try lia; reflexivity.
      * repeat split; intros; try lra; try lia; reflexivity.
    + apply Qleb_gt in Hhp. cbn in Hhp.
      repeat split; intros; try lra; reflexivity.
Qed.

(** C9.  When an entity touches the player, [checkHit] reports the hit and
    resolves 20 points of damage (times the incoming-damage multiplier) as
    [hit_outcome] says: a non-empty shield pool absorbs the hit and the hit
    points stay; else the hit points are reduced, and when they reach zero a
    banked revive is consumed (hit points back to the maximum, 120 frames of
    invulnerability) or, with no revive, the run is flagged over and one loss
    event is emitted.  The contact of a kamikaze resolves its 30 points the
    same way. *)
Theorem player_hit_resolution env s entityX entityY size :
  dist_lt entityX entityY (p_x (player s)) (p_y (player s)) (size + 4) = true ->
  hit_outcome (20 * incomingDamageMultiplier env) s
    (fst (checkHit env entityX entityY size s))
  /\ snd (checkHit env entityX entityY size s) = true
  /\ (p_invulnerableTime (player s) = 0%nat ->
      hit_outcome (30 * incomingDamageMultiplier env) s (kamikaze_hit env s)).
Proof.
  intros H. unfold checkHit. rewrite H. cbn [fst snd].
  split; [apply take_hit_outcome|]. split; [reflexivity|].
  apply kamikaze_hit_outcome.
Qed.

Lemma player_hit_resolution_witness :
  let s' := fst (checkHit quiet_env 300 700 5 world_last_hit) in
  p_hp (player s') == 0 /\ isGameOver s' = true
  /\ events s' = [loss_event world_last_hit].
Proof.
  cbv zeta.
  destruct (player_hit_resolution quiet_env world_last_hit 300 700 5 eq_refl)
    as [(_ & _ & _ & Hlose) _].
  destruct Hlose as (Hhp & Hover & Hev);
    [vm_compute; discriminate | vm_compute; discriminate | reflexivity |].
  rewrite Hhp, Hover, Hev. split; [reflexivity|]. split; reflexivity.
Defined.

(** ** The shots-fired counter *)

(** What the emission of one weapon leaves alone. *)
Lemma emit_keeps_counter env wId lvl dmgMult s :
  (shotsFired (emit env wId lvl dmgMult s), player (emit env wId lvl dmgMult s))
  = (shotsFired s, player s).
Proof.
  destruct wId; unfold emit, random; cbv zeta.
  all: repeat match goal with |- context [if ?c then _ else _] => destruct c end.
  all: reflexivity.
Qed.

Lemma fire_weapons_count env dmgMult ws s :
  (shotsFired (foldl (fire_weapon env dmgMult) s ws),
   player (foldl (fire_weapon env dmgMult) s ws))
  = ((shotsFired s + length ws)%nat, player s).
Proof.
  revert s. induction ws as [|w ws IH]; intros s; cbn [foldl length].
  - now rewrite Nat.add_0_r.
  - rewrite IH. unfold fire_weapon. cbv zeta.
    pose proof (emit_keeps_counter env w
      (p_weaponLevels (player (set_shotsFired (S (shotsFired s)) s)) w) dmgMult
      (set_shotsFired (S (shotsFired s)) s)) as H.
    injection H as H1 H2. rewrite H1, H2. cbn. f_equal. lia.
Qed.

(** C10 (as amended).  On a firing frame (a fire key is down and the frame is
    one of the cadence) the counter grows by the number of equipped weapons,
    one for each, whatever each weapon emits on that frame: several
    projectiles, one, or none at all.  On any other frame it does not move. *)
Theorem shots_counted_per_weapon env overclocked s :
  shotsFired (fire env overclocked s)
  = if firing overclocked s
    then (shotsFired s + length (p_equippedWeapons (player s)))%nat
    else shotsFired s.
Proof.
  unfold firing, fire.
  destruct (pressed "KeyZ" s || pressed "Space" s); [|reflexivity].
  destruct (_ =? 0)%nat; [|reflexivity]. cbn [andb].
  pose proof (fire_weapons_count env
    ((if env_activeBoosters env ATTACK_UP then 1.25 else 1.0) * damageMultiplier env)
    (p_equippedWeapons (player s)) s) as H.
  now injection H.
Qed.

(** C10 as stated fails: with the Gauss cannon equipped and the fire key held,
    the step of frame 6 counts a shot and emits no projectile. *)
Lemma shot_counted_without_projectile :
  let s' := update quiet_env world_gauss_idle in
  shotsFired s' = S (shotsFired world_gauss_idle)
  /\ bullets s' = bullets world_gauss_idle /\ bullets s' = [].
Proof. vm_compute. repeat split. Qed.

(** * More of the engine and of the profile *)


(** ** The frame of the step *)

(** X1.  While the component is paused, or once the run is over, [update] leaves
    the world as it is, however often it is called. *)
Theorem update_stops_when_over env n s :
  env_isPaused env = true \/ isGameOver s = true ->
  Nat.iter n (update env) s = s.
Proof.
  intros H. induction n as [|n IH]; [reflexivity|].
  cbn [Nat.iter nat_rect]. change (nat_rect _ _ _ n) with (Nat.iter n (update env) s).
  rewrite IH. unfold update.
  destruct H as [-> | ->]; [reflexivity|]. now destruct (env_isPaused env).
Qed.

Lemma update_stops_when_over_witness :
  Nat.iter 5 (update quiet_env) world_over = world_over
  /\ Nat.iter 5 (update paused_env) world_two_shots = world_two_shots.
Proof.
  split.
  - apply (update_stops_when_over quiet_env 5 world_over). right. reflexivity.
  - apply (update_stops_when_over paused_env 5 world_two_shots). left. reflexivity.
Defined.

Lemma prune_live s : all_live (prune s).
Proof.
  split; cbn; apply Forall_forall; intros x Hx; apply list_elem_of_filter in Hx; tauto.
Qed.

Lemma practice_clock_field env s :
  enemies (practice_clock env s).1 = enemies s
  /\ bullets (practice_clock env s).1 = bullets s.
Proof.
  unfold practice_clock. destruct (env_practiceMode env); [|auto].
  destruct (_ =? _)%nat; [|auto]. destruct (_ && _); auto.
Qed.

(** X2.  A world without dead entities stays without them from step to step: a
    step that runs ends by removing the enemies and projectiles it flagged. *)
Theorem no_dead_entity_survives_a_step env n s :
  all_live s -> all_live (Nat.iter n (update env) s).
Proof.
  intros H. induction n as [|n IH]; [exact H|].
  cbn [Nat.iter nat_rect]. change (nat_rect _ _ _ n) with (Nat.iter n (update env) s).
  set (sn := Nat.iter n (update env) s) in *. clearbody sn.
  unfold update. destruct (env_isPaused env); [exact IH|].
  destruct (isGameOver sn); [exact IH|].
  destruct (practice_clock_field env
              (set_stageTimer (S (stageTimer sn)) (set_frame (S (frame sn)) sn)))
    as (He & Hb).
  destruct (practice_clock env _) as [s1 done]. cbn in He, Hb.
  destruct done; [|apply prune_live].
  unfold all_live. rewrite He, Hb. exact IH.
Qed.

Lemma no_dead_entity_survives_a_step_witness :
  all_live (Nat.iter 3 (update quiet_env) world_splash).
Proof.
  apply (no_dead_entity_survives_a_step quiet_env 3 world_splash).
  split; cbn; repeat constructor.
Defined.

Lemma clamp_bounds lo hi x : lo <= hi -> lo <= Math_max lo (Math_min hi x) <= hi.
Proof.
  intros H. unfold Math_max, Math_min.
  destruct (Qleb hi x) eqn:E1.
  - destruct (Qleb lo hi) eqn:E2; [lra|]. apply Qleb_gt in E2. lra.
  - apply Qleb_gt in E1. destruct (Qleb lo x) eqn:E2.
    + apply Qleb_le in E2. lra.
    + lra.
Qed.

Lemma same_size_if (c : bool) f : same_size f -> same_size (fun p => if c then f p else p).
Proof. intros H p. destruct c; [apply H|auto]. Qed.

(** X3.  After the movement of a step the player is on the canvas, its width from
    the sides and its height from top and bottom, whatever keys are down and
    whatever gravity pulls; its size has not changed. *)
Theorem player_stays_on_canvas env speed s :
  p_width (player s) <= env_CANVAS_WIDTH env - p_width (player s) ->
  p_height (player s) <= env_CANVAS_HEIGHT env - p_height (player s) ->
  let p' := player (move_player env speed s) in
  p_width (player s) <= p_x p' <= env_CANVAS_WIDTH env - p_width (player s)
  /\ p_height (player s) <= p_y p' <= env_CANVAS_HEIGHT env - p_height (player s)
  /\ p_width p' = p_width (player s) /\ p_height p' = p_height (player s).
Proof.
  intros Hw Hh.
  pose (keyed := fun (c : bool) (f : Player -> Player) p => if c then f p else p).
  pose (up := keyed (pressed "ArrowUp" s || pressed "KeyW" s)
                (fun p => set_p_y (Math_max (p_height p) (p_y p - speed)) p)).
  pose (down := keyed (pressed "ArrowDown" s || pressed "KeyS" s)
                  (fun p => set_p_y (Math_min (env_CANVAS_HEIGHT env - p_height p)
                                       (p_y p + speed)) p)).
  pose (left := keyed (pressed "ArrowLeft" s || pressed "KeyA" s)
                  (fun p => set_p_x (Math_max (p_width p) (p_x p - speed)) p)).
  pose (right := keyed (pressed "ArrowRight" s || pressed "KeyD" s)
                   (fun p => set_p_x (Math_min (env_CANVAS_WIDTH env - p_width p)
                                        (p_x p + speed)) p)).
  pose (push := fun p => set_p_y (p_y p + p_vy p) (set_p_x (p_x p + p_vx p) p)).
  pose (clampX := fun p =>
          set_p_x (Math_max (p_width p)
                     (Math_min (env_CANVAS_WIDTH env - p_width p) (p_x p))) p).
  pose (clampY := fun p =>
          set_p_y (Math_max (p_height p)
                     (Math_min (env_CANVAS_HEIGHT env - p_height p) (p_y p))) p).
  change (player (move_player env speed s))
    with (clampY (clampX (push (right (left (down (up (player s)))))))).
  assert (Hsz : same_size (fun p => push (right (left (down (up p)))))).
  { intros p. subst push right left down up keyed. cbv beta.
    repeat match goal with |- context [if ?c then _ else _] => destruct c end;
      split; reflexivity. }
  destruct (Hsz (player s)) as (H1 & H2).
  set (q := push (right (left (down (up (player s)))))) in *. clearbody q.
  subst clampX clampY. cbv beta.
  change (p_width q = p_width (player s)) in H1.
  change (p_height q = p_height (player s)) in H2.
  cbn [p_x p_y p_width p_height set_p_x set_p_y].
  rewrite H1, H2. split; [now apply clamp_bounds|].
  split; [now apply clamp_bounds|split; reflexivity].
Qed.

Lemma player_stays_on_canvas_witness :
  let s := with_keys ["ArrowLeft"; "ArrowUp"] (a_world 0 (a_player 100 0 0 []) [] []) in
  let p' := player (move_player quiet_env 5000 s) in
  p_width (player s) <= p_x p' <= env_CANVAS_WIDTH quiet_env - p_width (player s)
  /\ p_height (player s) <= p_y p' <= env_CANVAS_HEIGHT quiet_env - p_height (player s)
  /\ p_width p' = p_width (player s) /\ p_height p' = p_height (player s).
Proof.
  apply (player_stays_on_canvas quiet_env 5000
           (with_keys ["ArrowLeft"; "ArrowUp"] (a_world 0 (a_player 100 0 0 []) [] [])));
    cbn; lra.
Defined.

Lemma tick_buffs_lookup m key :
  tick_buffs m !! key
  = match m !! key with Some (S v) => Some v | _ => None end.
Proof.
  unfold tick_buffs. rewrite lookup_omap.
  destruct (m !! key) as [[|v]|]; reflexivity.
Qed.

Lemma buff_runs_down m key d k :
  m !! key = Some d ->
  Nat.iter k tick_buffs m !! key
  = if (k <=? d)%nat then Some (d - k)%nat else None.
Proof.
  intros Hm. induction k as [|k IH].
  - cbn. rewrite Hm. f_equal. lia.
  - change (Nat.iter (S k) tick_buffs m) with (tick_buffs (Nat.iter k tick_buffs m)).
    rewrite tick_buffs_lookup, IH.
    destruct (Nat.leb_spec k d), (Nat.leb_spec (S k) d); try lia.
    + destruct (d - k)%nat eqn:E; [lia|]. f_equal. lia.
    + destruct (d - k)%nat eqn:E; [reflexivity|lia].
    + reflexivity.
Qed.

(** X4.  A time-dilation buff with [d] frames left: the time scale that is
    computed after [k] ticks of the table of buffs is 0.2 if [k < d] and 1
    otherwise; the entry counts down by one a tick and is deleted on the
    tick after it reached 0. *)
Theorem time_dilation_runs_out m d k :
  m !! spell_key TIME_DILATOR = Some d ->
  timeScale_of (Nat.iter k tick_buffs m) = (if (k <? d)%nat then 0.2 else 1.0)
  /\ Nat.iter k tick_buffs m !! spell_key TIME_DILATOR
     = (if (k <=? d)%nat then Some (d - k)%nat else None).
Proof.
  intros Hm. split; [|now apply buff_runs_down].
  unfold timeScale_of. rewrite (buff_runs_down m _ d k Hm).
  destruct (Nat.leb_spec k d), (Nat.ltb_spec k d); try lia.
  - destruct (d - k)%nat eqn:E; [lia|reflexivity].
  - destruct (d - k)%nat eqn:E; [reflexivity|lia].
  - reflexivity.
Qed.

Lemma time_dilation_runs_out_witness :
  let m : gmap string nat := <[spell_key TIME_DILATOR := 300%nat]> ∅ in
  (timeScale_of (Nat.iter 299 tick_buffs m) = (if (299 <? 300)%nat then 0.2 else 1.0)
   /\ Nat.iter 299 tick_buffs m !! spell_key TIME_DILATOR
      = (if (299 <=? 300)%nat then Some (300 - 299)%nat else None))
  /\ (timeScale_of (Nat.iter 300 tick_buffs m) = (if (300 <? 300)%nat then 0.2 else 1.0)
      /\ Nat.iter 300 tick_buffs m !! spell_key TIME_DILATOR
         = (if (300 <=? 300)%nat then Some (300 - 300)%nat else None)).
Proof.
  split.
  - apply (time_dilation_runs_out (<[spell_key TIME_DILATOR := 300%nat]> ∅) 300 299).
    apply lookup_insert_eq.
  - apply (time_dilation_runs_out (<[spell_key TIME_DILATOR := 300%nat]> ∅) 300 300).
    apply lookup_insert_eq.
Defined.

Lemma upd_player_twice f g s :
  upd_player f (upd_player g s) = upd_player (fun p => f (g p)) s.
Proof. reflexivity. Qed.

(** X5.  While the invulnerability counter of the player is positive the stage of
    the hits on the player does nothing but count it down. *)
Theorem invulnerable_player_is_not_hit env k s :
  (k <= p_invulnerableTime (player s))%nat ->
  Nat.iter k (player_hits env) s
  = upd_player (set_p_invulnerableTime (p_invulnerableTime (player s) - k)) s.
Proof.
  induction k as [|k IH]; intros Hk.
  - cbn [Nat.iter nat_rect]. rewrite Nat.sub_0_r.
    destruct s as [p]. destruct p. reflexivity.
  - change (Nat.iter (S k) (player_hits env) s)
      with (player_hits env (Nat.iter k (player_hits env) s)).
    rewrite IH by lia. unfold player_hits.
    change (p_invulnerableTime (player (upd_player (set_p_invulnerableTime ?t) s)))
      with t.
    destruct (p_invulnerableTime (player s) - k)%nat as [|t] eqn:E; [lia|].
    rewrite upd_player_twice. unfold upd_player. f_equal.
    replace (p_invulnerableTime (player s) - S k)%nat with t by lia.
    reflexivity.
Qed.

Lemma invulnerable_player_is_not_hit_witness :
  let s := take_hit quiet_env
             (a_world 0 (a_player 100 0 0 []) [shot_on_player; shot_on_player] []) in
  Nat.iter 60 (player_hits quiet_env) s
  = upd_player (set_p_invulnerableTime (p_invulnerableTime (player s) - 60)) s.
Proof.
  apply (invulnerable_player_is_not_hit quiet_env 60
           (take_hit quiet_env
              (a_world 0 (a_player 100 0 0 []) [shot_on_player; shot_on_player] []))).
  vm_compute. reflexivity.
Defined.

Lemma Math_max_ge_l a b : a <= Math_max a b.
Proof.
  unfold Math_max. destruct (Qleb a b) eqn:E; [now apply Qleb_le in E|lra].
Qed.

Lemma player_strike_each env dmg rad s : player (strike_each env dmg rad s) = player s.
Proof.
  unfold strike_each.
  apply (for_indices_invariant (fun s' => player s' = player s)); [reflexivity|].
  intros s' i H. cbn. destruct (_ !! i); exact H.
Qed.

Lemma spell_effect_cooldowns env sp lvl s :
  p_spellCooldowns (player (spell_effect env sp lvl s)) = p_spellCooldowns (player s).
Proof.
  unfold spell_effect. destruct sp; cbv zeta;
    repeat match goal with |- context [if ?c then _ else _] => destruct c end;
    rewrite ?player_strike_each; reflexivity.
Qed.

(** X6.  A spell that is cooling down cannot be cast, and a spell that is cast is
    given a cooldown of at least 60 frames, whatever boosters and level
    bonuses take off it. *)
Theorem spell_cooldown_floor env i s sp cd :
  p_equippedSpells (player s) !! i = Some sp ->
  p_spellCooldowns (player s) !! i = Some cd ->
  (0 < cd -> activateSpell env i s = s)
  /\ (cd <= 0 ->
      exists cd', p_spellCooldowns (player (activateSpell env i s)) !! i = Some cd'
                  /\ 60 <= cd').
Proof.
  intros Hsp Hcd. unfold activateSpell. rewrite Hsp, Hcd. split.
  - intros H. apply Qleb_gt in H. now rewrite H.
  - intros H. apply Qleb_le in H. rewrite H. cbv zeta.
    rewrite spell_effect_cooldowns. cbn.
    rewrite list_lookup_insert_eq by (eapply lookup_lt_Some; eauto).
    eexists. split; [reflexivity|]. apply Math_max_ge_l.
Qed.

Lemma spell_cooldown_floor_witness :
  let s := world_spell PHANTOM_DASH 3 0 in
  (0 < 0 -> activateSpell quiet_env 0 s = s)
  /\ (0 <= 0 ->
      exists cd', p_spellCooldowns (player (activateSpell quiet_env 0 s)) !! 0%nat = Some cd'
                  /\ 60 <= cd').
Proof.
  apply (spell_cooldown_floor quiet_env 0 (world_spell PHANTOM_DASH 3 0) PHANTOM_DASH 0);
    reflexivity.
Defined.


(** ** The collision pass and the payout *)

Lemma grows_trans a b c : grows a b -> grows b c -> grows a c.
Proof.
  intros (A1 & A2 & A3) (B1 & B2 & B3). repeat split; auto. congruence.
Qed.

Lemma bullets_grow_refl s : bullets_grow s s.
Proof. intros k b H. exists b. split; [exact H|apply grows_refl]. Qed.

Lemma bullets_grow_trans s1 s2 s3 :
  bullets_grow s1 s2 -> bullets_grow s2 s3 -> bullets_grow s1 s3.
Proof.
  intros H1 H2 k b Hb. destruct (H1 k b Hb) as (b' & Hb' & G1).
  destruct (H2 k b' Hb') as (b'' & Hb'' & G2).
  exists b''. split; [exact Hb''|eapply grows_trans; eauto].
Qed.

Lemma bullets_grow_eq s s' : bullets s' = bullets s -> bullets_grow s s'.
Proof. intros E k b H. exists b. rewrite E. split; [exact H|apply grows_refl]. Qed.

Lemma bullets_grow_upd j f s :
  (forall b, grows b (f b)) -> bullets_grow s (upd_bullet j f s).
Proof.
  intros Hf k b Hb. cbn. destruct (decide (k = j)) as [->|Hne].
  - exists (f b). rewrite list_lookup_alter_eq, Hb. split; [reflexivity|apply Hf].
  - exists b. rewrite list_lookup_alter_ne by auto. split; [exact Hb|apply grows_refl].
Qed.

Lemma bullets_grow_write j b b' s :
  bullets s !! j = Some b -> grows b b' -> bullets_grow s (write_bullet j b' s).
Proof.
  intros Hj G k b0 Hb. cbn. destruct (decide (k = j)) as [->|Hne].
  - exists b'. rewrite list_lookup_insert_eq by (eapply lookup_lt_Some; eauto).
    split; [reflexivity|]. congruence.
  - exists b0. rewrite list_lookup_insert_ne by auto. split; [exact Hb|apply grows_refl].
Qed.

Lemma bullets_grow_push l s : bullets_grow s (push_bullets l s).
Proof.
  intros k b Hb. exists b. cbn. rewrite lookup_app_l by (eapply lookup_lt_Some; eauto).
  split; [exact Hb|apply grows_refl].
Qed.

Lemma grows_push b id :
  grows b (set_b_hitList (Some (default [] (b_hitList b) ++ [id])) b).
Proof. repeat split; auto. intros id'. apply in_hitList_push. Qed.

Lemma on_hit_grow env j b e s :
  bullets s !! j = Some b -> bullets_grow s (on_hit env j b e s).
Proof.
  intros Hb. unfold on_hit. cbv zeta.
  destruct (_ && _ && _ && _).
  { eapply bullets_grow_trans; [|apply bullets_grow_upd; apply grows_dead].
    apply bullets_grow_eq. destruct (bool_decide _); [|reflexivity].
    apply (foldl_invariant (fun s' => bullets s' = bullets s)); [reflexivity|].
    intros a _ Ha. exact Ha. }
  destruct (_ && _).
  { eapply bullets_grow_write; [exact Hb|].
    eapply grows_trans; [apply (grows_push b (e_id e))|].
    destruct (nextTarget _ _ _); repeat split; auto. }
  destruct (b_piercing b).
  { eapply bullets_grow_write; [exact Hb|].
    eapply grows_trans; [apply (grows_push b (e_id e))|].
    destruct (bool_decide _); [|apply grows_refl].
    cbn [b_chainCount set_b_hitList].
    destruct (b_chainCount b) as [c|]; [|apply grows_refl].
    destruct (c - 1 <=? 0)%Z; repeat split; auto. }
  destruct (_ && _); [apply bullets_grow_upd; apply grows_dead|apply bullets_grow_refl].
Qed.

Lemma pair_step_grow env j s i : bullets_grow s (pair_step env j s i).
Proof.
  unfold pair_step.
  destruct (bullets s !! j) as [b|] eqn:Hb; [|apply bullets_grow_refl].
  destruct (enemies s !! i) as [e|]; [|apply bullets_grow_refl].
  destruct (skips b e); [apply bullets_grow_refl|].
  destruct (reflects b e).
  { eapply bullets_grow_trans; [|apply bullets_grow_push].
    apply bullets_grow_upd. apply grows_dead. }
  destruct (shield_blocks b e).
  { eapply bullets_grow_trans; [|apply (bullets_grow_upd j (set_b_dead true)), grows_dead].
    apply bullets_grow_eq. reflexivity. }
  destruct (touches b e); [|apply bullets_grow_refl].
  unfold direct_hit. destruct (bool_decide _).
  { eapply bullets_grow_trans; [|apply (bullets_grow_upd j (set_b_dead true)), grows_dead].
    apply bullets_grow_eq. reflexivity. }
  cbv zeta.
  eapply bullets_grow_trans; [|apply bullets_grow_eq, bullets_settle_death].
  match goal with |- context [on_hit env j b e ?s1] =>
    apply (bullets_grow_trans s s1); [apply bullets_grow_eq|apply on_hit_grow] end.
  - destruct (_ && _); reflexivity.
  - destruct (_ && _); exact Hb.
Qed.

Lemma mine_step_grow env j s m : bullets_grow s (mine_step env j s m).
Proof.
  unfold mine_step.
  destruct (bullets s !! j) as [b|]; [|apply bullets_grow_refl].
  destruct (bullets s !! m) as [mine|]; [|apply bullets_grow_refl].
  destruct (dist_lt _ _ _ _ _); [|apply bullets_grow_refl].
  cbv zeta.
  eapply bullets_grow_trans; [apply (bullets_grow_upd j (set_b_dead true)), grows_dead|].
  eapply bullets_grow_trans; [|apply bullets_grow_eq; reflexivity].
  apply bullets_grow_upd. intros b0. destruct (truthy _); repeat split; auto.
Qed.

Lemma bullet_vs_enemies_grow env s j : bullets_grow s (bullet_vs_enemies env s j).
Proof.
  unfold bullet_vs_enemies.
  destruct (bullets s !! j) as [b|]; [|apply bullets_grow_refl].
  destruct (b_isVortex b); [apply bullets_grow_refl|].
  set (s1 := for_indices _ _ s).
  assert (H1 : bullets_grow s s1).
  { apply (for_indices_invariant (fun s' => bullets_grow s s')); [apply bullets_grow_refl|].
    intros s' i H. eapply bullets_grow_trans; [exact H|apply pair_step_grow]. }
  clearbody s1. eapply bullets_grow_trans; [exact H1|].
  unfold mine_check. destruct (bullets s1 !! j) as [b1|]; [|apply bullets_grow_refl].
  destruct (_ && _); [|apply bullets_grow_refl].
  apply (foldl_invariant (fun s' => bullets_grow s1 s')); [apply bullets_grow_refl|].
  intros s' m H. eapply bullets_grow_trans; [exact H|apply mine_step_grow].
Qed.

(** X7.  Through the collisions every projectile stays at its index; its hit-list
    only gains ids, it does not come back from the dead and it stays piercing
    or not as it was. *)
Theorem collision_pass_only_grows env s k b :
  bullets s !! k = Some b ->
  exists b', bullets (collide env s) !! k = Some b'
    /\ (forall id, in_hitList b id = true -> in_hitList b' id = true)
    /\ (b_dead b = true -> b_dead b' = true)
    /\ b_piercing b' = b_piercing b.
Proof.
  revert k b. change (bullets_grow s (collide env s)). unfold collide.
  apply (foldl_invariant (fun s' => bullets_grow s s')); [apply bullets_grow_refl|].
  intros s' j H. eapply bullets_grow_trans; [exact H|apply bullet_vs_enemies_grow].
Qed.

Lemma collision_pass_only_grows_witness :
  exists b', bullets (collide quiet_env world_pierce) !! 0%nat = Some b'
    /\ (forall id, in_hitList (laser_at 100 100) id = true -> in_hitList b' id = true)
    /\ (b_dead (laser_at 100 100) = true -> b_dead b' = true)
    /\ b_piercing b' = b_piercing (laser_at 100 100).
Proof.
  apply (collision_pass_only_grows quiet_env world_pierce 0 (laser_at 100 100)).
  reflexivity.
Defined.

Lemma stays_refl e : stays e e.
Proof. repeat split; auto. Qed.

Lemma stays_trans a b c : stays a b -> stays b c -> stays a c.
Proof.
  intros (A1 & A2 & A3 & A4 & A5 & A6) (B1 & B2 & B3 & B4 & B5 & B6).
  repeat split; try congruence. auto.
Qed.

Lemma enemies_stay_refl s : enemies_stay s s.
Proof.
  unfold enemies_stay. induction (enemies s); constructor; auto using stays_refl.
Qed.

Lemma enemies_stay_trans s1 s2 s3 :
  enemies_stay s1 s2 -> enemies_stay s2 s3 -> enemies_stay s1 s3.
Proof.
  unfold enemies_stay. generalize (enemies s1) (enemies s2) (enemies s3).
  intros l1 l2 l3 H. revert l3.
  induction H as [|a b l1 l2 Hab H IH]; intros l3 H3; inversion H3; subst;
    constructor; eauto using stays_trans.
Qed.

Lemma enemies_stay_eq s s' : enemies s' = enemies s -> enemies_stay s s'.
Proof. unfold enemies_stay. intros ->. apply enemies_stay_refl. Qed.

Lemma Forall2_map_stays f l : (forall e, stays e (f e)) -> Forall2 stays l (map f l).
Proof. intros Hf. induction l; constructor; auto. Qed.

Lemma Forall2_alter_stays f i l : (forall e, stays e (f e)) -> Forall2 stays l (alter f i l).
Proof.
  intros Hf. revert i. induction l as [|a l IH]; intros [|i]; cbn; constructor; auto.
  - clear IH. induction l; constructor; auto using stays_refl.
  - apply stays_refl.
Qed.

Lemma enemies_stay_upd i f s : (forall e, stays e (f e)) -> enemies_stay s (upd_enemy i f s).
Proof. intros Hf. now apply Forall2_alter_stays. Qed.

Lemma stays_explode x y r d e : stays e (explode_enemy x y r d e).
Proof. unfold explode_enemy. break_ifs; repeat split; auto. Qed.

Lemma enemies_stay_explosion env x y r d s : enemies_stay s (createExplosion env x y r d s).
Proof. apply Forall2_map_stays. intros e. apply stays_explode. Qed.

Lemma enemies_stay_boss_defeated env s : enemies_stay s (boss_defeated env s).
Proof.
  assert (H : enemies_stay s (cascade (set_bossRef None (set_bossActive false
                (set_bossKills (S (bossKills s)) s))))).
  { apply Forall2_map_stays. intros e. destruct (is_dependent e); repeat split; auto. }
  unfold boss_defeated. cbv zeta.
  destruct (env_practiceMode env); [exact H|].
  destruct (_ && _); exact H.
Qed.

Lemma enemies_stay_payout env b i e s : enemies_stay s (payout env b i e s).
Proof.
  unfold payout, random. cbv zeta.
  eapply enemies_stay_trans;
    [apply (enemies_stay_upd i (set_e_dead true)); intros; repeat split; auto|].
  match goal with |- context [if ?c then boss_defeated env ?w else _] =>
    apply (enemies_stay_trans _ w);
      [|destruct c; [apply enemies_stay_boss_defeated|apply enemies_stay_refl]] end.
  eapply enemies_stay_trans; [|destruct (bool_decide (e_type e = T_kamikaze));
                                [apply enemies_stay_explosion|apply enemies_stay_refl]].
  eapply enemies_stay_trans; [|destruct (_ && _);
                                [apply enemies_stay_explosion|apply enemies_stay_refl]].
  apply enemies_stay_eq. reflexivity.
Qed.

Lemma enemies_stay_settle_death env j i s : enemies_stay s (settle_death env j i s).
Proof.
  unfold settle_death. destruct (bullets s !! j); [|apply enemies_stay_refl].
  destruct (enemies s !! i); [|apply enemies_stay_refl].
  destruct (_ && _); [apply enemies_stay_payout|apply enemies_stay_refl].
Qed.

Lemma enemies_stay_bullets s s' bs :
  enemies_stay s s' -> enemies_stay s (set_bullets bs s').
Proof. intros H. exact H. Qed.

Lemma enemies_stay_on_hit env j b e s : enemies_stay s (on_hit env j b e s).
Proof.
  unfold on_hit. cbv zeta.
  destruct (_ && _ && _ && _).
  { apply enemies_stay_bullets.
    eapply enemies_stay_trans; [apply enemies_stay_explosion|].
    destruct (bool_decide _); [|apply enemies_stay_refl].
    match goal with |- enemies_stay ?s0 _ =>
      apply (foldl_invariant (fun s' => enemies_stay s0 s')); [apply enemies_stay_refl|] end.
    intros a _ Ha. eapply enemies_stay_trans; [exact Ha|].
    unfold random. cbv zeta.
    eapply enemies_stay_trans; [|apply enemies_stay_explosion].
    apply enemies_stay_eq. reflexivity. }
  destruct (_ && _); [apply enemies_stay_bullets, enemies_stay_refl|].
  destruct (b_piercing b); [apply enemies_stay_bullets, enemies_stay_refl|].
  destruct (_ && _); [apply enemies_stay_bullets|]; apply enemies_stay_refl.
Qed.

Lemma enemies_stay_pair_step env j s i : enemies_stay s (pair_step env j s i).
Proof.
  unfold pair_step.
  destruct (bullets s !! j) as [b|]; [|apply enemies_stay_refl].
  destruct (enemies s !! i) as [e|]; [|apply enemies_stay_refl].
  destruct (skips b e); [apply enemies_stay_refl|].
  destruct (reflects b e); [apply enemies_stay_bullets, enemies_stay_bullets, enemies_stay_refl|].
  destruct (shield_blocks b e).
  { apply enemies_stay_bullets.
    apply enemies_stay_upd. intros e0. destruct (truthy _); repeat split; auto. }
  destruct (touches b e); [|apply enemies_stay_refl].
  unfold direct_hit. destruct (bool_decide _).
  { apply enemies_stay_bullets, enemies_stay_explosion. }
  cbv zeta.
  eapply enemies_stay_trans; [|apply enemies_stay_settle_death].
  eapply enemies_stay_trans; [|apply enemies_stay_on_hit].
  match goal with |- enemies_stay s (if ?c then _ else ?s1) =>
    apply (enemies_stay_trans s s1);
      [apply enemies_stay_upd; intros e0; repeat split; auto
      |destruct c; [apply enemies_stay_explosion|apply enemies_stay_refl]] end.
Qed.

Lemma enemies_stay_mine_step env j s m : enemies_stay s (mine_step env j s m).
Proof.
  unfold mine_step.
  destruct (bullets s !! j) as [b|]; [|apply enemies_stay_refl].
  destruct (bullets s !! m) as [mine|]; [|apply enemies_stay_refl].
  destruct (dist_lt _ _ _ _ _); [|apply enemies_stay_refl].
  cbv zeta. eapply enemies_stay_trans; [|apply enemies_stay_explosion].
  apply enemies_stay_bullets, enemies_stay_bullets, enemies_stay_refl.
Qed.

(** X8.  The collisions move no enemy, add none and remove none, change no id,
    type or ghost flag, and revive none. *)
Theorem collision_pass_keeps_enemies_in_place env s :
  Forall2 stays (enemies s) (enemies (collide env s)).
Proof.
  change (enemies_stay s (collide env s)). unfold collide.
  apply (foldl_invariant (fun s' => enemies_stay s s')); [apply enemies_stay_refl|].
  intros s' j H. eapply enemies_stay_trans; [exact H|].
  unfold bullet_vs_enemies.
  destruct (bullets s' !! j) as [b|]; [|apply enemies_stay_refl].
  destruct (b_isVortex b); [apply enemies_stay_refl|].
  set (s1 := for_indices _ _ s').
  assert (H1 : enemies_stay s' s1).
  { apply (for_indices_invariant (fun s2 => enemies_stay s' s2)); [apply enemies_stay_refl|].
    intros s2 i H2. eapply enemies_stay_trans; [exact H2|apply enemies_stay_pair_step]. }
  clearbody s1. eapply enemies_stay_trans; [exact H1|].
  unfold mine_check. destruct (bullets s1 !! j) as [b1|]; [|apply enemies_stay_refl].
  destruct (_ && _); [|apply enemies_stay_refl].
  apply (foldl_invariant (fun s2 => enemies_stay s1 s2)); [apply enemies_stay_refl|].
  intros s2 m H2. eapply enemies_stay_trans; [exact H2|apply enemies_stay_mine_step].
Qed.

Lemma payout_after_flag env b i e s :
  enemies_stay (upd_enemy i (set_e_dead true) s) (payout env b i e s).
Proof.
  unfold payout, random. cbv zeta.
  match goal with |- context [if ?c then boss_defeated env ?w else _] =>
    apply (enemies_stay_trans _ w);
      [|destruct c; [apply enemies_stay_boss_defeated|apply enemies_stay_refl]] end.
  eapply enemies_stay_trans; [|destruct (bool_decide (e_type e = T_kamikaze));
                                [apply enemies_stay_explosion|apply enemies_stay_refl]].
  eapply enemies_stay_trans; [|destruct (_ && _);
                                [apply enemies_stay_explosion|apply enemies_stay_refl]].
  apply enemies_stay_eq. reflexivity.
Qed.

Lemma payout_marks_dead env b i e s :
  enemies s !! i = Some e ->
  exists e', enemies (payout env b i e s) !! i = Some e' /\ e_dead e' = true.
Proof.
  intros He. pose proof (payout_after_flag env b i e s) as H.
  unfold enemies_stay in H.
  assert (H0 : enemies (upd_enemy i (set_e_dead true) s) !! i = Some (set_e_dead true e)).
  { cbn. now rewrite list_lookup_alter_eq, He. }
  destruct (Forall2_lookup_l _ _ _ _ _ H H0) as (e' & He' & Hs).
  exists e'. split; [exact He'|]. apply Hs. reflexivity.
Qed.

(** X9.  The payout of a direct kill is not repeated: once the test of line 1892 has
    been settled for an enemy, settling it again, for the same or another
    projectile, changes nothing. *)
Theorem a_death_is_paid_once env j j' i s b :
  bullets s !! j = Some b ->
  settle_death env j' i (settle_death env j i s) = settle_death env j i s.
Proof.
  intros Hb. unfold settle_death at 2 3. rewrite Hb.
  destruct (enemies s !! i) as [e|] eqn:He.
  - destruct (Qleb (e_hp e) 0 && negb (e_dead e)) eqn:Hc.
    + destruct (payout_marks_dead env b i e s He) as (e' & He' & Hd).
      unfold settle_death. rewrite bullets_payout, He', Hd.
      rewrite andb_false_r. now destruct (bullets s !! j').
    + unfold settle_death. rewrite He, Hc. now destruct (bullets s !! j').
  - unfold settle_death. rewrite He. now destruct (bullets s !! j').
Qed.

Lemma a_death_is_paid_once_witness :
  settle_death quiet_env 0 0 (settle_death quiet_env 0 0 world_spent)
  = settle_death quiet_env 0 0 world_spent.
Proof.
  apply (a_death_is_paid_once quiet_env 0 0 0 world_spent (plasma_at 300 100)).
  reflexivity.
Defined.

Lemma loot_factor_pos env s : (0 < loot_factor env s)%Z.
Proof.
  unfold loot_factor, lootMult.
  destruct (difficulty s), (env_activeBoosters env LOOT_UP); vm_compute; reflexivity.
Qed.

Lemma Qfloor_three r : 0 <= r -> r < 1 -> (0 <= Qfloor (r * 3) <= 2)%Z.
Proof.
  intros H0 H1. split.
  - change 0%Z with (Qfloor 0). apply Qfloor_resp_le. lra.
  - assert (H : (Qfloor (r * 3) < 3)%Z); [|lia].
    pose proof (Qfloor_le (r * 3)) as Hle.
    assert (Hlt : inject_Z (Qfloor (r * 3)) < 3) by lra.
    change 3 with (inject_Z 3) in Hlt. now rewrite <- Zlt_Qlt in Hlt.
Qed.

Lemma dataFragments_boss_defeated env s :
  dataFragments (boss_defeated env s) = dataFragments s
  /\ kills (boss_defeated env s) = kills s.
Proof.
  unfold boss_defeated. destruct (env_practiceMode env); [split; reflexivity|].
  cbv zeta. destruct (_ && _); split; reflexivity.
Qed.

(** X10.  A payout counts one kill and adds between 2 and 4 fragments times the
    loot multipliers of the difficulty, of the boss rush and of the loot
    booster (for a random value in [0, 1)); for any enemy but a boss it adds
    the score value of the enemy and nothing else to the score. *)
Theorem kill_reward_bounds env b i e s :
  0 <= env_Math_random env (rng s) -> env_Math_random env (rng s) < 1 ->
  let s' := payout env b i e s in
  kills s' = S (kills s)
  /\ (dataFragments s + 2 * loot_factor env s <= dataFragments s'
      <= dataFragments s + 4 * loot_factor env s)%Z
  /\ (e_type e <> T_boss -> score s' = (score s + e_scoreValue e)%Z).
Proof.
  intros H0 H1. unfold payout, random. cbv zeta.
  pose proof (Qfloor_three _ H0 H1) as Hf.
  pose proof (loot_factor_pos env s) as Hl.
  match goal with |- context [if ?c then boss_defeated env ?w else _] =>
    set (s1 := w);
    assert (Hk : kills s1 = S (kills s)
                 /\ dataFragments s1
                    = (dataFragments s
                       + (Qfloor (env_Math_random env (rng s) * 3) + 2)
                         * loot_factor env s)%Z
                 /\ score s1 = (score s + e_scoreValue e)%Z)
  end.
  { subst s1. destruct (bool_decide (e_type e = T_kamikaze)), (_ && _);
      (split; [reflexivity|split; [|reflexivity]]);
      cbn; unfold loot_factor; lia. }
  clearbody s1. destruct Hk as (K1 & K2 & K3).
  destruct (bool_decide (e_type e = T_boss)) eqn:Hb.
  - destruct (dataFragments_boss_defeated env s1) as (D1 & D2).
    rewrite D1, D2, K1, K2. split; [reflexivity|]. split; [nia|].
    intros Hne. apply bool_decide_eq_true in Hb. contradiction.
  - rewrite K1, K2, K3. split; [reflexivity|]. split; [nia|auto].
Qed.

Lemma kill_reward_bounds_witness :
  let s' := payout quiet_env (plasma_at 300 100) 0
              (spawned "e_1" T_drone 300 100 12 0 100) world_spent in
  kills s' = S (kills world_spent)
  /\ (dataFragments world_spent + 2 * loot_factor quiet_env world_spent
      <= dataFragments s'
      <= dataFragments world_spent + 4 * loot_factor quiet_env world_spent)%Z
  /\ (e_type (spawned "e_1" T_drone 300 100 12 0 100) <> T_boss ->
      score s' = (score world_spent + e_scoreValue (spawned "e_1" T_drone 300 100 12 0 100))%Z).
Proof.
  apply (kill_reward_bounds quiet_env (plasma_at 300 100) 0
           (spawned "e_1" T_drone 300 100 12 0 100) world_spent); cbn; lra.
Defined.


(** ** Firing *)

Lemma appends_refl P s : appends P s s.
Proof. repeat split. exists []. now rewrite app_nil_r. Qed.

Lemma appends_trans P s1 s2 s3 : appends P s1 s2 -> appends P s2 s3 -> appends P s1 s3.
Proof.
  intros (A1 & A2 & l1 & A3 & A4) (B1 & B2 & l2 & B3 & B4).
  repeat split; try congruence.
  exists (l1 ++ l2). rewrite B3, A3, app_assoc. split; [reflexivity|].
  apply Forall_app; auto.
Qed.

Lemma appends_push P l s : Forall P l -> appends P s (push_bullets l s).
Proof. intros H. repeat split. now exists l. Qed.

Lemma appends_weaken (P Q : Bullet -> Prop) s s' :
  (forall b, P b -> Q b) -> appends P s s' -> appends Q s s'.
Proof.
  intros H (A1 & A2 & l & A3 & A4). repeat split; auto.
  exists l. split; [exact A3|]. eapply Forall_impl; eauto.
Qed.

Lemma appends_rng P s s' n : appends P (set_rng n s) s' -> appends P s s'.
Proof. intros H. exact H. Qed.

Lemma fresh_player_shot w x y wd h vx vy d : fresh_shot w (player_shot w x y wd h vx vy d).
Proof. repeat split. Qed.

Ltac fresh_now :=
  repeat first [apply Forall_cons; split | apply Forall_nil];
  repeat split.

Lemma emit_appends env w lvl dmgMult s :
  appends (fresh_shot w) s (emit env w lvl dmgMult s).
Proof.
  unfold emit. cbv zeta. destruct w.
  - (* plasma *)
    destruct (3 <=? lvl)%nat.
    + eapply appends_trans; apply appends_push; fresh_now.
    + apply appends_push; fresh_now.
  - (* needles *)
    apply (foldl_invariant (fun s' => appends (fresh_shot HOMING_NEEDLES) s s'));
      [apply appends_refl|].
    intros a k Ha. unfold random. cbv zeta.
    eapply appends_trans; [exact Ha|]. apply appends_rng with (n := S (rng a)).
    apply appends_push. fresh_now.
  - (* shotgun *)
    apply appends_push. apply Forall_forall. intros b Hb.
    apply list_elem_of_fmap in Hb as (z & -> & _). repeat split.
  - (* laser *) apply appends_push; fresh_now.
  - (* wave *)
    destruct (3 <=? lvl)%nat.
    + eapply appends_trans; apply appends_push; fresh_now.
    + apply appends_push; fresh_now.
  - (* orbs *)
    destruct (_ && _); [apply appends_push; fresh_now|apply appends_refl].
  - (* rocket *)
    unfold random. apply appends_rng with (n := S (rng s)). apply appends_push; fresh_now.
  - (* chain *) apply appends_push; fresh_now.
  - (* back turret *)
    destruct (3 <=? lvl)%nat.
    + eapply appends_trans; apply appends_push; fresh_now.
    + apply appends_push; fresh_now.
  - (* vortex *)
    destruct (_ =? _)%nat; [|apply appends_refl].
    unfold random. apply appends_rng with (n := S (rng s)). apply appends_push; fresh_now.
  - (* gauss *)
    destruct (_ =? _)%nat; [apply appends_push; fresh_now|apply appends_refl].
  - (* nova *)
    destruct (_ =? _)%nat; [apply appends_push; fresh_now|apply appends_refl].
  - (* blades *)
    destruct (_ =? _)%nat; [|apply appends_refl].
    apply (foldl_invariant (fun s' => appends (fresh_shot PHASE_BLADES) s s'));
      [apply appends_refl|].
    intros a k Ha. unfold random. cbv zeta.
    eapply appends_trans; [exact Ha|].
    apply appends_rng with (n := S (S (rng a))). apply appends_push. fresh_now.
Qed.

Lemma fire_weapon_appends env dmgMult s w :
  appends (fresh_shot w) s (fire_weapon env dmgMult s w).
Proof.
  unfold fire_weapon. cbv zeta.
  destruct (emit_appends env w (p_weaponLevels (player s) w) dmgMult
              (set_shotsFired (S (shotsFired s)) s)) as (A1 & A2 & l & A3 & A4).
  repeat split; auto. now exists l.
Qed.

(** X11.  Firing touches neither the player nor the enemies and only appends
    projectiles: each of them is a live projectile of the player of age 0
    that carries the id of one of the equipped weapons and is no mine. *)
Theorem fire_appends_player_shots env overclocked s :
  player (fire env overclocked s) = player s
  /\ enemies (fire env overclocked s) = enemies s
  /\ exists l, bullets (fire env overclocked s) = bullets s ++ l
               /\ Forall (shot_of_loadout s) l.
Proof.
  change (appends (shot_of_loadout s) s (fire env overclocked s)).
  unfold fire. destruct (_ || _); [|apply appends_refl].
  destruct (_ =? _)%nat; [|apply appends_refl]. cbv zeta.
  generalize ((if env_activeBoosters env ATTACK_UP then 1.25 else 1.0)
              * damageMultiplier env). intros dmgMult.
  assert (H : forall l s0, l ⊆ p_equippedWeapons (player s) ->
                appends (shot_of_loadout s) s s0 ->
                appends (shot_of_loadout s) s (foldl (fire_weapon env dmgMult) s0 l)).
  { induction l as [|w l IH]; intros s0 Hsub H0; [exact H0|].
    cbn [foldl]. apply IH; [set_solver|].
    eapply appends_trans; [exact H0|].
    eapply appends_weaken; [|apply fire_weapon_appends].
    intros b Hb. exists w. split; [set_solver|exact Hb]. }
  apply H; [reflexivity|apply appends_refl].
Qed.

Lemma live_orbs_push b s :
  b_owner b = by_player -> b_weaponId b = Some ORBITING_ORBS -> b_dead b = false ->
  live_orbs (push_bullets [b] s) = S (live_orbs s).
Proof.
  intros H1 H2 H3. unfold live_orbs. cbn [bullets push_bullets set_bullets].
  rewrite filter_app, length_app, filter_cons_True by auto. cbn. lia.
Qed.

(** X12.  The orbiting orbs respect their cap: an emission adds at most one orb,
    and none when as many live orbs as the level allows (2, 3 or 4) are
    there. *)
Theorem orbs_stay_under_the_cap env lvl dmgMult s :
  (live_orbs (emit env ORBITING_ORBS lvl dmgMult s)
   <= Nat.max (live_orbs s) (maxOrbs lvl))%nat
  /\ (live_orbs s <= live_orbs (emit env ORBITING_ORBS lvl dmgMult s)
      <= S (live_orbs s))%nat.
Proof.
  unfold emit. cbv zeta. fold (live_orbs s). fold (maxOrbs lvl).
  destruct (Nat.ltb_spec (live_orbs s) (maxOrbs lvl)); cbn [andb]; [|lia].
  destruct (_ =? _)%nat; [|lia].
  rewrite live_orbs_push by reflexivity. lia.
Qed.


(** ** Arrivals *)

Lemma joined_escort env (boss : Enemy) (ks : list nat) s :
  exists l, joined l s (foldl (fun s i =>
                          let '(r, s) := random env s in
                          push_enemies [seraph_drone env boss i (r * 60)] s) s ks)
            /\ length l = length ks /\ Forall (escort_drone boss) l.
Proof.
  revert s. induction ks as [|k ks IH]; intros s.
  - exists []. repeat split; auto. cbn. now rewrite app_nil_r.
  - cbn [foldl]. unfold random at 2. cbv zeta.
    match goal with |- context [foldl _ ?s1 ks] =>
      destruct (IH s1) as (l & (J1 & J2 & J3) & Hl & Hd) end.
    eexists (_ :: l). split; [|split; [cbn; now rewrite Hl|]].
    + split; [rewrite J1; cbn [enemies push_enemies set_enemies set_rng];
              rewrite <- app_assoc; reflexivity|].
      split; [rewrite J2|rewrite J3]; reflexivity.
    + constructor; [repeat split|exact Hd].
Qed.

Lemma joined_ghost env ty x y s :
  exists g, joined [g] s (spawnGhostDrone env ty x y s) /\ escort g.
Proof.
  unfold spawnGhostDrone, random. cbv zeta.
  eexists. split; [split; [reflexivity|split; reflexivity]|].
  split; [discriminate|reflexivity].
Qed.

Lemma arriving_boss_literal env s v : arriving_boss (boss_literal env s v).
Proof. repeat split. Qed.

Lemma arriving_boss_gravity t d e :
  arriving_boss e -> arriving_boss (set_e_gravityTimer t (set_e_gravityDir d e)).
Proof. intros H. exact H. Qed.

Lemma escort_drone_is_escort boss d : escort_drone boss d -> escort d.
Proof. intros (D1 & _ & _ & _ & D5). split; [rewrite D1; discriminate|exact D5]. Qed.

Lemma boss_and_escort env b st (delta : bool) :
  let s3 := set_bossRef (Some (e_id b)) (push_enemies [b] st) in
  let s4 := if delta
            then foldl (fun s i =>
                   let '(r, s) := random env s in
                   push_enemies [seraph_drone env b i (r * 60)] s) s3 (seq 0 6)
            else s3 in
  exists after, enemies s4 = enemies st ++ [b] ++ after
                /\ bossActive s4 = bossActive st /\ bossRef s4 = Some (e_id b)
                /\ Forall escort after
                /\ (delta = true -> length after = 6%nat /\ Forall (escort_drone b) after).
Proof.
  intros s3 s4. destruct delta.
  - destruct (joined_escort env b (seq 0 6) s3) as (l & (J1 & J2 & J3) & Hl & Hd).
    exists l. subst s4. rewrite J1, J2, J3. subst s3.
    split; [cbn [enemies push_enemies set_enemies set_bossRef];
            now rewrite <- app_assoc|].
    split; [reflexivity|]. split; [reflexivity|].
    split; [eapply Forall_impl; [exact Hd|apply escort_drone_is_escort]|].
    intros _. split; [exact Hl|exact Hd].
  - exists []. subst s4 s3. repeat split; auto; discriminate.
Qed.

Lemma generateBoss_shape env fv s :
  bossActive s = false ->
  exists b1 s2 before (delta : bool),
    generateBoss env fv s
    = (let s3 := set_bossRef (Some (e_id b1)) (push_enemies [b1] s2) in
       if delta
       then foldl (fun s i =>
              let '(r, s) := random env s in
              push_enemies [seraph_drone env b1 i (r * 60)] s) s3 (seq 0 6)
       else s3)
    /\ arriving_boss b1 /\ enemies s2 = enemies s ++ before
    /\ bossActive s2 = true /\ Forall escort before
    /\ delta = bool_decide (e_variant b1 = Some V_delta)
    /\ e_variant b1 = chosen_variant env fv s
    /\ (e_variant b1 <> Some V_alptraum -> before = [])
    /\ e_hp b1 = finalHp env (difficulty s) (stage s) (e_variant b1).
Proof.
  intros H. unfold generateBoss. rewrite H. cbv zeta. unfold random at 1. cbv zeta.
  match goal with |- context [boss_literal env ?w ?v] =>
    set (variant := v); set (s0 := w) end.
  assert (H0 : enemies s0 = enemies s /\ bossActive s0 = true) by (split; reflexivity).
  pose proof (arriving_boss_literal env s0 variant) as Hb0.
  assert (Hv0 : e_variant (boss_literal env s0 variant) = variant) by reflexivity.
  assert (Hc : variant = chosen_variant env fv s) by reflexivity.
  assert (Hh0 : e_hp (boss_literal env s0 variant)
                = finalHp env (difficulty s) (stage s) variant) by reflexivity.
  set (b0 := boss_literal env s0 variant) in *.
  clearbody b0 s0 variant. destruct H0 as (E0 & A0).
  match goal with |- context [let '(boss, s) := ?p in _] =>
    assert (H1 : exists b1 s1, p = (b1, s1) /\ arriving_boss b1 /\ e_variant b1 = variant
                               /\ e_hp b1 = e_hp b0
                               /\ enemies s1 = enemies s /\ bossActive s1 = true)
  end.
  { destruct (bool_decide (variant = Some V_somniomancer)).
    - unfold random. cbv zeta. eexists; eexists.
      split; [reflexivity|]. split; [apply arriving_boss_gravity, Hb0|].
      split; [exact Hv0|]. split; [reflexivity|]. split; [exact E0|exact A0].
    - exists b0, s0. auto 10. }
  destruct H1 as (b1 & s1 & -> & Hb1 & Hv1 & Hh1 & E1 & A1). clear Hb0 E0 A0 Hv0.
  cbv beta iota zeta.
  match goal with |- context [push_enemies [b1] ?st] =>
    assert (H2 : exists before, enemies st = enemies s ++ before
                                /\ bossActive st = true /\ Forall escort before
                                /\ (variant <> Some V_alptraum -> before = []));
    [|set (s2 := st) in *; clearbody s2]
  end.
  { destruct (bool_decide (variant = Some V_alptraum)) eqn:Ealp.
    - destruct (joined_ghost env T_gorgon (-50) (-50) s1) as (g & (J1 & J2 & J3) & Hg).
      exists [g]. rewrite J1, J2, E1. repeat split; auto.
      intros Hne. apply bool_decide_eq_true in Ealp. contradiction.
    - exists []. rewrite E1, app_nil_r. auto. }
  destruct H2 as (before & E2 & A2 & Hbefore & Hnone).
  exists b1, s2, before, (bool_decide (variant = Some V_delta)).
  split; [reflexivity|]. rewrite Hv1, Hh1, Hh0, <- Hc. auto 15.
Qed.

(** X13.  [generateBoss] does nothing while a boss is active; otherwise it sets the
    flag, so that a second call does nothing, and appends one boss in phase
    1, entering, at full health, with the entry shield of 0.5 for 300 ticks,
    to which [state.boss] refers; what else it appends is not a boss. *)
Theorem a_boss_arrives_once env fv s :
  (bossActive s = true -> generateBoss env fv s = s)
  /\ (bossActive s = false ->
      let s' := generateBoss env fv s in
      bossActive s' = true
      /\ generateBoss env fv s' = s'
      /\ exists boss before after,
           enemies s' = enemies s ++ before ++ [boss] ++ after
           /\ arriving_boss boss /\ bossRef s' = Some (e_id boss)
           /\ Forall escort before /\ Forall escort after).
Proof.
  split; [intros H; unfold generateBoss; now rewrite H|].
  intros H s'.
  destruct (generateBoss_shape env fv s H)
    as (b1 & s2 & before & delta & Hs' & Hb1 & E2 & A2 & Hbefore & _ & _ & _ & _).
  destruct (boss_and_escort env b1 s2 delta) as (after & E4 & A4 & R4 & Hafter & _).
  cbv zeta in E4, A4, R4, Hs'. rewrite <- Hs' in E4, A4, R4. fold s' in E4, A4, R4.
  assert (Ha : bossActive s' = true) by now rewrite A4.
  split; [exact Ha|]. split; [unfold generateBoss; now rewrite Ha|].
  exists b1, before, after. rewrite E4, E2, <- app_assoc. auto.
Qed.

(** X14.  The Seraph (variant delta) arrives with six drones right behind it in the
    array: each is alive, parented to it by id and has a quarter of its hit
    points. *)
Theorem the_seraph_comes_with_six_drones env fv s :
  bossActive s = false -> chosen_variant env fv s = Some V_delta ->
  exists boss drones,
    enemies (generateBoss env fv s) = enemies s ++ boss :: drones
    /\ arriving_boss boss /\ e_variant boss = Some V_delta
    /\ length drones = 6%nat /\ Forall (escort_drone boss) drones.
Proof.
  intros H Hv.
  destruct (generateBoss_shape env fv s H)
    as (b1 & s2 & before & delta & Hs' & Hb1 & E2 & A2 & Hbefore & Hd & Hc & Hn & _).
  rewrite Hv in Hc.
  destruct (boss_and_escort env b1 s2 delta) as (after & E4 & _ & _ & _ & Hsix).
  cbv zeta in E4, Hs'. rewrite <- Hs' in E4.
  rewrite Hc, bool_decide_true in Hd by reflexivity.
  destruct (Hsix Hd) as (Hl & Hdr).
  rewrite (Hn ltac:(rewrite Hc; discriminate)), app_nil_r in E2.
  exists b1, after. rewrite E4, E2. auto.
Qed.

Lemma the_seraph_comes_with_six_drones_witness :
  exists boss drones,
    enemies (generateBoss quiet_env (Some V_delta) (world_stage NORMAL 1))
    = enemies (world_stage NORMAL 1) ++ boss :: drones
    /\ arriving_boss boss /\ e_variant boss = Some V_delta
    /\ length drones = 6%nat /\ Forall (escort_drone boss) drones.
Proof.
  apply (the_seraph_comes_with_six_drones quiet_env (Some V_delta) (world_stage NORMAL 1));
    reflexivity.
Defined.

Lemma a_boss_arrives_once_witness :
  let s := world_stage HARD 2 in
  let s' := generateBoss quiet_env (Some V_alptraum) s in
  bossActive s' = true
  /\ generateBoss quiet_env (Some V_alptraum) s' = s'
  /\ exists boss before after,
       enemies s' = enemies s ++ before ++ [boss] ++ after
       /\ arriving_boss boss /\ bossRef s' = Some (e_id boss)
       /\ Forall escort before /\ Forall escort after.
Proof.
  destruct (a_boss_arrives_once quiet_env (Some V_alptraum) (world_stage HARD 2))
    as (_ & H).
  apply H. reflexivity.
Defined.

Lemma Qnat_le a b : (a <= b)%nat -> Qnat a <= Qnat b.
Proof. intros H. unfold Qnat. rewrite <- Zle_Qle. lia. Qed.

Lemma Qnat_nonneg a : 0 <= Qnat a.
Proof. change 0 with (Qnat 0). apply Qnat_le. lia. Qed.

Lemma Qnat_pos a : (1 <= a)%nat -> 1 <= Qnat a.
Proof. change 1 with (Qnat 1). apply Qnat_le. Qed.

Lemma Math_min_mono a x y : x <= y -> Math_min a x <= Math_min a y.
Proof.
  intros H. unfold Math_min.
  destruct (Qleb a x) eqn:E1, (Qleb a y) eqn:E2;
    rewrite ?Qleb_le, ?Qleb_gt in *; lra.
Qed.

Lemma Math_min_bounds a x : 0 <= a -> 0 <= x -> 0 <= Math_min a x <= a.
Proof.
  intros Ha Hx. unfold Math_min. destruct (Qleb a x) eqn:E;
    rewrite ?Qleb_le, ?Qleb_gt in *; lra.
Qed.

Lemma difficulty_multiplier_pos d : 0 < difficulty_multiplier d.
Proof. unfold difficulty_multiplier. break_ifs; lra. Qed.

(** X15.  The hit points of a boss are positive from stage 1 on and do not go down
    from one stage to a later one, for every difficulty, variant and mode. *)
Theorem boss_hit_points_grow_with_the_stage env d v st st' :
  (1 <= st)%nat -> (st <= st')%nat ->
  0 < finalHp env d st v /\ finalHp env d st v <= finalHp env d st' v.
Proof.
  intros H1 Hle. unfold finalHp. cbv zeta.
  pose proof (Qnat_pos st H1) as P1.
  pose proof (Qnat_le st st' Hle) as P2.
  pose proof (difficulty_multiplier_pos d) as Pm.
  set (m := difficulty_multiplier d) in *. clearbody m.
  set (a := Qnat st) in *. set (b := Qnat st') in *. clearbody a b.
  unfold Qdiv. change (/ 14) with (1 # 14).
  assert (Hp : 0 <= Math_min 1 ((a - 1) * (1 # 14)) <= 1)
    by (apply Math_min_bounds; lra).
  assert (Hq : Math_min 1 ((a - 1) * (1 # 14)) <= Math_min 1 ((b - 1) * (1 # 14)))
    by (apply Math_min_mono; lra).
  set (pa := Math_min 1 ((a - 1) * (1 # 14))) in *.
  set (pb := Math_min 1 ((b - 1) * (1 # 14))) in *. clearbody pa pb.
  assert (Hn : 2500 * a * (2.5 * (1 + a * 0.75)) <= 2500 * b * (2.5 * (1 + b * 0.75)))
    by nra.
  assert (Hn0 : 0 < 2500 * a * (2.5 * (1 + a * 0.75))) by nra.
  assert (Hm : 2500 * a * m <= 2500 * b * m) by nra.
  assert (Hm0 : 0 < 2500 * a * m) by nra.
  destruct (env_practiceMode env), (bool_decide (d = BOSS_RUSH)),
    (bool_decide (d = BOSS_RUSH_EXTREME)), (bool_decide (d = INFINITY)),
    (bool_decide (v = Some V_gamma)), (bool_decide (v = Some V_revenant));
    split; lra.
Qed.

Lemma boss_hit_points_grow_with_the_stage_witness :
  0 < finalHp quiet_env BOSS_RUSH 3 (Some V_gamma)
  /\ finalHp quiet_env BOSS_RUSH 3 (Some V_gamma)
     <= finalHp quiet_env BOSS_RUSH 20 (Some V_gamma).
Proof.
  apply (boss_hit_points_grow_with_the_stage quiet_env BOSS_RUSH (Some V_gamma) 3 20); lia.
Defined.

Lemma boss_variants_length d : (5 <= length (boss_variants d))%nat.
Proof. unfold boss_variants. rewrite length_app. cbn. lia. Qed.

Lemma at_index_rotation {A} (l : list A) (st : nat) :
  (1 <= st)%nat -> (0 < length l)%nat ->
  at_index l (Z.rem (Z.of_nat st - 1) (Z.of_nat (length l)))
  = l !! ((st - 1) mod length l)%nat.
Proof.
  intros H1 Hl. unfold at_index.
  rewrite Z.rem_mod_nonneg by lia.
  replace (Z.of_nat st - 1)%Z with (Z.of_nat (st - 1)) by lia.
  rewrite <- Nat2Z.inj_mod.
  destruct (Z.ltb_spec (Z.of_nat ((st - 1) mod length l)) 0); [lia|].
  now rewrite Nat2Z.id.
Qed.

(** X16.  In a boss rush the variant is not drawn: the boss of stage [n] has the
    variant of index [(n - 1) mod] the number of variants of the difficulty. *)
Theorem boss_rush_walks_the_variants env s :
  bossActive s = false -> isBossRush (difficulty s) = true -> (1 <= stage s)%nat ->
  let vs := boss_variants (difficulty s) in
  exists boss v,
    boss ∈ enemies (generateBoss env None s) /\ arriving_boss boss
    /\ e_variant boss = Some v
    /\ vs !! ((stage s - 1) mod length vs)%nat = Some v.
Proof.
  intros H Hr H1 vs.
  destruct (generateBoss_shape env None s H)
    as (b1 & s2 & before & delta & Hs' & Hb1 & E2 & A2 & Hbefore & Hd & Hc & Hn & _).
  destruct (boss_and_escort env b1 s2 delta) as (after & E4 & _ & _ & _ & _).
  cbv zeta in E4, Hs'. rewrite <- Hs' in E4.
  unfold chosen_variant in Hc. cbv zeta in Hc. rewrite Hr in Hc.
  pose proof (boss_variants_length (difficulty s)) as Hlen.
  rewrite at_index_rotation in Hc by lia. fold vs in Hc, Hlen.
  destruct (vs !! ((stage s - 1) mod length vs)%nat) as [v|] eqn:Hv.
  - exists b1, v. split; [|auto].
    rewrite E4. apply elem_of_app. right. apply elem_of_app. left.
    apply list_elem_of_singleton. reflexivity.
  - apply lookup_ge_None in Hv.
    pose proof (Nat.mod_upper_bound (stage s - 1) (length vs)). lia.
Qed.

Lemma boss_rush_walks_the_variants_witness :
  let s := world_stage BOSS_RUSH 7 in
  let vs := boss_variants (difficulty s) in
  exists boss v,
    boss ∈ enemies (generateBoss quiet_env None s) /\ arriving_boss boss
    /\ e_variant boss = Some v
    /\ vs !! ((stage s - 1) mod length vs)%nat = Some v.
Proof.
  apply (boss_rush_walks_the_variants quiet_env (world_stage BOSS_RUSH 7));
    [reflexivity|reflexivity|cbn; lia].
Defined.

(** X17.  [spawnSpecificMob] appends one live enemy of the type asked for, at the
    given abscissa, 30 above the canvas, at full health, with the hit points
    of its type times the stage multiplier (never less than the base) and
    the score value of its type; the player and the projectiles are left
    alone. *)
Theorem a_mob_arrives_with_its_stats env ty x s :
  exists e,
    enemies (spawnSpecificMob env ty x s) = enemies s ++ [e]
    /\ bullets (spawnSpecificMob env ty x s) = bullets s
    /\ player (spawnSpecificMob env ty x s) = player s
    /\ e_type e = ty /\ e_dead e = false /\ e_x e = x /\ e_y e = -30
    /\ e_hp e = e_maxHp e
    /\ e_hp e = (mob_stats ty).1.1 * hpMult env s
    /\ e_scoreValue e = (mob_stats ty).2
    /\ (mob_stats ty).1.1 <= e_hp e.
Proof.
  assert (Hm : 1 <= hpMult env s).
  { unfold hpMult. pose proof (Qnat_nonneg (stage s)).
    destruct (env_practiceMode env); [lra|]. destruct (bool_decide _); lra. }
  assert (Hb : 0 < (mob_stats ty).1.1) by (destruct ty; cbn; lra).
  unfold spawnSpecificMob.
  destruct (mob_stats ty) as [[hp w] sc]. cbn [fst snd] in *.
  unfold random. cbv zeta.
  change (hpMult env (set_rng (S (rng s)) s)) with (hpMult env s).
  generalize (bool_decide (ty = T_gorgon)), (bool_decide (ty = T_aegis_bot)),
    (bool_decide (ty = T_sniper)), (bool_decide (ty = T_reflector)),
    (bool_decide (ty = T_lich)).
  intros c1 c2 c3 c4 c5.
  destruct c1, c2, c3, c4, c5;
    (eexists; split; [reflexivity|]);
    cbn [e_type e_dead e_x e_y e_hp e_maxHp e_scoreValue spawned set_e_shotTimer
         set_e_burstCount set_e_laserCharge set_e_shieldTimer set_e_shieldActive
         set_e_invulnTimer set_e_dmgReduction set_e_patternTimer set_e_isReflecting];
    repeat split; try reflexivity; nra.
Qed.

(** X18.  The spawn interval of a regular run is between 4 and 50 frames, does not
    grow with the stage, and is 4 in the infinity mode from stage 4 on. *)
Theorem the_spawn_interval_is_bounded d st st' :
  (st <= st')%nat ->
  (4 <= spawnRate d st <= 50)%Z
  /\ (spawnRate d st' <= spawnRate d st)%Z
  /\ (d = INFINITY -> (4 <= st)%nat -> spawnRate d st = 4%Z).
Proof.
  intros H. unfold spawnRate. cbv zeta.
  destruct (bool_decide (d = HARD)), (bool_decide (d = EASY)),
    (bool_decide (d = EXTREME)), (bool_decide (d = INFINITY)) eqn:E;
    repeat split; try lia; intros Hd; try lia;
    subst d; rewrite bool_decide_true in E by reflexivity; discriminate.
Qed.

Lemma the_spawn_interval_is_bounded_witness :
  (4 <= spawnRate INFINITY 5 <= 50)%Z
  /\ (spawnRate INFINITY 6 <= spawnRate INFINITY 5)%Z
  /\ spawnRate INFINITY 5 = 4%Z.
Proof.
  destruct (the_spawn_interval_is_bounded INFINITY 5 6) as (H1 & H2 & H3); [lia|].
  split; [exact H1|]. split; [exact H2|]. apply H3; [reflexivity|lia].
Defined.


(** ** Piercing projectiles in the loop over the enemies *)




(** ** The profile *)

Lemma shop_step_funds cat p a :
  (0 <= pf_dataFragments p)%Z -> (0 <= pf_dataFragments (shop cat p a))%Z.
Proof.
  intros H. destruct a; cbn [shop].
  - unfold handleUnlockWeapon. cbv zeta.
    destruct (Z.leb_spec (WEAPONS_unlockCost cat id) (pf_dataFragments p)); cbn; lia.
  - unfold handleUnlockSpell. cbv zeta.
    destruct (Z.leb_spec (SPELL_CARDS_unlockCost cat id) (pf_dataFragments p)); cbn; lia.
  - unfold handleUnlockDatabaseEntry.
    destruct (DATABASE_ENTRIES_cost cat id) as [c|]; [|exact H].
    destruct (Z.leb_spec c (pf_dataFragments p)); cbn; lia.
  - unfold handleUpgradeWeapon. cbv zeta.
    destruct (3 <=? _)%nat; [exact H|].
    match goal with |- context [(?c <=? pf_dataFragments p)%Z] =>
      destruct (Z.leb_spec c (pf_dataFragments p)) end; cbn; lia.
  - unfold handleUpgradeSpell. cbv zeta.
    destruct (3 <=? _)%nat; [exact H|].
    match goal with |- context [(?c <=? pf_dataFragments p)%Z] =>
      destruct (Z.leb_spec c (pf_dataFragments p)) end; cbn; lia.
  - unfold handleUpgradeSlot. cbv zeta. destruct weapon.
    + destruct (_ <? 4)%nat; [|exact H]. cbn [andb].
      match goal with |- context [(?c <=? pf_dataFragments p)%Z] =>
        destruct (Z.leb_spec c (pf_dataFragments p)) end; cbn; lia.
    + destruct (_ <? 2)%nat; [|exact H]. cbn [andb].
      destruct (Z.leb_spec 1500 (pf_dataFragments p)); cbn; lia.
  - unfold handleBuyBooster. cbv zeta.
    destruct (Z.leb_spec (BOOSTERS_cost cat id) (pf_dataFragments p)); cbn [andb];
      [|exact H].
    destruct (negb _); cbn; lia.
Qed.

(** X20.  The menus never overdraw the account: whatever the prices of the
    catalogue, after any sequence of purchases, upgrades and unlocks the
    balance of fragments is not negative if it was not before. *)
Theorem the_shop_never_overdraws cat p acts :
  (0 <= pf_dataFragments p)%Z ->
  (0 <= pf_dataFragments (foldl (shop cat) p acts))%Z.
Proof.
  revert p. induction acts as [|a acts IH]; intros p H; cbn [foldl]; [exact H|].
  apply IH. now apply shop_step_funds.
Qed.

Lemma the_shop_never_overdraws_witness :
  (0 <= pf_dataFragments
          (foldl (shop a_catalog) (first_profile NORMAL None)
             [UnlockWeapon GAUSS_CANNON; UpgradeWeapon PLASMA_CUTTER;
              BuyBooster ATTACK_UP]))%Z.
Proof.
  apply (the_shop_never_overdraws a_catalog (first_profile NORMAL None)).
  cbn. lia.
Defined.

Lemma shop_step_caps cat p a : within_caps p -> within_caps (shop cat p a).
Proof.
  intros (Hw & Hs & Hws & Hss). destruct a; cbn [shop].
  - unfold handleUnlockWeapon. cbv zeta. destruct (_ <=? _)%Z; repeat split; auto.
  - unfold handleUnlockSpell. cbv zeta. destruct (_ <=? _)%Z; repeat split; auto.
  - unfold handleUnlockDatabaseEntry.
    destruct (DATABASE_ENTRIES_cost cat id); [|repeat split; auto].
    destruct (_ <=? _)%Z; repeat split; auto.
  - unfold handleUpgradeWeapon. cbv zeta.
    destruct (Nat.leb_spec 3 (pf_weaponLevels p id)); [repeat split; auto|].
    destruct (_ <=? _)%Z; [|repeat split; auto].
    split; [|repeat split; auto]. intros w. cbn. unfold with_entry.
    destruct (decide (w = id)); [lia|apply Hw].
  - unfold handleUpgradeSpell. cbv zeta.
    destruct (Nat.leb_spec 3 (pf_spellLevels p id)); [repeat split; auto|].
    destruct (_ <=? _)%Z; [|repeat split; auto].
    split; [auto|]. split; [|split; auto]. intros sp. cbn. unfold with_entry.
    destruct (decide (sp = id)); [lia|apply Hs].
  - unfold handleUpgradeSlot. cbv zeta. destruct weapon.
    + destruct (Nat.ltb_spec (pf_maxWeaponSlots p) 4); [|repeat split; auto].
      cbn [andb]. destruct (_ <=? _)%Z; repeat split; auto. cbn. lia.
    + destruct (Nat.ltb_spec (pf_maxSpellSlots p) 2); [|repeat split; auto].
      cbn [andb]. destruct (_ <=? _)%Z; repeat split; auto. cbn. lia.
  - unfold handleBuyBooster. cbv zeta. destruct (_ && _); repeat split; auto.
Qed.

(** X21.  Levels and slots stay within their caps: no sequence of actions in the
    menus takes a weapon or a spell above level 3, the weapon slots above 4
    or the spell slots above 2. *)
Theorem upgrades_stop_at_the_caps cat p acts :
  within_caps p -> within_caps (foldl (shop cat) p acts).
Proof.
  revert p. induction acts as [|a acts IH]; intros p H; cbn [foldl]; [exact H|].
  apply IH. now apply shop_step_caps.
Qed.

Lemma upgrades_stop_at_the_caps_witness :
  within_caps (foldl (shop a_catalog) (first_profile NORMAL None)
                 [UpgradeWeapon PLASMA_CUTTER; UpgradeWeapon PLASMA_CUTTER;
                  UpgradeWeapon PLASMA_CUTTER; UpgradeSlot true]).
Proof.
  apply (upgrades_stop_at_the_caps a_catalog (first_profile NORMAL None)).
  repeat split; intros; cbn; lia.
Defined.

(** X22.  The end of a regular run is booked once: one game more, the fragments of
    the run (with the clear bonus of a half, rounded down, on a win) added to
    the balance and to the collected total, the best score not lowered and at
    least the score of the run, one death more on a loss and none on a win,
    the boosters spent, the pity stacks at most 100.  The end of a practice
    run changes neither the balance nor the statistics nor the boosters. *)
Theorem a_run_is_booked ev p :
  let p' := handleGameOver ev p in
  let bonus := if ev_win ev then (ev_fragments ev * 3 / 2)%Z else ev_fragments ev in
  (pf_practiceConfig p = None ->
   pf_dataFragments p' = (pf_dataFragments p + bonus)%Z
   /\ totalGamesPlayed (pf_gameStats p') = S (totalGamesPlayed (pf_gameStats p))
   /\ totalFragmentsCollected (pf_gameStats p')
      = (totalFragmentsCollected (pf_gameStats p) + bonus)%Z
   /\ (highestScore (pf_gameStats p) <= highestScore (pf_gameStats p'))%Z
   /\ (ev_score ev <= highestScore (pf_gameStats p'))%Z
   /\ totalDeaths (pf_gameStats p')
      = (totalDeaths (pf_gameStats p) + (if ev_win ev then 0 else 1))%nat
   /\ (forall b, pf_activeBoosters p' b = false)
   /\ ((pf_pityStacks p <= 100)%nat -> (pf_pityStacks p' <= 100)%nat)
   /\ ((0 <= ev_fragments ev)%Z -> (ev_fragments ev <= bonus)%Z))
  /\ (pf_practiceConfig p <> None ->
      pf_dataFragments p' = pf_dataFragments p
      /\ pf_gameStats p' = pf_gameStats p
      /\ pf_activeBoosters p' = pf_activeBoosters p
      /\ pf_pityStacks p' = pf_pityStacks p).
Proof.
  cbv zeta. unfold handleGameOver. cbv zeta. split.
  - intros ->. cbn -[Nat.min Z.max Z.div Z.mul Z.add Nat.add Nat.max].
    repeat split; try lia.
    + intros H. destruct (pf_pitySystemEnabled p); [|exact H].
      destruct (ev_win ev); lia.
    + intros H. destruct (ev_win ev); [|lia].
      apply Z.div_le_lower_bound; lia.
  - intros H. destruct (pf_practiceConfig p) as [[entry diff]|]; [|congruence].
    cbn. auto.
Qed.

Lemma a_run_is_booked_witness :
  pf_dataFragments (handleGameOver a_won_run (first_profile NORMAL None)) = 561%Z
  /\ totalGamesPlayed (pf_gameStats (handleGameOver a_won_run (first_profile NORMAL None)))
     = 1%nat.
Proof.
  destruct (a_run_is_booked a_won_run (first_profile NORMAL None)) as (H & _).
  destruct (H eq_refl) as (H1 & H2 & _).
  split; [exact H1|exact H2].
Defined.
